(** * BetterForward-enhance: verification, appeal and relay handlers

    A shallow embedding of
      - [src/utils/captcha.py]            (class [CaptchaManager]),
      - [src/handlers/message_handler.py] (class [MessageHandler]),
      - [src/handlers/callback_handler.py] (class [CallbackHandler]),
      - [db_migrate/20251225_verification_enhancement.py] ([upgrade]),
    followed by the properties established about them.

    Conventions.  Python [int] is [Z]; [str] is [string]; [None] is the
    [None] of an option.  The SQLite store is a record of tables; a table
    whose declaration makes [user_id] a key is a [gmap Z row].  The
    diskcache [Cache] is a [gmap] from the very key strings the code builds
    with f-strings.  Handlers run in a state-and-exception monad over the
    [world]; every call on the bot, the logger and the Telegram API helpers
    is appended to the world's trace. *)

From Stdlib Require Import ZArith String Ascii List Bool Lia.
From stdpp Require Import base option list gmap strings pretty fin_maps.

Open Scope Z_scope.
Open Scope string_scope.

(** ** Python values *)

(** The values the handlers keep in the cache or read out of a decoded
    callback payload. *)
Inductive pyval :=
| PBool (b : bool)
| PInt (z : Z)
| PStr (s : string).

(** [str(v)]. *)
Definition py_str (v : pyval) : string :=
  match v with
  | PBool true => "True"
  | PBool false => "False"
  | PInt z => pretty z
  | PStr s => s
  end.

(** Truth value of [v], as tested by [if v:] and [not v]. *)
Definition truthy (v : pyval) : bool :=
  match v with
  | PBool b => b
  | PInt z => negb (z =? 0)%Z
  | PStr s => negb (String.eqb s EmptyString)
  end.

(** [x or default] on an optional string. *)
Definition str_or (x : option string) (default : string) : string :=
  match x with
  | Some s => if String.eqb s EmptyString then default else s
  | None => default
  end.

(** [needle in haystack] on strings. *)
Definition contains (needle haystack : string) : bool :=
  match String.index 0 needle haystack with
  | Some _ => true
  | None => false
  end.

(** ** Telegram objects *)

Record user := mkUser {
  id : Z;
  username : option string;
  first_name : option string;
  last_name : option string
}.

(** [message.reply_to_message], reduced to the two attributes that are
    read: its [message_id] and its [from_user.id]. *)
Record reply_ref := mkReply {
  reply_message_id : Z;
  reply_from_id : Z
}.

Record message := mkMessage {
  message_id : Z;
  from_user : user;
  chat_id : Z;
  message_thread_id : option Z;
  text : option string;
  content_type : string;
  reply_to_message : option reply_ref
}.

(** ** The persistent store *)

Record blocked_row := mkBlocked {
  b_username : option string;
  b_first_name : option string;
  b_last_name : option string;
  block_reason : option string;
  blocked_at : Z
}.

(** A row of [verification_attempts]; the autoincrement [id] and
    [created_at] are never read or written by the handlers. *)
Record attempt_row := mkAttempt {
  attempt_count : Z;
  last_attempt_time : option Z;
  blocked_by_attempts : bool
}.

(** A row of [appeal_requests]; [appeal_message] is never written. *)
Record appeal_row := mkAppeal {
  appeal_time : Z;
  status : string;
  admin_id : option Z;
  handled_at : option Z
}.

Record message_row := mkMessageRow {
  received_id : Z;
  forwarded_id : Z;
  topic_id : Z;
  in_group : bool
}.

(** [blocked_users.user_id] is the primary key, and [user_id] is UNIQUE in
    [verification_attempts] and [appeal_requests]: these are maps.  Of
    [verified_users] only the presence of a user id is ever read, so it is
    a set.  [topics] and [messages] are row lists in insertion order, the
    order in which [LIMIT 1] picks. *)
Record store := mkStore {
  topics : list (Z * Z);
  messages : list message_row;
  blocked_users : gmap Z blocked_row;
  verification_attempts : gmap Z attempt_row;
  appeal_requests : gmap Z appeal_row;
  verified_users : gset Z
}.

(** ** The cache *)

(** An entry as written by [cache.set(key, value, expire)].  Expiry is a
    move of the environment between two handler runs: an entry that has
    expired is an entry that is absent. *)
Record cache_entry := mkEntry {
  cvalue : pyval;
  expire : option Z
}.

(** ** Observable effects *)

(** The inline keyboards the handlers attach.  [SendPhoto] is the
    [send_photo] of a rendered captcha picture; [SendMedia kind] is
    [send_photo], [send_sticker], [send_video] or [send_document] with a
    stored file as its [kind] argument. *)
Inductive markup :=
| AppealButton (user_id : Z)
| VerifyButton (user_id : Z)
| ApproveRejectButtons (user_id : Z)
| EmptyMarkup.

Inductive event :=
| LogInfo (msg : string)
| LogWarning (msg : string)
| LogError (msg : string)
| SendMessage (chat : Z) (body : string) (thread reply_to : option Z)
              (keyboard : option markup)
| SendPhoto (chat : Z) (caption : string)
| SendMedia (kind : string) (chat : Z) (media : string)
| AnswerCallbackQuery (query_id : string) (body : option string)
| EditMessageText (body : string) (chat : Z) (msg_id : Z)
| DeleteMessage (chat : Z) (msg_id : Z)
| SendByType (m : message) (chat : Z) (thread reply_to : option Z)
             (silent : bool)
| CreateForumTopic (title : string)
| PinChatMessage (chat : Z) (msg_id : Z)
| ForwardMessage (chat from_chat : Z) (msg_id : Z)
| CloseForumTopic (thread : option Z)
| External (component : string) (call : string).

(** ** Exceptions *)

Inductive exn :=
| JSONDecodeError
| KeyError (key : string)
| TypeError (msg : string)
| ValueError (msg : string)
| ApiTelegramException (description : string)
| IntegrityError (msg : string)
| Unmodelled (what : string).

Inductive result (A : Type) :=
| Return (a : A)
| Raise (e : exn).
Arguments Return {A} a.
Arguments Raise {A} e.

(** ** The world and the handler monad *)

(** [rng] is the stream [random] draws from and [rng_pos] the number of
    draws made so far; [clock] is what [CURRENT_TIMESTAMP] evaluates to. *)
Record world := mkWorld {
  db : store;
  cache : gmap string cache_entry;
  trace : list event;
  rng : nat -> Z;
  rng_pos : nat;
  clock : Z
}.

Definition M (A : Type) : Type := world -> result A * world.

#[export] Instance M_ret : MRet M := fun A a w => (Return a, w).

#[export] Instance M_bind : MBind M := fun A B f m w =>
  match m w with
  | (Return a, w') => f a w'
  | (Raise e, w') => (Raise e, w')
  end.

Definition raise {A} (e : exn) : M A := fun w => (Raise e, w).

Definition get_db : M store := fun w => (Return (db w), w).

Definition set_db (s : store) : M unit := fun w =>
  (Return tt, mkWorld s (cache w) (trace w) (rng w) (rng_pos w) (clock w)).

Definition emit (e : event) : M unit := fun w =>
  (Return tt,
   mkWorld (db w) (cache w) (trace w ++ [e]) (rng w) (rng_pos w) (clock w)).

Definition current_timestamp : M Z := fun w => (Return (clock w), w).

(** [try: body except E: handler] for the exceptions selected by
    [catches]. *)
Definition try_except {A} (body : M A) (catches : exn -> bool)
    (handler : exn -> M A) : M A := fun w =>
  match body w with
  | (Return a, w') => (Return a, w')
  | (Raise e, w') => if catches e then handler e w' else (Raise e, w')
  end.

(** [random.randint(lo, hi)]: the next draw, brought into [lo..hi]. *)
Definition randint (lo hi : Z) : M Z := fun w =>
  (Return (lo + rng w (rng_pos w) mod (hi - lo + 1)),
   mkWorld (db w) (cache w) (trace w) (rng w) (S (rng_pos w)) (clock w)).

(** *** Cache operations *)

Definition cache_get (key : string) : M (option pyval) := fun w =>
  (Return (cvalue <$> cache w !! key), w).

Definition cache_set (key : string) (v : pyval) (ttl : option Z) : M unit :=
  fun w =>
  (Return tt,
   mkWorld (db w) (<[key := mkEntry v ttl]> (cache w)) (trace w)
           (rng w) (rng_pos w) (clock w)).

Definition cache_delete (key : string) : M unit := fun w =>
  (Return tt,
   mkWorld (db w) (delete key (cache w)) (trace w)
           (rng w) (rng_pos w) (clock w)).

(** [cache.get(key) == s] for a string literal [s]. *)
Definition is_str (o : option pyval) (s : string) : bool :=
  match o with
  | Some (PStr s') => String.eqb s' s
  | _ => false
  end.

(** Truth value of a [cache.get] result. *)
Definition opt_truthy (o : option pyval) : bool :=
  match o with
  | Some v => truthy v
  | None => false
  end.

(** The key strings, as the f-strings build them. *)
Definition captcha_key (user_id : Z) : string := "captcha_" +:+ pretty user_id.
Definition verified_key (user_id : Z) : string := "verified_" +:+ pretty user_id.
Definition appeal_verification_key (user_id : Z) : string :=
  "appeal_verification_" +:+ pretty user_id.
Definition rate_limit_key (user_id : Z) : string :=
  "captcha_rate_limit_" +:+ pretty user_id.
Definition chat_threadid_key (user_id : Z) : string :=
  "chat_" +:+ pretty user_id +:+ "_threadid".
Definition threadid_userid_key (thread_id : Z) : string :=
  "threadid_" +:+ pretty thread_id +:+ "_userid".

(** *** Store updates, one per SQL statement shape *)

Definition with_topics (s : store) (t : list (Z * Z)) : store :=
  mkStore t (messages s) (blocked_users s) (verification_attempts s)
          (appeal_requests s) (verified_users s).
Definition with_messages (s : store) (m : list message_row) : store :=
  mkStore (topics s) m (blocked_users s) (verification_attempts s)
          (appeal_requests s) (verified_users s).
Definition with_blocked_users (s : store) (b : gmap Z blocked_row) : store :=
  mkStore (topics s) (messages s) b (verification_attempts s)
          (appeal_requests s) (verified_users s).
Definition with_verification_attempts (s : store) (a : gmap Z attempt_row)
  : store :=
  mkStore (topics s) (messages s) (blocked_users s) a
          (appeal_requests s) (verified_users s).
Definition with_appeal_requests (s : store) (a : gmap Z appeal_row) : store :=
  mkStore (topics s) (messages s) (blocked_users s) (verification_attempts s)
          a (verified_users s).
Definition with_verified_users (s : store) (v : gset Z) : store :=
  mkStore (topics s) (messages s) (blocked_users s) (verification_attempts s)
          (appeal_requests s) v.

Definition modify_db (f : store -> store) : M unit :=
  s ← get_db; set_db (f s).

(** ** [src/utils/captcha.py]: class [CaptchaManager] *)

(** [str(message.text)], where the text of a message without text is
    [None]. *)
Definition str_of_text (t : option string) : string :=
  match t with
  | Some s => s
  | None => "None"
  end.

(** [_generate_image_captcha]: four random digits, kept for 300 seconds;
    the rendering of the picture is left to the imaging library and only
    the [send_photo] call is recorded. *)
Definition _generate_image_captcha (user_id : Z) : M (option string) :=
  d1 ← randint 0 9; d2 ← randint 0 9; d3 ← randint 0 9; d4 ← randint 0 9;
  let captcha_text := pretty d1 +:+ pretty d2 +:+ pretty d3 +:+ pretty d4 in
  cache_set (captcha_key user_id) (PStr captcha_text) (Some 300);;
  emit (SendPhoto user_id "Please enter the 4 digits shown in the image:");;
  mret None.

Definition generate_captcha (user_id : Z) (captcha_type : option pyval)
  : M (option string) :=
  match captcha_type with
  | Some (PStr kind) =>
      if String.eqb kind "math" then
        num1 ← randint 1 50;
        num2 ← randint 1 50;
        let answer := num1 + num2 in
        cache_set (captcha_key user_id) (PInt answer) (Some 300);;
        mret (Some (pretty num1 +:+ " + " +:+ pretty num2 +:+ " = ?"))
      else if String.eqb kind "button" then
        emit (SendMessage user_id "Please click the button to verify."
                None None (Some (VerifyButton user_id)));;
        mret None
      else if String.eqb kind "image" then
        _generate_image_captcha user_id
      else raise (ValueError "Invalid captcha setting")
  | _ => raise (ValueError "Invalid captcha setting")
  end.

(** [prefix + question], which is a [TypeError] when the question is
    [None]. *)
Definition str_add (prefix : string) (question : option string) : M string :=
  match question with
  | Some q => mret (prefix +:+ q)
  | None => raise (TypeError "can only concatenate str to str")
  end.

Definition verify_captcha (user_id : Z) (answer : option string) : M bool :=
  captcha ← cache_get (captcha_key user_id);
  match captcha with
  | None => mret false
  | Some c => mret (String.eqb (str_of_text answer) (py_str c))
  end.

Definition is_user_verified (user_id : Z) : M pyval :=
  verified ← cache_get (verified_key user_id);
  match verified with
  | None =>
      s ← get_db;
      let verified := PBool (bool_decide (user_id ∈ verified_users s)) in
      cache_set (verified_key user_id) verified (Some 1800);;
      mret verified
  | Some v => mret v
  end.

Definition set_user_verified (user_id : Z) : M unit :=
  modify_db (fun s => with_verified_users s ({[user_id]} ∪ verified_users s));;
  cache_set (verified_key user_id) (PBool true) (Some 1800).

Definition remove_user_verification (user_id : Z) : M unit :=
  modify_db (fun s => with_verified_users s (verified_users s ∖ {[user_id]}));;
  cache_delete (verified_key user_id).

(** The count is a [Z].  The source binds [new_count] as a parameter of
    the UPDATE, which the [sqlite3] module refuses, with
    [OverflowError], for an integer that is not 64-bit signed; the steps
    below are those of a count and a user id within that range. *)
Definition record_attempt (user_id : Z) : M Z :=
  s ← get_db;
  now ← current_timestamp;
  match verification_attempts s !! user_id with
  | Some row =>
      let new_count := attempt_count row + 1 in
      set_db (with_verification_attempts s
                (<[user_id := mkAttempt new_count (Some now)
                                (blocked_by_attempts row)]>
                   (verification_attempts s)));;
      mret new_count
  | None =>
      let new_count := 1 in
      set_db (with_verification_attempts s
                (<[user_id := mkAttempt new_count (Some now) false]>
                   (verification_attempts s)));;
      mret new_count
  end.

Definition get_attempt_count (user_id : Z) : M Z :=
  s ← get_db;
  match verification_attempts s !! user_id with
  | Some row => mret (attempt_count row)
  | None => mret 0
  end.

Definition reset_attempts (user_id : Z) : M unit :=
  modify_db (fun s =>
    with_verification_attempts s (delete user_id (verification_attempts s))).

Definition is_blocked_by_attempts (user_id : Z) : M bool :=
  s ← get_db;
  match verification_attempts s !! user_id with
  | Some row => mret (blocked_by_attempts row)
  | None => mret false
  end.

Definition mark_blocked_by_attempts (row : attempt_row) : attempt_row :=
  mkAttempt (attempt_count row) (last_attempt_time row) true.

Definition block_user_by_attempts (user_id : Z)
    (username first_name last_name : option string) : M bool :=
  now ← current_timestamp;
  modify_db (fun s =>
    with_verification_attempts s
      (alter mark_blocked_by_attempts user_id (verification_attempts s)));;
  modify_db (fun s =>
    with_blocked_users s
      (<[user_id := mkBlocked username first_name last_name
                      (Some "auto_attempts") now]> (blocked_users s)));;
  modify_db (fun s => with_verified_users s (verified_users s ∖ {[user_id]}));;
  cache_delete (verified_key user_id);;
  mret true.

(** ** [src/handlers/message_handler.py]: class [MessageHandler] *)

(** [s.lower()] on ASCII letters. *)
Definition lower_ascii (c : ascii) : ascii :=
  let n := nat_of_ascii c in
  if ((65 <=? n) && (n <=? 90))%nat then ascii_of_nat (n + 32) else c.

Fixpoint lower (s : string) : string :=
  match s with
  | EmptyString => EmptyString
  | String c rest => String (lower_ascii c) (lower rest)
  end.

(** The content types [_send_message_by_type] has a case for. *)
Definition supported_content_types : list string :=
  ["photo"; "text"; "sticker"; "video"; "document"; "audio"; "voice";
   "animation"; "contact"].

Definition is_api_exception (e : exn) : bool :=
  match e with
  | ApiTelegramException _ => true
  | _ => false
  end.

(** [except Exception]: everything an execution can raise. *)
Definition is_exception (e : exn) : bool := true.

(** [str(e)] of an [ApiTelegramException] is taken to be the description
    it carries. *)
Definition exn_str (e : exn) : string :=
  match e with
  | JSONDecodeError => "JSONDecodeError"
  | KeyError k => k
  | TypeError m | ValueError m | ApiTelegramException m
  | IntegrityError m | Unmodelled m => m
  end.

(** Notice texts are the source's, shortened to their leading sentence and
    without pictographs and format arguments. *)
Section MessageHandler.

(** The attributes of the handler object and its collaborators.  The
    transport answers a send with the id of the message it created or
    with the description of an API error; [create_forum_topic] answers
    with the new thread id, or fails; [transport_pin] answers the
    sending and pinning of the information message in a new thread:
    [None] when [send_message] fails, and otherwise the id of the
    message sent together with whether [pin_chat_message] succeeds.  A
    call on the bot is recorded when it is made, whether or not it
    fails.  Every write is
    committed before any modelled exception can leave a handler, so no
    rollback arises. *)
Variable group_id : Z.
Variable transport_send : message -> Z -> option Z -> Z + string.
Variable create_forum_topic : string -> option Z.
Variable transport_pin : Z -> option (Z * bool).
Variable match_auto_response : option string -> option (string * string).
Variable spam_detector_manager : option (message -> bool).
Variable bot_instance : option (M unit).

Definition check_valid_chat (message : message) : bool :=
  (chat_id message =? group_id)%Z &&
  bool_decide (message_thread_id message = None).

Definition _send_message_by_type (message : message) (chat_id : Z)
    (thread_id reply_id : option Z) (silent : bool) : M Z :=
  if bool_decide (content_type message ∈ supported_content_types) then
    emit (SendByType message chat_id thread_id reply_id silent);;
    match transport_send message chat_id thread_id with
    | inl fwd_id => mret fwd_id
    | inr description => raise (ApiTelegramException description)
    end
  else
    emit (LogError ("Unsupported message type" +:+ content_type message));;
    raise (ValueError ("Unsupported message type" +:+ content_type message)).

Definition _get_reply_id (message : message) (topic_id' : Z)
    (in_group' : bool) : M (option Z) :=
  match reply_to_message message with
  | None => mret None
  | Some reply =>
      s ← get_db;
      if (reply_from_id reply =? id (from_user message))%Z then
        mret (forwarded_id <$>
                List.find (fun r => (received_id r =? reply_message_id reply)%Z
                                    && (topic_id r =? topic_id')%Z
                                    && Bool.eqb (in_group r) in_group')
                          (messages s))
      else
        mret (received_id <$>
                List.find (fun r => (forwarded_id r =? reply_message_id reply)%Z
                                    && (topic_id r =? topic_id')%Z
                                    && Bool.eqb (in_group r) (negb in_group'))
                          (messages s))
  end.

(** The reply sent for an appeal that already exists, by its status. *)
Definition existing_appeal_notice (status' : string) : option string :=
  if String.eqb status' "pending" then
    Some "Your appeal is already pending review"
  else if String.eqb status' "approved" then
    Some "Your appeal was already approved"
  else if String.eqb status' "rejected" then
    Some "Your appeal was already rejected. No further appeals allowed."
  else None.

Definition _submit_appeal (user_id : Z) (user : user) : M unit :=
  s ← get_db;
  match appeal_requests s !! user_id ≫= (fun row =>
          existing_appeal_notice (status row)) with
  | Some notice => emit (SendMessage user_id notice None None None)
  | None =>
      now ← current_timestamp;
      match appeal_requests s !! user_id with
      | Some _ =>
          raise (IntegrityError
                   "UNIQUE constraint failed: appeal_requests.user_id")
      | None =>
          set_db (with_appeal_requests s
                    (<[user_id := mkAppeal now "pending" None None]>
                       (appeal_requests s)))
      end;;
      emit (SendMessage user_id
              "Your appeal has been submitted and is pending admin review."
              None None None);;
      appeal_mode ← cache_get "setting_appeal_mode";
      if is_str appeal_mode "auto" then
        modify_db (fun s =>
          with_blocked_users s (delete user_id (blocked_users s)));;
        modify_db (fun s =>
          with_appeal_requests s
            (alter (fun row => mkAppeal (appeal_time row) "approved"
                                 (admin_id row) (Some now))
                   user_id (appeal_requests s)));;
        emit (SendMessage user_id
                "Your appeal has been automatically approved."
                None None None);;
        emit (SendMessage group_id "Auto-Appeal Notification"
                None None None)
      else
        emit (SendMessage group_id "New Appeal Request" None None
                (Some (ApproveRejectButtons user_id)))
  end.

Definition blocked_notice : string :=
  "Your account has been blocked. If you believe this is a mistake, you can submit an appeal (one-time opportunity).".

Definition _check_captcha (message : message) : M bool :=
  setting ← cache_get "setting_captcha";
  if is_str setting "disable" then mret true else
  let user_id := id (from_user message) in
  s ← get_db;
  if bool_decide (is_Some (blocked_users s !! user_id)) then
    appeal_verification ← cache_get (appeal_verification_key user_id);
    if opt_truthy appeal_verification then
      ok ← verify_captcha user_id (text message);
      if (ok : bool) then
        emit (LogInfo "User passed appeal verification");;
        cache_delete (appeal_verification_key user_id);;
        cache_delete (captcha_key user_id);;
        _submit_appeal user_id (from_user message);;
        mret false
      else
        emit (SendMessage (chat_id message)
                "Incorrect answer. Appeal verification failed."
                None (Some (message_id message)) None);;
        cache_delete (appeal_verification_key user_id);;
        cache_delete (captcha_key user_id);;
        mret false
    else
      emit (SendMessage (chat_id message) blocked_notice None None
              (Some (AppealButton user_id)));;
      mret false
  else
  captcha ← cache_get (captcha_key user_id);
  match captcha with
  | Some _ =>
      ok ← verify_captcha user_id (text message);
      if negb ok then
        attempt_count ← record_attempt user_id;
        emit (LogInfo "User entered incorrect answer");;
        if (3 <=? attempt_count)%Z then
          block_user_by_attempts user_id (username (from_user message))
            (first_name (from_user message)) (last_name (from_user message));;
          emit (LogWarning "User auto-blocked after 3 failed attempts");;
          emit (SendMessage user_id
                  "You have been blocked after 3 failed verification attempts."
                  None None (Some (AppealButton user_id)));;
          cache_delete (captcha_key user_id);;
          mret false
        else
          captcha_type ← cache_get "setting_captcha";
          new_captcha ← generate_captcha user_id captcha_type;
          match new_captcha with
          | Some question =>
              if String.eqb question EmptyString then mret tt else
              emit (SendMessage (chat_id message)
                      ("Incorrect answer. Please try again: " +:+ question)
                      None (Some (message_id message)) None)
          | None => mret tt
          end;;
          mret false
      else
        emit (LogInfo "User passed the captcha");;
        emit (SendMessage (chat_id message)
                "Verification successful! You can now send messages."
                None None None);;
        set_user_verified user_id;;
        reset_attempts user_id;;
        cache_delete (captcha_key user_id);;
        mret false
  | None =>
      verified ← is_user_verified user_id;
      if negb (truthy verified) then
        emit (LogInfo "User is not verified");;
        limited ← cache_get (rate_limit_key user_id);
        if opt_truthy limited then
          emit (LogInfo "User rate limited for captcha requests");;
          mret false
        else
          cache_set (rate_limit_key user_id) (PBool true) (Some 10);;
          emit (SendMessage (chat_id message)
                  "Your message was not sent. Please complete verification first."
                  None (Some (message_id message)) None);;
          captcha_type ← cache_get "setting_captcha";
          if is_str captcha_type "button" then
            generate_captcha user_id captcha_type;; mret false
          else if is_str captcha_type "math" then
            captcha ← generate_captcha user_id captcha_type;
            body ← str_add
                     "Please solve the following math problem and send the answer: "
                     captcha;
            emit (SendMessage (chat_id message) body None None None);;
            mret false
          else if is_str captcha_type "image" then
            generate_captcha user_id captcha_type;; mret false
          else
            emit (LogError "Invalid captcha setting");;
            emit (SendMessage group_id "Invalid captcha setting"
                    None None None);;
            mret false
      else mret true
  end.

Definition _handle_auto_response (message : message) : M (option string) :=
  match match_auto_response (text message) with
  | Some (kind, response) =>
      (if String.eqb kind "text" then
         emit (SendMessage (chat_id message) response None None None)
       else if bool_decide (kind ∈ ["photo"; "sticker"; "video"; "document"])
       then emit (SendMedia kind (chat_id message) response)
       else emit (LogError ("Unsupported message type" +:+ kind)));;
      mret (Some response)
  | None => mret None
  end.

(** The first [topics] row of a user, as [SELECT ... LIMIT 1] finds it. *)
Definition topic_of_user (userid : Z) (rows : list (Z * Z)) : option Z :=
  snd <$> List.find (fun r => (fst r =? userid)%Z) rows.

Definition user_of_topic (thread_id : Z) (rows : list (Z * Z)) : option Z :=
  fst <$> List.find (fun r => (snd r =? thread_id)%Z) rows.

Definition as_int (v : pyval) : M Z :=
  match v with
  | PInt z => mret z
  | _ => raise (Unmodelled "cached id that is not an integer")
  end.

Definition _get_or_create_thread (message : message) : M (option Z) :=
  let userid := id (from_user message) in
  cached ← cache_get (chat_threadid_key userid);
  match cached with
  | Some v => thread_id ← as_int v; mret (Some thread_id)
  | None =>
      s ← get_db;
      match topic_of_user userid (topics s) with
      | None =>
          emit (LogInfo "Creating a new thread for user");;
          let title := default "None" (first_name (from_user message))
                         +:+ " | " +:+ pretty userid in
          emit (CreateForumTopic title);;
          match create_forum_topic title with
          | None => emit (LogError "create_forum_topic failed");; mret None
          | Some thread_id =>
              modify_db (fun s =>
                with_topics s (topics s ++ [(userid, thread_id)]));;
              emit (SendMessage group_id "User ID" (Some thread_id)
                      None None);;
              match transport_pin thread_id with
              | Some (pin_message, pinned) =>
                  emit (PinChatMessage group_id pin_message);;
                  if (pinned : bool) then mret tt
                  else
                    emit (LogWarning "Failed to pin info message for user")
              | None =>
                  emit (LogWarning "Failed to pin info message for user")
              end;;
              cache_set (chat_threadid_key userid) (PInt thread_id) None;;
              mret (Some thread_id)
          end
      | Some thread_id =>
          cache_set (chat_threadid_key userid) (PInt thread_id) None;;
          mret (Some thread_id)
      end
  end.

Definition _forward_to_group (message : message) (thread_id : Z)
  : M (option Z) :=
  try_except
    (reply_id ← _get_reply_id message thread_id false;
     fwd_msg ← _send_message_by_type message group_id (Some thread_id)
                 reply_id false;
     modify_db (fun s =>
       with_messages s
         (messages s ++ [mkMessageRow (message_id message) fwd_msg
                           thread_id false]));;
     mret (Some fwd_msg))
    is_api_exception
    (fun e =>
       if contains "message thread not found" (exn_str e) then
         modify_db (fun s =>
           with_topics s
             (List.filter (fun r => negb (snd r =? thread_id)%Z) (topics s)));;
         cache_delete (threadid_userid_key thread_id);;
         cache_delete (chat_threadid_key (id (from_user message)));;
         mret None
       else
         emit (LogError "Failed to forward message from user");;
         emit (LogError (exn_str e));;
         emit (SendMessage group_id "Failed to forward message from user"
                 None None None);;
         emit (ForwardMessage group_id (chat_id message)
                 (message_id message));;
         mret None).

Definition _handle_group_message (message : message) : M unit :=
  match message_thread_id message with
  | None => raise (Unmodelled "group message outside a topic")
  | Some thread_id =>
      cached ← cache_get (threadid_userid_key thread_id);
      user_id ← match cached with
                | Some v => z ← as_int v; mret (Some z)
                | None => s ← get_db; mret (user_of_topic thread_id (topics s))
                end;
      match user_id with
      | Some user_id =>
          cache_set (threadid_userid_key thread_id) (PInt user_id) None;;
          reply_id ← _get_reply_id message thread_id true;
          try_except
            (fwd_msg ← _send_message_by_type message user_id None reply_id
                         false;
             modify_db (fun s =>
               with_messages s
                 (messages s ++ [mkMessageRow (message_id message) fwd_msg
                                   thread_id true])))
            is_api_exception
            (fun e =>
               emit (LogError "Failed to forward message to user");;
               emit (LogError (exn_str e));;
               emit (SendMessage group_id
                       "[Alert]Failed to forward message to user"
                       (Some thread_id) None None))
      | None =>
          emit (SendMessage group_id
                  "Chat not found, please remove this topic manually"
                  (Some thread_id) None None);;
          emit (CloseForumTopic (Some thread_id))
      end
  end.

(** The spam branch of [_handle_user_message]: the message goes to the
    spam topic, never to a user thread. *)
Definition _route_spam (message : message) : M unit :=
  cached ← cache_get "spam_topic_id";
  spam_topic_id ← match cached with
                  | Some v => z ← as_int v; mret (Some z)
                  | None =>
                      emit (LogWarning
                              "Spam topic not configured, using main topic");;
                      mret None
                  end;
  try_except
    (fwd_msg ← _send_message_by_type message group_id spam_topic_id None
                 true;
     emit (SendMessage group_id "[Spam Detected]" spam_topic_id
             (Some fwd_msg) None))
    is_api_exception
    (fun e =>
       if contains "message thread not found" (lower (exn_str e))
          || contains "topic" (lower (exn_str e)) then
         emit (LogWarning "Spam topic not found, attempting to recreate...");;
         match bot_instance with
         | Some _create_spam_topic =>
             try_except
               (_create_spam_topic;;
                cached ← cache_get "spam_topic_id";
                spam_topic_id ← match cached with
                                | Some v => z ← as_int v; mret (Some z)
                                | None => mret None
                                end;
                emit (LogInfo
                        "Spam topic recreated, retrying message forward...");;
                fwd_msg ← _send_message_by_type message group_id
                            spam_topic_id None true;
                emit (SendMessage group_id "[Spam Detected]" spam_topic_id
                        (Some fwd_msg) None))
               is_exception
               (fun retry_error =>
                  emit (LogError
                          "Failed to recreate spam topic and forward message");;
                  emit (SendMessage group_id "[Spam - Topic Error]"
                          None None None))
         | None =>
             emit (LogError
                     "Cannot recreate spam topic: bot instance not available")
         end
       else emit (LogError "Failed to forward spam message"));;
  emit (LogInfo "Spam message from user processed").

Definition rename_blocked (u : user) (row : blocked_row) : blocked_row :=
  mkBlocked (username u) (first_name u) (last_name u)
            (block_reason row) (blocked_at row).

Definition _handle_user_message (message : message) : M unit :=
  emit (LogInfo "Received message from user");;
  admitted ← _check_captcha message;
  if negb admitted then
    emit (LogInfo "Message from user blocked by captcha")
  else
  s ← get_db;
  let user_id := id (from_user message) in
  if bool_decide (is_Some (blocked_users s !! user_id)) then
    set_db (with_blocked_users s
              (alter (rename_blocked (from_user message)) user_id
                     (blocked_users s)));;
    emit (LogInfo "Message from blocked user rejected");;
    enabled ← cache_get "setting_blocked_user_reply_enabled";
    if is_str enabled "enable" then
      reply_message ← cache_get "setting_blocked_user_reply_message";
      match reply_message with
      | Some v =>
          if truthy v then
            emit (SendMessage (chat_id message) (py_str v) None None None);;
            emit (LogInfo "Sent auto-reply to blocked user")
          else mret tt
      | None => mret tt
      end
    else mret tt
  else
  if match spam_detector_manager with
     | Some detect_spam => detect_spam message
     | None => false
     end
  then _route_spam message
  else
  auto_response ← _handle_auto_response message;
  thread_id ← _get_or_create_thread message;
  match thread_id with
  | None => mret tt
  | Some thread_id =>
      fwd_msg ← _forward_to_group message thread_id;
      match fwd_msg with
      | None => mret tt
      | Some _ =>
          match auto_response with
          | Some response =>
              emit (SendMessage group_id ("[Auto Response]" +:+ response)
                      (Some thread_id) None None)
          | None => mret tt
          end;;
          emit (LogInfo "Message from user processed")
      end
  end.

Definition handle_message (message : message) : M unit :=
  if check_valid_chat message then mret tt
  else if negb (chat_id message =? group_id)%Z
  then _handle_user_message message
  else _handle_group_message message.

End MessageHandler.

(** ** [src/handlers/callback_handler.py]: class [CallbackHandler] *)

(** A float as [json.loads] reads it: the decimal number the literal
    denotes, [mantissa * 10 ^ exponent], before it is rounded to a
    double, or one of the constants [NaN], [Infinity], [-Infinity]. *)
Inductive pyfloat :=
| FDecimal (mantissa exponent : Z)
| FNaN
| FInfinity (negative : bool).

(** [bool(f)]: a float is false exactly when it is zero, and a decimal
    rounds to zero exactly when its magnitude is at most 2^-1075, half
    the least positive double. *)
Definition float_truthy (f : pyfloat) : bool :=
  match f with
  | FDecimal m e =>
      if (0 <=? e)%Z then negb (m =? 0)%Z
      else negb (Z.abs m * 2 ^ 1075 <=? 10 ^ (- e))%Z
  | FNaN | FInfinity _ => true
  end.

(** What [json.loads] returns. *)
#[warnings="-register-all"]
Inductive json :=
| JNull
| JBool (b : bool)
| JInt (z : Z)
| JFloat (f : pyfloat)
| JStr (s : string)
| JArr (items : list json)
| JObj (fields : list (string * json)).

(** [data.get(key)] on a decoded object: of several members with one name
    the last one counts. *)
Fixpoint obj_get (key : string) (fields : list (string * json))
  : option json :=
  match fields with
  | [] => None
  | (k, v) :: rest =>
      match obj_get key rest with
      | Some v' => Some v'
      | None => if String.eqb k key then Some v else None
      end
  end.

(** [data[key]] for a string [key], on any decoded value. *)
Definition subscript (data : json) (key : string) : M json :=
  match data with
  | JObj fields =>
      match obj_get key fields with
      | Some v => mret v
      | None => raise (KeyError key)
      end
  | JArr _ => raise (TypeError "list indices must be integers or slices, not str")
  | JStr _ => raise (TypeError "string indices must be integers, not 'str'")
  | JInt _ => raise (TypeError "'int' object is not subscriptable")
  | JFloat _ => raise (TypeError "'float' object is not subscriptable")
  | JBool _ => raise (TypeError "'bool' object is not subscriptable")
  | JNull => raise (TypeError "'NoneType' object is not subscriptable")
  end.

(** [data.get(key)] and [key in data], used once [data] is known to be an
    object. *)
Definition json_get (data : json) (key : string) : option json :=
  match data with
  | JObj fields => obj_get key fields
  | _ => None
  end.

Definition json_truthy (v : option json) : bool :=
  match v with
  | None | Some JNull => false
  | Some (JBool b) => b
  | Some (JInt z) => negb (z =? 0)%Z
  | Some (JFloat f) => float_truthy f
  | Some (JStr s) => negb (String.eqb s EmptyString)
  | Some (JArr items) => negb (bool_decide (items = []))
  | Some (JObj fields) => negb (bool_decide (fields = []))
  end.

(** A user id taken from a payload is followed only when it is an
    integer, which is what the bot itself writes. *)
Definition json_user_id (v : json) : M Z :=
  match v with
  | JInt z => mret z
  | _ => raise (Unmodelled "user_id that is not an integer")
  end.

Definition json_is_str (v : json) (s : string) : bool :=
  match v with
  | JStr s' => String.eqb s' s
  | _ => false
  end.

Record callback_query := mkCall {
  call_id : string;
  data : string;
  call_from_user : user;
  call_chat_id : Z;
  call_message_id : Z
}.

(** How [_handle_admin_callback] serves an action that needs nothing but
    a call on a collaborator: directly, or only if the payload has a
    given member. *)
Inductive route :=
| Direct (component method : string)
| Guarded (key : string) (component method : string).

Definition admin_routes : list (string * route) :=
  [("menu", Direct "admin_handler" "menu");
   ("auto_reply", Direct "admin_handler" "auto_reply_menu");
   ("set_auto_response_time",
      Direct "admin_handler" "handle_auto_response_time_callback");
   ("start_add_auto_reply", Direct "admin_handler" "add_auto_response");
   ("add_auto_reply", Direct "admin_handler" "process_add_auto_reply");
   ("manage_auto_reply", Direct "admin_handler" "manage_auto_reply");
   ("select_auto_reply", Guarded "id" "admin_handler" "select_auto_reply");
   ("delete_auto_reply", Guarded "id" "admin_handler" "delete_auto_reply");
   ("ban_user", Direct "admin_handler" "manage_ban_user");
   ("unban_user", Guarded "id" "command_handler" "unban_user");
   ("select_ban_user", Guarded "id" "admin_handler" "select_ban_user");
   ("default_msg", Direct "admin_handler" "default_msg_menu");
   ("edit_default_msg", Direct "admin_handler" "edit_default_msg");
   ("empty_default_msg", Direct "admin_handler" "empty_default_msg");
   ("captcha_settings", Direct "admin_handler" "captcha_settings_menu");
   ("broadcast_message", Direct "admin_handler" "broadcast_message");
   ("time_zone_settings", Direct "admin_handler" "time_zone_settings_menu");
   ("spam_keywords", Direct "admin_handler" "spam_keywords_menu");
   ("add_spam_keyword", Direct "admin_handler" "add_spam_keyword");
   ("view_spam_keywords", Direct "admin_handler" "view_spam_keywords");
   ("select_spam_keyword",
      Guarded "idx" "admin_handler" "select_spam_keyword");
   ("delete_spam_keyword",
      Guarded "idx" "admin_handler" "delete_spam_keyword");
   ("blocked_reply_settings",
      Direct "admin_handler" "blocked_reply_settings_menu");
   ("set_blocked_reply_enabled",
      Guarded "value" "admin_handler" "set_blocked_reply_enabled");
   ("edit_blocked_reply_message",
      Direct "admin_handler" "edit_blocked_reply_message");
   ("clear_blocked_reply_message",
      Direct "admin_handler" "clear_blocked_reply_message");
   ("reset_spam_topic", Direct "admin_handler" "reset_spam_topic");
   ("confirm_reset_spam_topic",
      Direct "admin_handler" "confirm_reset_spam_topic");
   ("show_host_ip", Direct "admin_handler" "show_host_ip");
   ("appeal_management", Direct "admin_handler" "appeal_management_menu");
   ("view_pending_appeals", Direct "admin_handler" "view_pending_appeals");
   ("view_all_appeals", Direct "admin_handler" "view_all_appeals");
   ("toggle_appeal_mode", Direct "admin_handler" "toggle_appeal_mode")].

Definition find_route (action : string) : option route :=
  snd <$> List.find (fun r => String.eqb (fst r) action) admin_routes.

Section CallbackHandler.

(** [collaborator component method data] is a method of the admin or
    command handler, neither of which is part of this development;
    [json_loads] is [json.loads], with [None] for [JSONDecodeError]. *)
Variable group_id : Z.
Variable collaborator : string -> string -> json -> M unit.
Variable json_loads : string -> option json.

Definition _handle_verify_button (call : callback_query) (data : json)
  : M unit :=
  let user_id := json_get data "user_id" in
  if json_truthy user_id then
    user_id ← json_user_id (default JNull user_id);
    set_user_verified user_id;;
    reset_attempts user_id;;
    emit (AnswerCallbackQuery (call_id call) None);;
    emit (SendMessage user_id
            "Verification successful, you can now send messages"
            None None None);;
    emit (DeleteMessage (call_chat_id call) (call_message_id call))
  else
    emit (AnswerCallbackQuery (call_id call) None);;
    emit (SendMessage (call_chat_id call) "Invalid user ID" None None None).

Definition appeal_verification_notice : string :=
  "Appeal Verification Required".

Definition _handle_appeal_request (call : callback_query) (data : json)
  : M unit :=
  let user_id := json_get data "user_id" in
  if negb (json_truthy user_id) then
    emit (AnswerCallbackQuery (call_id call) (Some "Invalid user ID"))
  else
  user_id ← json_user_id (default JNull user_id);
  s ← get_db;
  match appeal_requests s !! user_id ≫= (fun row =>
          existing_appeal_notice (status row)) with
  | Some notice => emit (AnswerCallbackQuery (call_id call) (Some notice))
  | None =>
      if negb (bool_decide (is_Some (blocked_users s !! user_id))) then
        emit (AnswerCallbackQuery (call_id call) (Some "You are not blocked"))
      else
      cache_set (appeal_verification_key user_id) (PBool true) (Some 300);;
      setting ← cache_get "setting_captcha";
      let captcha_type :=
        if opt_truthy setting then setting else Some (PStr "math") in
      emit (AnswerCallbackQuery (call_id call)
              (Some "Please complete verification to submit appeal"));;
      (if is_str captcha_type "button" then
         generate_captcha user_id captcha_type;;
         emit (SendMessage user_id appeal_verification_notice
                 None None None)
       else if is_str captcha_type "math" then
         captcha ← generate_captcha user_id captcha_type;
         body ← str_add appeal_verification_notice captcha;
         emit (SendMessage user_id body None None None)
       else if is_str captcha_type "image" then
         generate_captcha user_id captcha_type;;
         emit (SendMessage user_id appeal_verification_notice
                 None None None)
       else
         captcha ← generate_captcha user_id (Some (PStr "math"));
         body ← str_add appeal_verification_notice captcha;
         emit (SendMessage user_id body None None None));;
      emit (LogInfo "Appeal request submitted by user")
  end.

Definition _handle_approve_appeal (call : callback_query) (user_id : Z)
  : M unit :=
  now ← current_timestamp;
  modify_db (fun s =>
    with_appeal_requests s
      (alter (fun row => mkAppeal (appeal_time row) "approved"
                           (Some (id (call_from_user call))) (Some now))
             user_id (appeal_requests s)));;
  modify_db (fun s =>
    with_blocked_users s (delete user_id (blocked_users s)));;
  modify_db (fun s =>
    with_verification_attempts s
      (delete user_id (verification_attempts s)));;
  emit (SendMessage user_id
          "Good news! Your appeal has been approved by an administrator."
          None None None);;
  emit (EditMessageText "Appeal Approved" (call_chat_id call)
          (call_message_id call));;
  emit (LogInfo "Appeal approved for user by admin").

Definition _handle_reject_appeal (call : callback_query) (user_id : Z)
  : M unit :=
  now ← current_timestamp;
  modify_db (fun s =>
    with_appeal_requests s
      (alter (fun row => mkAppeal (appeal_time row) "rejected"
                           (Some (id (call_from_user call))) (Some now))
             user_id (appeal_requests s)));;
  emit (SendMessage user_id
          "Your appeal has been reviewed and rejected by an administrator."
          None None None);;
  emit (EditMessageText "Appeal Rejected" (call_chat_id call)
          (call_message_id call));;
  emit (LogInfo "Appeal rejected for user by admin").

(** The reply of every guarded case whose member is missing. *)
Definition invalid_action (call : callback_query) : M unit :=
  emit (DeleteMessage group_id (call_message_id call));;
  emit (SendMessage group_id "Invalid action" None None (Some EmptyMarkup)).

Definition has_key (data : json) (key : string) : bool :=
  bool_decide (is_Some (json_get data key)).

Definition _handle_admin_callback (call : callback_query) (action : json)
    (data : json) : M unit :=
  match action with
  | JStr action =>
      if String.eqb action "approve_appeal" then
        if negb (has_key data "user_id") then invalid_action call else
        user_id ← subscript data "user_id";
        user_id ← json_user_id user_id;
        _handle_approve_appeal call user_id
      else if String.eqb action "reject_appeal" then
        if negb (has_key data "user_id") then invalid_action call else
        user_id ← subscript data "user_id";
        user_id ← json_user_id user_id;
        _handle_reject_appeal call user_id
      else if String.eqb action "set_captcha" then
        subscript data "value";;
        collaborator "admin_handler" "set_captcha" data
      else if String.eqb action "confirm_broadcast" then
        emit (DeleteMessage group_id (call_message_id call));;
        collaborator "admin_handler" "confirm_broadcast_message" data
      else if String.eqb action "cancel_broadcast" then
        emit (DeleteMessage group_id (call_message_id call));;
        emit (SendMessage group_id "Broadcast cancelled" None None None);;
        collaborator "admin_handler" "cancel_broadcast" data
      else if String.eqb action "confirm_terminate" then
        try_except
          (collaborator "command_handler" "terminate_thread" data)
          is_exception
          (fun _ =>
             emit (LogError "Failed to terminate the thread");;
             emit (SendMessage group_id "Failed to terminate the thread"
                     None None None))
      else if String.eqb action "cancel_terminate" then
        emit (EditMessageText "Operation cancelled" (call_chat_id call)
                (call_message_id call))
      else if String.eqb action "delete_banned_thread" then
        if negb (has_key data "thread_id") then invalid_action call else
        emit (DeleteMessage group_id (call_message_id call));;
        try_except
          (collaborator "command_handler" "terminate_thread" data;;
           emit (SendMessage group_id "Thread deleted" None None None))
          is_exception
          (fun _ =>
             emit (LogError "Failed to delete thread");;
             emit (SendMessage group_id "Failed to delete thread"
                     None None None))
      else
        match find_route action with
        | Some (Direct component method) =>
            collaborator component method data
        | Some (Guarded key component method) =>
            if negb (has_key data key) then invalid_action call
            else collaborator component method data
        | None => emit (LogError ("Invalid action received" +:+ action))
        end
  | _ => raise (TypeError "can only concatenate str to str")
  end.

Definition is_json_decode_error (e : exn) : bool :=
  match e with
  | JSONDecodeError => true
  | _ => false
  end.

Definition handle_callback_query (call : callback_query) : M unit :=
  if String.eqb (data call) "null" then
    emit (LogError "Invalid callback data received")
  else
  parsed ←
    try_except
      (data ← match json_loads (data call) with
              | Some v => mret v
              | None => raise JSONDecodeError
              end;
       action ← subscript data "action";
       mret (Some (data, action)))
      is_json_decode_error
      (fun _ => emit (LogError "Invalid JSON data received");; mret None);
  match parsed with
  | None => mret tt
  | Some (data, action) =>
      emit (AnswerCallbackQuery (call_id call) None);;
      if json_is_str action "verify_button" then
        _handle_verify_button call data
      else if json_is_str action "appeal_request" then
        _handle_appeal_request call data
      else if negb (call_chat_id call =? group_id)%Z then mret tt
      else _handle_admin_callback call action data
  end.

End CallbackHandler.

(** ** A decoder for callback payloads

    [json.loads] with its default arguments, on the grammar the decoder
    of the standard library accepts: the JSON grammar and the constants
    [NaN], [Infinity] and [-Infinity].  A [str] is the sequence of its
    UTF-8 bytes.  [None] is [JSONDecodeError].  A callback payload holds
    at most 64 bytes, so the limits the interpreter puts on the number
    of digits of an integer and on the depth of nesting are never
    reached.  It instantiates [json_loads] where a concrete payload is
    run. *)
Module Decoder.

Definition is_ws (c : ascii) : bool :=
  bool_decide (c ∈ [" "; "009"; "010"; "013"]%char).

Definition digit_of (c : ascii) : option Z :=
  let n := nat_of_ascii c in
  if ((48 <=? n) && (n <=? 57))%nat then Some (Z.of_nat (n - 48)) else None.

Definition hex_of (c : ascii) : option Z :=
  let n := nat_of_ascii c in
  if ((48 <=? n) && (n <=? 57))%nat then Some (Z.of_nat (n - 48))
  else if ((65 <=? n) && (n <=? 70))%nat then Some (Z.of_nat (n - 55))
  else if ((97 <=? n) && (n <=? 102))%nat then Some (Z.of_nat (n - 87))
  else None.

Fixpoint skip_ws (l : list ascii) : list ascii :=
  match l with
  | c :: rest => if is_ws c then skip_ws rest else l
  | [] => []
  end.

(** The digits at the head of [l], most significant first. *)
Fixpoint take_digits (l : list ascii) : list Z * list ascii :=
  match l with
  | c :: rest =>
      match digit_of c with
      | Some d => let '(ds, r) := take_digits rest in (d :: ds, r)
      | None => ([], l)
      end
  | [] => ([], [])
  end.

Definition decimal (ds : list Z) : Z :=
  fold_left (fun acc d => 10 * acc + d) ds 0.

(** The integer part of a number: a single [0], or a digit from 1 to 9
    followed by any digits. *)
Definition take_integer (l : list ascii) : option (list Z * list ascii) :=
  match l with
  | c :: rest =>
      match digit_of c with
      | Some 0 => Some ([0], rest)
      | Some d => let '(ds, r) := take_digits rest in Some (d :: ds, r)
      | None => None
      end
  | [] => None
  end.

(** A fraction is a point followed by at least one digit; a point
    followed by anything else is not part of the number. *)
Definition take_fraction (l : list ascii) : list Z * list ascii :=
  match l with
  | c :: rest =>
      if Ascii.eqb c "."%char then
        match take_digits rest with
        | ([], _) => ([], l)
        | (ds, r) => (ds, r)
        end
      else ([], l)
  | [] => ([], l)
  end.

(** An exponent is [e] or [E], an optional sign and at least one digit;
    without a digit nothing of it is part of the number. *)
Definition take_exponent (l : list ascii) : option Z * list ascii :=
  match l with
  | c :: rest =>
      if Ascii.eqb c "e"%char || Ascii.eqb c "E"%char then
        let '(sign, r) :=
          match rest with
          | s :: r =>
              if Ascii.eqb s "+"%char then (1, r)
              else if Ascii.eqb s "-"%char then (-1, r)
              else (1, rest)
          | [] => (1, rest)
          end in
        match take_digits r with
        | ([], _) => (None, l)
        | (ds, r') => (Some (sign * decimal ds), r')
        end
      else (None, l)
  | [] => (None, l)
  end.

(** A number: an [int] without fraction and exponent, a [float] with
    either. *)
Definition take_number (sign : Z) (l : list ascii)
  : option (json * list ascii) :=
  '(whole, r) ← take_integer l;
  let '(fraction, r) := take_fraction r in
  let '(exponent, r) := take_exponent r in
  match fraction, exponent with
  | [], None => Some (JInt (sign * decimal whole), r)
  | _, _ =>
      Some (JFloat (FDecimal (sign * decimal (whole ++ fraction))
                      (default 0 exponent - Z.of_nat (length fraction))),
            r)
  end.

(** What a string holds between its quotes: a character as it stands,
    or the 16-bit unit a [\uXXXX] escape names. *)
Inductive piece :=
| Plain (c : ascii)
| Unit16 (n : Z).

Definition simple_escape (c : ascii) : option ascii :=
  if Ascii.eqb c "034"%char then Some "034"%char
  else if Ascii.eqb c "\"%char then Some "\"%char
  else if Ascii.eqb c "/"%char then Some "/"%char
  else if Ascii.eqb c "b"%char then Some "008"%char
  else if Ascii.eqb c "f"%char then Some "012"%char
  else if Ascii.eqb c "n"%char then Some "010"%char
  else if Ascii.eqb c "r"%char then Some "013"%char
  else if Ascii.eqb c "t"%char then Some "009"%char
  else None.

(** The pieces up to the closing quote.  A control character, an
    escape that is not one of the nine, and a string without closing
    quote are errors. *)
Fixpoint take_pieces (l : list ascii) : option (list piece * list ascii) :=
  match l with
  | [] => None
  | c :: rest =>
      if Ascii.eqb c "034"%char then Some ([], rest)
      else if Ascii.eqb c "\"%char then
        match rest with
        | e :: rest' =>
            if Ascii.eqb e "u"%char then
              match rest' with
              | h1 :: h2 :: h3 :: h4 :: rest'' =>
                  a ← hex_of h1; b ← hex_of h2; c ← hex_of h3; d ← hex_of h4;
                  '(ps, r) ← take_pieces rest'';
                  Some (Unit16 (((a * 16 + b) * 16 + c) * 16 + d) :: ps, r)
              | _ => None
              end
            else
              x ← simple_escape e;
              '(ps, r) ← take_pieces rest';
              Some (Plain x :: ps, r)
        | [] => None
        end
      else if (nat_of_ascii c <? 32)%nat then None
      else '(ps, r) ← take_pieces rest; Some (Plain c :: ps, r)
  end.

Definition byte (n : Z) : ascii := ascii_of_nat (Z.to_nat n).

(** The UTF-8 bytes of a code point; a surrogate on its own takes the
    three-byte form. *)
Definition utf8 (cp : Z) : list ascii :=
  if (cp <? 128)%Z then [byte cp]
  else if (cp <? 2048)%Z then
    [byte (192 + cp / 64); byte (128 + cp mod 64)]
  else if (cp <? 65536)%Z then
    [byte (224 + cp / 4096); byte (128 + (cp / 64) mod 64);
     byte (128 + cp mod 64)]
  else
    [byte (240 + cp / 262144); byte (128 + (cp / 4096) mod 64);
     byte (128 + (cp / 64) mod 64); byte (128 + cp mod 64)].

Definition is_high_surrogate (n : Z) : bool :=
  (55296 <=? n)%Z && (n <=? 56319)%Z.
Definition is_low_surrogate (n : Z) : bool :=
  (56320 <=? n)%Z && (n <=? 57343)%Z.

(** The characters of a string: an escaped high surrogate directly
    followed by an escaped low surrogate is one code point. *)
Fixpoint assemble (ps : list piece) : list ascii :=
  match ps with
  | [] => []
  | Plain c :: rest => c :: assemble rest
  | Unit16 hi :: rest =>
      match rest with
      | Unit16 lo :: rest' =>
          if is_high_surrogate hi && is_low_surrogate lo then
            utf8 (65536 + (hi - 55296) * 1024 + (lo - 56320))
              ++ assemble rest'
          else utf8 hi ++ assemble rest
      | _ => utf8 hi ++ assemble rest
      end
  end.

Definition take_string (l : list ascii) : option (string * list ascii) :=
  '(ps, r) ← take_pieces l;
  Some (string_of_list_ascii (assemble ps), r).

Definition literal (word : string) (v : json) (l : list ascii)
  : option (json * list ascii) :=
  let w := list_ascii_of_string word in
  if bool_decide (take (length w) l = w)
  then Some (v, drop (length w) l) else None.

Fixpoint value (fuel : nat) (l : list ascii) : option (json * list ascii) :=
  match fuel with
  | O => None
  | S fuel =>
      match skip_ws l with
      | [] => None
      | c :: rest =>
          if Ascii.eqb c "n"%char then literal "null" JNull (c :: rest)
          else if Ascii.eqb c "t"%char then
            literal "true" (JBool true) (c :: rest)
          else if Ascii.eqb c "f"%char then
            literal "false" (JBool false) (c :: rest)
          else if Ascii.eqb c "N"%char then
            literal "NaN" (JFloat FNaN) (c :: rest)
          else if Ascii.eqb c "I"%char then
            literal "Infinity" (JFloat (FInfinity false)) (c :: rest)
          else if Ascii.eqb c "034"%char then
            '(s, r) ← take_string rest; Some (JStr s, r)
          else if Ascii.eqb c "-"%char then
            match literal "-Infinity" (JFloat (FInfinity true)) (c :: rest)
            with
            | Some found => Some found
            | None => take_number (-1) rest
            end
          else if Ascii.eqb c "["%char then
            match skip_ws rest with
            | c' :: r =>
                if Ascii.eqb c' "]"%char then Some (JArr [], r)
                else '(items, r) ← elements fuel rest; Some (JArr items, r)
            | [] => None
            end
          else if Ascii.eqb c "{"%char then
            match skip_ws rest with
            | c' :: r =>
                if Ascii.eqb c' "}"%char then Some (JObj [], r)
                else '(fields, r) ← members fuel rest; Some (JObj fields, r)
            | [] => None
            end
          else take_number 1 (c :: rest)
      end
  end
with elements (fuel : nat) (l : list ascii)
  : option (list json * list ascii) :=
  match fuel with
  | O => None
  | S fuel =>
      '(v, r) ← value fuel l;
      match skip_ws r with
      | c :: r' =>
          if Ascii.eqb c ","%char then
            '(vs, r'') ← elements fuel r'; Some (v :: vs, r'')
          else if Ascii.eqb c "]"%char then Some ([v], r')
          else None
      | [] => None
      end
  end
with members (fuel : nat) (l : list ascii)
  : option (list (string * json) * list ascii) :=
  match fuel with
  | O => None
  | S fuel =>
      match skip_ws l with
      | q :: r =>
          if Ascii.eqb q "034"%char then
            '(k, r) ← take_string r;
            match skip_ws r with
            | c :: r =>
                if Ascii.eqb c ":"%char then
                  '(v, r) ← value fuel r;
                  match skip_ws r with
                  | c :: r' =>
                      if Ascii.eqb c ","%char then
                        '(rest, r'') ← members fuel r';
                        Some ((k, v) :: rest, r'')
                      else if Ascii.eqb c "}"%char then Some ([(k, v)], r')
                      else None
                  | [] => None
                  end
                else None
            | [] => None
            end
          else None
      | [] => None
      end
  end.

(** A document is one value with nothing but white space after it. *)
Definition loads (s : string) : option json :=
  let l := list_ascii_of_string s in
  '(v, r) ← value (S (length l)) l;
  match skip_ws r with
  | [] => Some v
  | _ => None
  end.

End Decoder.

(** ** [db_migrate/20251225_verification_enhancement.py]

    The migration is SQL throughout, so the store is modelled at the level
    of table declarations and rows.  A row maps column names to values. *)
Module Migration.

Inductive sqlval :=
| SNull
| SInt (z : Z)
| SText (s : string).

#[export] Instance sqlval_eq_dec : EqDecision sqlval.
Proof. solve_decision. Defined.

Inductive default_expr :=
| DefaultNull
| DefaultValue (v : sqlval)
| DefaultCurrentTimestamp.

(** A column declaration: [col_unique] stands for UNIQUE and for
    PRIMARY KEY, [col_rowid] for INTEGER PRIMARY KEY, which an insert
    fills with a fresh row id. *)
Record column := mkColumn {
  col_name : string;
  col_default : default_expr;
  col_not_null : bool;
  col_unique : bool;
  col_rowid : bool
}.

Record table := mkTable {
  columns : list column;
  rows : list (gmap string sqlval)
}.

Inductive log_entry :=
| Info (msg : string)
| Error (msg : string).

Definition plain (name : string) : column :=
  mkColumn name DefaultNull false false false.
Definition with_default (name : string) (d : default_expr) : column :=
  mkColumn name d false false false.
Definition rowid (name : string) : column :=
  mkColumn name DefaultNull false true true.
Definition unique_not_null (name : string) : column :=
  mkColumn name DefaultNull true true false.

Definition verification_attempts_columns : list column :=
  [rowid "id";
   unique_not_null "user_id";
   with_default "attempt_count" (DefaultValue (SInt 0));
   plain "last_attempt_time";
   with_default "blocked_by_attempts" (DefaultValue (SInt 0));
   with_default "created_at" DefaultCurrentTimestamp].

Definition appeal_requests_columns : list column :=
  [rowid "id";
   unique_not_null "user_id";
   with_default "appeal_time" DefaultCurrentTimestamp;
   plain "appeal_message";
   with_default "status" (DefaultValue (SText "pending"));
   plain "admin_id";
   plain "handled_at"].

Definition block_reason_column : column :=
  with_default "block_reason" (DefaultValue (SText "manual")).

Definition default_value (now : Z) (d : default_expr) : sqlval :=
  match d with
  | DefaultNull => SNull
  | DefaultValue v => v
  | DefaultCurrentTimestamp => SInt now
  end.

(** [CREATE TABLE IF NOT EXISTS name (cols)]. *)
Definition create_table_if_not_exists (name : string) (cols : list column)
    (d : gmap string table) : gmap string table :=
  match d !! name with
  | Some _ => d
  | None => <[name := mkTable cols []]> d
  end.

(** [PRAGMA table_info(name)], reduced to the column names; it is empty
    for a table that does not exist. *)
Definition table_info (name : string) (d : gmap string table)
  : list string :=
  match d !! name with
  | Some t => col_name <$> columns t
  | None => []
  end.

(** [ALTER TABLE name ADD COLUMN col]: the rows present take the
    default of the new column. *)
Definition alter_table_add_column (now : Z) (name : string) (col : column)
    (d : gmap string table) : string + gmap string table :=
  match d !! name with
  | None => inl ("no such table: " +:+ name)
  | Some t =>
      if bool_decide (col_name col ∈ col_name <$> columns t) then
        inl ("duplicate column name: " +:+ col_name col)
      else
        inr (<[name := mkTable (columns t ++ [col])
                         ((fun r => <[col_name col :=
                                        default_value now (col_default col)]> r)
                            <$> rows t)]> d)
  end.

Definition assigned (name : string) (values : list (string * sqlval))
  : option sqlval :=
  snd <$> List.find (fun kv => String.eqb (fst kv) name) values.

Definition next_rowid (name : string) (rs : list (gmap string sqlval)) : Z :=
  1 + fold_right (fun r acc =>
                    match r !! name with
                    | Some (SInt z) => Z.max z acc
                    | _ => acc
                    end) 0 rs.

Definition new_row (now : Z) (t : table) (values : list (string * sqlval))
  : gmap string sqlval :=
  list_to_map
    ((fun c =>
        (col_name c,
         match assigned (col_name c) values with
         | Some v => v
         | None =>
             if col_rowid c then SInt (next_rowid (col_name c) (rows t))
             else default_value now (col_default c)
         end)) <$> columns t).

Definition violates_not_null (t : table) (row : gmap string sqlval) : bool :=
  existsb (fun c => col_not_null c
                    && bool_decide (row !! col_name c = Some SNull))
          (columns t).

(** A uniqueness conflict: a row present agrees with the new one on a
    unique column, in a value that is not NULL. *)
Definition conflicts (t : table) (row : gmap string sqlval) : bool :=
  existsb (fun c =>
             col_unique c
             && negb (bool_decide (row !! col_name c = Some SNull))
             && existsb (fun r => bool_decide
                                    (r !! col_name c = row !! col_name c))
                        (rows t))
          (columns t).

(** [INSERT OR IGNORE INTO name (...) VALUES (...)]. *)
Definition insert_or_ignore (now : Z) (name : string)
    (values : list (string * sqlval)) (d : gmap string table)
  : string + gmap string table :=
  match d !! name with
  | None => inl ("no such table: " +:+ name)
  | Some t =>
      match List.find (fun kv => negb (bool_decide
                                   (fst kv ∈ col_name <$> columns t)))
                      values with
      | Some kv => inl ("table " +:+ name +:+ " has no column named "
                          +:+ fst kv)
      | None =>
          let row := new_row now t values in
          if violates_not_null t row || conflicts t row then inr d
          else inr (<[name := mkTable (columns t) (rows t ++ [row])]> d)
      end
  end.

(** One [try: ...; conn.commit(); logger.info(...) except Exception as e:
    logger.error(...); conn.rollback()] block. *)
Definition attempt (done failed : string)
    (statement : gmap string table -> string + gmap string table)
    (st : gmap string table * list log_entry)
  : gmap string table * list log_entry :=
  match statement (fst st) with
  | inr d' => (d', (snd st ++ [Info done])%list)
  | inl e => (fst st, (snd st ++ [Error (failed +:+ e)])%list)
  end.

Definition add_block_reason (now : Z)
    (st : gmap string table * list log_entry)
  : gmap string table * list log_entry :=
  let has_block_reason :=
    bool_decide ("block_reason" ∈ table_info "blocked_users" (fst st)) in
  if negb has_block_reason then
    attempt "Added block_reason column to blocked_users table"
            "Failed to add block_reason column to blocked_users table: "
            (alter_table_add_column now "blocked_users" block_reason_column)
            st
  else
    (fst st,
     (snd st ++
        [Info "block_reason column already exists in blocked_users table"])
     %list).

Definition upgrade (now : Z) (d : gmap string table)
  : gmap string table * list log_entry :=
  let st := (d, []) in
  let st :=
    attempt "Created verification_attempts table"
            "Failed to create verification_attempts table: "
            (fun d => inr (create_table_if_not_exists
                             "verification_attempts"
                             verification_attempts_columns d)) st in
  let st :=
    attempt "Created appeal_requests table"
            "Failed to create appeal_requests table: "
            (fun d => inr (create_table_if_not_exists
                             "appeal_requests" appeal_requests_columns d))
            st in
  let st := add_block_reason now st in
  let st :=
    attempt "Added appeal_mode setting"
            "Failed to add appeal_mode setting: "
            (insert_or_ignore now "settings"
               [("key", SText "appeal_mode"); ("value", SText "manual")])
            st in
  attempt "Added captcha_image_enabled setting"
          "Failed to add captcha_image_enabled setting: "
          (insert_or_ignore now "settings"
             [("key", SText "captcha_image_enabled");
              ("value", SText "disable")])
          st.

(** What the migration establishes: both tables exist, [blocked_users]
    has the [block_reason] column, and [settings] holds a row for each
    of the two keys. *)
Definition has_setting (key : string) (d : gmap string table) : Prop :=
  exists t, d !! "settings" = Some t /\
    "key" ∈ col_name <$> columns t /\
    "value" ∈ col_name <$> columns t /\
    exists r, r ∈ rows t /\ r !! "key" = Some (SText key).

Definition migrated (d : gmap string table) : Prop :=
  is_Some (d !! "verification_attempts") /\
  is_Some (d !! "appeal_requests") /\
  "block_reason" ∈ table_info "blocked_users" d /\
  has_setting "appeal_mode" d /\
  has_setting "captcha_image_enabled" d.

(** The declaration of [settings] makes [key] unique (a primary key or
    a UNIQUE column). *)
Definition settings_key_unique (d : gmap string table) : Prop :=
  forall t c, d !! "settings" = Some t -> c ∈ columns t ->
    col_name c = "key" -> col_unique c = true.

Definition errors (log : list log_entry) : list string :=
  omap (fun e => match e with Error m => Some m | Info _ => None end) log.

(** The store the repository's own migration test prepares: [settings]
    with a row id and no uniqueness on [key], and [blocked_users]
    without [block_reason]. *)
Definition test_settings_columns : list column :=
  [rowid "id";
   mkColumn "key" DefaultNull true false false;
   mkColumn "value" DefaultNull true false false].

Definition blocked_users_columns : list column :=
  [mkColumn "user_id" DefaultNull false true true;
   plain "username"; plain "first_name"; plain "last_name";
   with_default "blocked_at" DefaultCurrentTimestamp].

Definition test_store : gmap string table :=
  <["settings" := mkTable test_settings_columns []]>
    (<["blocked_users" := mkTable blocked_users_columns []]> ∅).

(** The same store with [key] declared as the primary key of
    [settings]. *)
Definition keyed_settings_columns : list column :=
  [mkColumn "key" DefaultNull false true false;
   mkColumn "value" DefaultNull true false false].

Definition keyed_store : gmap string table :=
  <["settings" := mkTable keyed_settings_columns []]>
    (<["blocked_users" := mkTable blocked_users_columns []]> ∅).

End Migration.

(** ** Vocabulary of the statements *)

(** The effects that relay the content of a message across the boundary:
    [_send_message_by_type] and the raw [forward_message] fallback. *)
Definition is_forward (e : event) : bool :=
  match e with
  | SendByType _ _ _ _ _ | ForwardMessage _ _ _ => true
  | _ => false
  end.

Definition forwards (t : list event) : list event := List.filter is_forward t.

(** The reply every guarded admin action gives when its payload lacks the
    member it needs. *)
Definition invalid_action_reply (group_id : Z) : event :=
  SendMessage group_id "Invalid action" None None (Some EmptyMarkup).

(** A collaborator that does nothing, for running concrete callbacks. *)
Definition idle_collaborator (component method : string) (data : json)
  : M unit := mret tt.

(** A string literal cannot hold a quotation mark without doubling it, so
    concrete payloads are put together from their members. *)
Definition quoted (s : string) : string :=
  String "034"%char s +:+ String "034"%char EmptyString.

Definition payload (action : string) (user_id : Z) : string :=
  "{" +:+ quoted "action" +:+ ": " +:+ quoted action +:+ ", "
      +:+ quoted "user_id" +:+ ": " +:+ pretty user_id +:+ "}".

Definition empty_store : store := mkStore [] [] ∅ ∅ ∅ ∅.

(** The world after a right answer to an outstanding challenge. *)
Definition after_right_answer (msg : message) (w : world) : world :=
  let u := id (from_user msg) in
  mkWorld
    (with_verification_attempts
       (with_verified_users (db w) ({[u]} ∪ verified_users (db w)))
       (delete u (verification_attempts (db w))))
    (delete (captcha_key u)
       (<[verified_key u := mkEntry (PBool true) (Some 1800)]> (cache w)))
    ((trace w ++ [LogInfo "User passed the captcha"]) ++
       [SendMessage (chat_id msg)
          "Verification successful! You can now send messages."
          None None None])
    (rng w) (rng_pos w) (clock w).

(** The row [record_attempt] leaves for the user. *)
Definition recorded (u : Z) (w : world) : attempt_row :=
  match verification_attempts (db w) !! u with
  | Some row => mkAttempt (attempt_count row + 1) (Some (clock w))
                          (blocked_by_attempts row)
  | None => mkAttempt 1 (Some (clock w)) false
  end.

(** The world after the wrong answer that exhausts the attempts. *)
Definition after_auto_block (msg : message) (w : world) : world :=
  let u := id (from_user msg) in
  mkWorld
    (mkStore (topics (db w)) (messages (db w))
       (<[u := mkBlocked (username (from_user msg))
                 (first_name (from_user msg)) (last_name (from_user msg))
                 (Some "auto_attempts") (clock w)]> (blocked_users (db w)))
       (alter mark_blocked_by_attempts u
          (<[u := recorded u w]> (verification_attempts (db w))))
       (appeal_requests (db w))
       (verified_users (db w) ∖ {[u]}))
    (delete (captcha_key u) (delete (verified_key u) (cache w)))
    ((((trace w ++ [LogInfo "User entered incorrect answer"]) ++
         [LogWarning "User auto-blocked after 3 failed attempts"]) ++
        [SendMessage u
           "You have been blocked after 3 failed verification attempts."
           None None (Some (AppealButton u))]))
    (rng w) (rng_pos w) (clock w).

(** The world in which [_handle_user_message] runs the captcha check. *)
Definition received (w : world) : world :=
  snd (emit (LogInfo "Received message from user") w).

(** A world with the given store and cache, an empty trace, the constant
    stream [draw] and the clock at 1000. *)
Definition world_of (s : store) (c : gmap string cache_entry) (draw : Z)
  : world :=
  mkWorld s c [] (fun _ => draw) 0 1000.

Definition setting (key value : string) : gmap string cache_entry :=
  {[ key := mkEntry (PStr value) None ]}.

(** A text message of user [u] in the private chat with the bot. *)
Definition text_message (u : Z) (body : string) : message :=
  mkMessage 1 (mkUser u None (Some "Ada") None) u None (Some body) "text"
            None.

Definition no_send (m : message) (chat : Z) (thread : option Z) : Z + string :=
  inr "Bad Request: chat not found".

(** A transport that reports every thread as gone. *)
Definition lost_thread (m : message) (chat : Z) (thread : option Z)
  : Z + string := inr "Bad Request: message thread not found".

(** Approval and rejection, written out.  Neither looks at the appeal
    before it writes. *)
Definition decided (decision : string) (call : callback_query) (w : world)
    (row : appeal_row) : appeal_row :=
  mkAppeal (appeal_time row) decision (Some (id (call_from_user call)))
           (Some (clock w)).

(** A store in which user 7 is blocked and has never appealed, and the
    callback by which an administrator approves an appeal of user 7 in
    the group chat 0. *)
Definition blocked_without_appeal : world :=
  world_of
    (with_blocked_users empty_store
       {[ 7 := mkBlocked None (Some "Eve") None (Some "auto_attempts") 42 ]})
    ∅ 7.

Definition approve_call : callback_query :=
  mkCall "q1" (payload "approve_appeal" 7) (mkUser 1 None (Some "Admin") None)
         0 9.

(** The cases of [_handle_admin_callback] that open with
    [if "<member>" not in data], in the order of the source, each with
    its member. *)
Definition guarded_members : list (string * string) :=
  [("select_auto_reply", "id");
   ("delete_auto_reply", "id");
   ("unban_user", "id");
   ("select_ban_user", "id");
   ("delete_banned_thread", "thread_id");
   ("select_spam_keyword", "idx");
   ("delete_spam_keyword", "idx");
   ("set_blocked_reply_enabled", "value");
   ("approve_appeal", "user_id");
   ("reject_appeal", "user_id")].

(** The integers SQLite stores and the [sqlite3] module binds: 64-bit
    signed.  Binding a Python [int] outside this range raises
    [OverflowError] before the statement runs. *)
Definition sqlite_integer (z : Z) : Prop := - 2 ^ 63 <= z < 2 ^ 63.

(** A decimal digit character. *)
Definition is_digit (c : ascii) : bool :=
  let n := nat_of_ascii c in ((48 <=? n) && (n <=? 57))%nat.

(** The verdict [_handle_user_message] acts on: that of the detector, if
    there is one. *)
Definition spam_verdict (spam_detector_manager : option (message -> bool))
    (m : message) : bool :=
  match spam_detector_manager with
  | Some detect_spam => detect_spam m
  | None => false
  end.

(** The declaring part of the migration, read on table declarations
    alone. *)
Module MigrationSchema.

Import Migration.

Definition create_schema (name : string) (cols : list column)
    (s : gmap string (list column)) : gmap string (list column) :=
  match s !! name with
  | Some _ => s
  | None => <[name := cols]> s
  end.

Definition add_block_reason_schema (s : gmap string (list column))
  : gmap string (list column) :=
  match s !! "blocked_users" with
  | Some cols =>
      if bool_decide ("block_reason" ∈ col_name <$> cols) then s
      else <["blocked_users" := (cols ++ [block_reason_column])%list]> s
  | None => s
  end.

Definition declare (s : gmap string (list column))
  : gmap string (list column) :=
  add_block_reason_schema
    (create_schema "appeal_requests" appeal_requests_columns
       (create_schema "verification_attempts" verification_attempts_columns
          s)).

End MigrationSchema.

Arguments str_of_text : simpl never.
Arguments py_str : simpl never.

(** ** Running the monad *)

Ltac munfold :=
  unfold mbind, mret, M_bind, M_ret, cache_get, cache_set, cache_delete,
    get_db, set_db, modify_db, emit, current_timestamp, raise, try_except
    in *.

Lemma forwards_app (t1 t2 : list event) :
  forwards (t1 ++ t2) = (forwards t1 ++ forwards t2)%list.
Proof.
  unfold forwards. induction t1 as [|e t1 IH]; cbn; [done|].
  destruct (is_forward e); cbn; by rewrite IH.
Qed.

Lemma randint_range lo hi w a w' :
  lo <= hi -> randint lo hi w = (Return a, w') -> lo <= a <= hi.
Proof.
  unfold randint. intros Hle [= <- _].
  pose proof (Z.mod_pos_bound (rng w (rng_pos w)) (hi - lo + 1)). lia.
Qed.

Lemma pretty_eqb (n m : Z) :
  String.eqb (pretty n) (pretty m) = bool_decide (n = m).
Proof.
  case_bool_decide as H.
  - subst. apply String.eqb_refl.
  - apply String.eqb_neq. intros E. apply H. by apply (inj pretty).
Qed.

(** Cache keys of different families never coincide. *)
Lemma captcha_key_ne_setting u : captcha_key u <> "setting_captcha".
Proof. unfold captcha_key. cbn. discriminate. Qed.

Lemma captcha_key_ne_verified_key u v : captcha_key u <> verified_key v.
Proof. unfold verified_key, captcha_key. cbn. discriminate. Qed.

Lemma verified_key_ne_setting u : verified_key u <> "setting_captcha".
Proof. unfold verified_key. cbn. discriminate. Qed.

(** ** Challenge answers *)

Section Challenge.

Variable group_id : Z.

Lemma check_captcha_right_answer (msg : message) (w : world) (ans : pyval) :
  is_str (cvalue <$> cache w !! "setting_captcha") "disable" = false ->
  blocked_users (db w) !! id (from_user msg) = None ->
  cvalue <$> cache w !! captcha_key (id (from_user msg)) = Some ans ->
  str_of_text (text msg) = py_str ans ->
  _check_captcha group_id msg w = (Return false, after_right_answer msg w).
Proof.
  intros Hset Hnb Hcap Htxt.
  unfold _check_captcha, verify_captcha, set_user_verified, reset_attempts.
  munfold. cbn.
  rewrite Hset, Hnb. cbn. rewrite Hcap. cbn. rewrite Hcap. cbn.
  rewrite Htxt, String.eqb_refl. cbn. reflexivity.
Qed.

(** A sender whose verified flag is cached as [True], who is not blocked
    and has no challenge outstanding, is admitted, and the check changes
    nothing. *)
Lemma check_captcha_verified_cached (msg : message) (w : world) :
  is_str (cvalue <$> cache w !! "setting_captcha") "disable" = false ->
  blocked_users (db w) !! id (from_user msg) = None ->
  cache w !! captcha_key (id (from_user msg)) = None ->
  cvalue <$> cache w !! verified_key (id (from_user msg))
  = Some (PBool true) ->
  _check_captcha group_id msg w = (Return true, w).
Proof.
  intros Hset Hnb Hcap Hver.
  unfold _check_captcha, is_user_verified. munfold. cbn.
  rewrite Hset, Hnb. cbn. rewrite Hcap. cbn. rewrite Hver. cbn.
  by destruct w.
Qed.

(** [is_user_verified] answers from the cache when the flag is there. *)
Lemma is_user_verified_cached (u : Z) (w : world) (v : pyval) :
  cvalue <$> cache w !! verified_key u = Some v ->
  is_user_verified u w = (Return v, w).
Proof.
  intros Hv. unfold is_user_verified. munfold. cbn. rewrite Hv. cbn.
  by destruct w.
Qed.

(** The cache after a right answer: the verified flag is set, the
    challenge is gone, and the captcha setting is as before. *)
Lemma after_right_answer_cache (msg : message) (w : world) :
  cvalue <$> cache (after_right_answer msg w)
               !! verified_key (id (from_user msg)) = Some (PBool true) /\
  cache (after_right_answer msg w) !! captcha_key (id (from_user msg))
  = None /\
  cache (after_right_answer msg w) !! "setting_captcha"
  = cache w !! "setting_captcha".
Proof.
  cbn. split.
  { rewrite lookup_delete_ne by apply captcha_key_ne_verified_key.
    by rewrite lookup_insert_eq. }
  split; [apply lookup_delete_eq|].
  rewrite lookup_delete_ne by apply captcha_key_ne_setting.
  by rewrite lookup_insert_ne by apply verified_key_ne_setting.
Qed.

Lemma record_attempt_run (u : Z) (w : world) :
  record_attempt u w =
    (Return (attempt_count (recorded u w)),
     mkWorld (with_verification_attempts (db w)
                (<[u := recorded u w]> (verification_attempts (db w))))
             (cache w) (trace w) (rng w) (rng_pos w) (clock w)).
Proof.
  unfold record_attempt, recorded. munfold. cbn.
  destruct (verification_attempts (db w) !! u); reflexivity.
Qed.

Lemma get_attempt_count_run (u : Z) (w : world) :
  get_attempt_count u w =
    (Return (match verification_attempts (db w) !! u with
             | Some row => attempt_count row
             | None => 0
             end), w).
Proof.
  unfold get_attempt_count. munfold. cbn.
  destruct (verification_attempts (db w) !! u); reflexivity.
Qed.

Lemma recorded_count (u : Z) (w : world) (c : Z) :
  get_attempt_count u w = (Return c, w) ->
  attempt_count (recorded u w) = c + 1.
Proof.
  rewrite get_attempt_count_run. unfold recorded.
  destruct (verification_attempts (db w) !! u); intros [= <-]; reflexivity.
Qed.

Lemma check_captcha_wrong_answer_block (msg : message) (w : world)
    (ans : pyval) :
  is_str (cvalue <$> cache w !! "setting_captcha") "disable" = false ->
  blocked_users (db w) !! id (from_user msg) = None ->
  cvalue <$> cache w !! captcha_key (id (from_user msg)) = Some ans ->
  str_of_text (text msg) <> py_str ans ->
  3 <= attempt_count (recorded (id (from_user msg)) w) ->
  _check_captcha group_id msg w = (Return false, after_auto_block msg w).
Proof.
  intros Hset Hnb Hcap Htxt Hthree.
  apply String.eqb_neq in Htxt. apply Z.leb_le in Hthree.
  unfold _check_captcha, verify_captcha. munfold. cbn.
  rewrite Hset, Hnb. cbn. rewrite Hcap. cbn. rewrite Hcap. cbn.
  rewrite Htxt. cbn.
  rewrite record_attempt_run. cbn. rewrite Hthree.
  unfold block_user_by_attempts. munfold. cbn. reflexivity.
Qed.

(** Below the limit a wrong answer leaves the block list and the
    verified users alone, whatever the challenge kind and whether or not
    a new challenge can be issued. *)
Lemma check_captcha_wrong_answer_retry (msg : message) (w : world)
    (ans : pyval) :
  is_str (cvalue <$> cache w !! "setting_captcha") "disable" = false ->
  blocked_users (db w) !! id (from_user msg) = None ->
  cvalue <$> cache w !! captcha_key (id (from_user msg)) = Some ans ->
  str_of_text (text msg) <> py_str ans ->
  attempt_count (recorded (id (from_user msg)) w) < 3 ->
  exists r w2,
    _check_captcha group_id msg w = (r, w2) /\
    (r = Return false \/ r = Raise (ValueError "Invalid captcha setting")) /\
    (cvalue <$> cache w !! "setting_captcha" = Some (PStr "math") ->
     r = Return false) /\
    db w2 = with_verification_attempts (db w)
              (<[id (from_user msg) := recorded (id (from_user msg)) w]>
                 (verification_attempts (db w))) /\
    forwards (trace w2) = forwards (trace w).
Proof.
  intros Hset Hnb Hcap Htxt Hthree.
  apply String.eqb_neq in Htxt. apply Z.leb_gt in Hthree.
  unfold _check_captcha, verify_captcha. munfold. cbn.
  rewrite Hset, Hnb. cbn. rewrite Hcap. cbn. rewrite Hcap. cbn.
  rewrite Htxt. cbn.
  rewrite record_attempt_run. cbn. rewrite Hthree.
  unfold generate_captcha, _generate_image_captcha, randint. munfold. cbn.
  destruct (cvalue <$> cache w !! "setting_captcha") as [[b|z|kind]|]; cbn;
    try (eexists _, _; split; [reflexivity|]; cbn;
         rewrite ?forwards_app; cbn; rewrite ?app_nil_r;
         repeat split; auto; discriminate).
  destruct (String.eqb kind "math") eqn:Emath; cbn.
  { match goal with
    | |- context [String.eqb ?x EmptyString] =>
        destruct (String.eqb x EmptyString)
    end; cbn;
    (eexists _, _; split; [reflexivity|]; cbn;
     rewrite ?forwards_app; cbn; rewrite ?app_nil_r; auto). }
  assert (Some (PStr kind) = Some (PStr "math") -> False) as Hne.
  { intros [= ->]. discriminate. }
  destruct (String.eqb kind "button"); cbn.
  { eexists _, _; split; [reflexivity|]; cbn;
      rewrite ?forwards_app; cbn; rewrite ?app_nil_r;
      repeat split; auto; intros []%Hne. }
  destruct (String.eqb kind "image"); cbn;
    (eexists _, _; split; [reflexivity|]; cbn;
     rewrite ?forwards_app; cbn; rewrite ?app_nil_r;
     repeat split; auto; intros []%Hne).
Qed.

Section Relay.

Variable transport_send : message -> Z -> option Z -> Z + string.
Variable create_forum_topic : string -> option Z.
Variable transport_pin : Z -> option (Z * bool).
Variable match_auto_response : option string -> option (string * string).
Variable spam_detector_manager : option (message -> bool).
Variable bot_instance : option (M unit).

(** A message the captcha check turns down goes no further. *)
Lemma handle_user_message_denied (msg : message) (w w2 : world) :
  _check_captcha group_id msg (received w) = (Return false, w2) ->
  _handle_user_message group_id transport_send create_forum_topic
    transport_pin match_auto_response spam_detector_manager bot_instance
    msg w
  = (Return tt,
     snd (emit (LogInfo "Message from user blocked by captcha") w2)).
Proof.
  intros H. unfold _handle_user_message.
  unfold mbind at 1. unfold M_bind at 1.
  change (emit (LogInfo "Received message from user") w)
    with (Return tt, received w).
  cbv iota beta. unfold mbind at 1. unfold M_bind at 1.
  rewrite H. reflexivity.
Qed.

End Relay.

End Challenge.

Section ChallengeClaims.

Variable group_id : Z.
Variable transport_send : message -> Z -> option Z -> Z + string.
Variable create_forum_topic : string -> option Z.
Variable transport_pin : Z -> option (Z * bool).
Variable match_auto_response : option string -> option (string * string).
Variable spam_detector_manager : option (message -> bool).
Variable bot_instance : option (M unit).

Local Abbreviation handle :=
  (_handle_user_message group_id transport_send create_forum_topic
     transport_pin match_auto_response spam_detector_manager bot_instance).

(** C4.  Math challenge round trip.  Let the math kind be active and the
    sender [u] of [msg] not be blocked, and let the two draws of
    [generate_captcha] come out as [a] and [b].  Then both operands lie
    in 1..50, the question is [a + b = ?] and the cache holds [a + b] as
    the outstanding answer.  If the text of [msg] is the decimal string
    of [a + b], the check verifies [u], deletes the attempt row and the
    outstanding challenge, and returns [False], so that
    [_handle_user_message] consumes the message: nothing is forwarded
    and [messages] is unchanged.  From then on [u] is allowed: the
    verified flag is cached as [True] (whatever was cached before),
    [is_user_verified] answers [True], and the captcha check admits
    every later message of [u] without changing anything.  If the text
    is the decimal string of
    any other integer, the check returns [False], the attempt count of
    [u] grows by exactly one, and again nothing is forwarded. *)
Theorem math_challenge_round_trip (msg : message) (w wa wb : world)
    (a b : Z) :
  cvalue <$> cache w !! "setting_captcha" = Some (PStr "math") ->
  blocked_users (db w) !! id (from_user msg) = None ->
  randint 1 50 w = (Return a, wa) ->
  randint 1 50 wa = (Return b, wb) ->
  (1 <= a <= 50 /\ 1 <= b <= 50) /\
  exists w1,
    generate_captcha (id (from_user msg)) (Some (PStr "math")) w
    = (Return (Some (pretty a +:+ " + " +:+ pretty b +:+ " = ?")), w1) /\
    cvalue <$> cache w1 !! captcha_key (id (from_user msg))
    = Some (PInt (a + b)) /\
    (text msg = Some (pretty (a + b)) ->
     exists w2 w3,
       _check_captcha group_id msg w1 = (Return false, w2) /\
       id (from_user msg) ∈ verified_users (db w2) /\
       verification_attempts (db w2) !! id (from_user msg) = None /\
       cache w2 !! captcha_key (id (from_user msg)) = None /\
       handle msg w1 = (Return tt, w3) /\
       db w3 = db w2 /\
       messages (db w3) = messages (db w1) /\
       forwards (trace w3) = forwards (trace w1) /\
       cache w3 = cache w2 /\
       cache w2 !! verified_key (id (from_user msg))
       = Some (mkEntry (PBool true) (Some 1800)) /\
       is_user_verified (id (from_user msg)) w3 = (Return (PBool true), w3) /\
       (forall next, id (from_user next) = id (from_user msg) ->
          _check_captcha group_id next w2 = (Return true, w2) /\
          _check_captcha group_id next (received w3)
          = (Return true, received w3))) /\
    (forall n, n <> a + b -> text msg = Some (pretty n) ->
     exists w2 w3 c,
       _check_captcha group_id msg w1 = (Return false, w2) /\
       get_attempt_count (id (from_user msg)) w1 = (Return c, w1) /\
       get_attempt_count (id (from_user msg)) w2 = (Return (c + 1), w2) /\
       handle msg w1 = (Return tt, w3) /\
       db w3 = db w2 /\
       messages (db w3) = messages (db w1) /\
       forwards (trace w3) = forwards (trace w1)).
Proof.
  set (u := id (from_user msg)).
  intros Hset Hnb Ha Hb.
  split; [split; eapply randint_range; eauto; lia|].
  unfold generate_captcha. cbn [String.eqb Ascii.eqb Bool.eqb].
  unfold mbind at 1. unfold M_bind at 1. rewrite Ha.
  unfold mbind at 1. unfold M_bind at 1. rewrite Hb.
  unfold randint in Ha, Hb. injection Ha as _ <-. injection Hb as _ <-.
  munfold. cbn.
  set (w1 := mkWorld _ _ _ _ _ _).
  assert (Hset1 : forall t,
             is_str (cvalue <$>
                       cache (mkWorld (db w1) (cache w1) t (rng w1)
                                      (rng_pos w1) (clock w1))
                       !! "setting_captcha") "disable" = false).
  { intros t. cbn. rewrite lookup_insert_ne by apply captcha_key_ne_setting.
    by rewrite Hset. }
  assert (Hmath : forall t,
             cvalue <$>
               cache (mkWorld (db w1) (cache w1) t (rng w1)
                              (rng_pos w1) (clock w1))
               !! "setting_captcha" = Some (PStr "math")).
  { intros t. cbn. rewrite lookup_insert_ne by apply captcha_key_ne_setting.
    done. }
  assert (Hcap1 : cvalue <$> cache w1 !! captcha_key u = Some (PInt (a + b))).
  { cbn. by rewrite lookup_insert_eq. }
  exists w1. split; [reflexivity|]. split; [exact Hcap1|]. split.
  - intros Htxt.
    assert (Hans : str_of_text (text msg) = py_str (PInt (a + b))).
    { by rewrite Htxt. }
    eexists _, _.
    split; [apply (check_captcha_right_answer _ msg w1 _
                     (Hset1 _) Hnb Hcap1 Hans)|].
    cbn. split; [apply elem_of_union_l; by apply elem_of_singleton|].
    split; [apply lookup_delete_eq|].
    split; [apply lookup_delete_eq|].
    split.
    { apply handle_user_message_denied.
      apply (check_captcha_right_answer _ msg (received w1) _
               (Hset1 _) Hnb Hcap1 Hans). }
    cbn [snd emit db messages trace after_right_answer received].
    split; [reflexivity|]. split; [reflexivity|].
    split; [cbn; rewrite !forwards_app; cbn; by rewrite !app_nil_r|].
    split; [reflexivity|].
    destruct (after_right_answer_cache msg w1) as (Hflag & Hgone & Hkept).
    split.
    { cbn. rewrite lookup_delete_ne by apply captcha_key_ne_verified_key.
      by rewrite lookup_insert_eq. }
    split; [apply is_user_verified_cached; exact Hflag|].
    assert (Hadmit : forall (w' : world) (next : message),
               cache w' = cache (after_right_answer msg w1) ->
               db w' = db (after_right_answer msg w1) ->
               id (from_user next) = u ->
               _check_captcha group_id next w' = (Return true, w')).
    { intros w' next Hc Hd Hnext.
      apply check_captcha_verified_cached; rewrite ?Hnext, ?Hc, ?Hd.
      - rewrite Hkept. apply (Hset1 []).
      - exact Hnb.
      - exact Hgone.
      - exact Hflag. }
    intros next Hnext. split; by apply Hadmit.
  - intros n Hn Htxt.
    assert (Hans : str_of_text (text msg) <> py_str (PInt (a + b))).
    { rewrite Htxt. unfold str_of_text, py_str. intros E.
      by apply (inj pretty) in E. }
    pose proof (get_attempt_count_run u w1) as Hc.
    set (c := match verification_attempts (db w1) !! u with
              | Some row => attempt_count row
              | None => 0
              end) in Hc.
    pose proof (recorded_count u w1 c Hc) as Hrc.
    destruct (Z_le_gt_dec 3 (attempt_count (recorded u w1)))
      as [Hthree|Hthree].
    + eexists _, _, c.
      split; [apply (check_captcha_wrong_answer_block _ msg w1 _
                       (Hset1 _) Hnb Hcap1 Hans Hthree)|].
      split; [exact Hc|].
      split.
      { rewrite get_attempt_count_run. cbn.
        rewrite lookup_alter_eq, lookup_insert_eq. cbn.
        fold u. fold w1. by rewrite Hrc. }
      split.
      { apply handle_user_message_denied.
        apply (check_captcha_wrong_answer_block _ msg (received w1) _
                 (Hset1 _) Hnb Hcap1 Hans Hthree). }
      cbn. split; [reflexivity|]. split; [reflexivity|].
      rewrite !forwards_app. cbn. by rewrite !app_nil_r.
    + assert (Hlt : attempt_count (recorded u w1) < 3) by lia.
      destruct (check_captcha_wrong_answer_retry group_id msg w1 _
                  (Hset1 _) Hnb Hcap1 Hans Hlt)
        as (r & w2 & Hrun & _ & Hr & Hdb & Hfw).
      destruct (check_captcha_wrong_answer_retry group_id msg (received w1)
                  _ (Hset1 _) Hnb Hcap1 Hans Hlt)
        as (r' & w2' & Hrun' & _ & Hr' & Hdb' & Hfw').
      rewrite (Hr (Hmath _)) in Hrun. rewrite (Hr' (Hmath _)) in Hrun'.
      eexists _, _, c.
      split; [exact Hrun|].
      split; [exact Hc|].
      split.
      { rewrite get_attempt_count_run, Hdb. cbn. rewrite lookup_insert_eq.
        fold u. fold w1. by rewrite Hrc. }
      split; [apply handle_user_message_denied; exact Hrun'|].
      cbn. rewrite Hdb, Hdb'. split; [reflexivity|]. split; [reflexivity|].
      rewrite forwards_app, Hfw'. cbn. rewrite forwards_app. cbn.
      by rewrite !app_nil_r.
Qed.

(** C5.  Auto-block on exhausted attempts.  Let [u], not blocked, have a
    challenge outstanding and a stored attempt count [c], and let [msg]
    carry a wrong answer.  The check then leaves the count at [c + 1].
    When [c] is 2 the count becomes 3, the check returns [False], [u]
    gets a [blocked_users] row with reason [auto_attempts], and [u]
    leaves [verified_users] and the verified flag leaves the cache.
    The block is entered exactly when the new count has reached 3. *)
Theorem auto_block_on_third_wrong_answer (msg : message) (w : world)
    (ans : pyval) (c : Z) :
  is_str (cvalue <$> cache w !! "setting_captcha") "disable" = false ->
  blocked_users (db w) !! id (from_user msg) = None ->
  cvalue <$> cache w !! captcha_key (id (from_user msg)) = Some ans ->
  str_of_text (text msg) <> py_str ans ->
  get_attempt_count (id (from_user msg)) w = (Return c, w) ->
  exists r w2,
    _check_captcha group_id msg w = (r, w2) /\
    get_attempt_count (id (from_user msg)) w2 = (Return (c + 1), w2) /\
    (c = 2 ->
     r = Return false /\
     get_attempt_count (id (from_user msg)) w2 = (Return 3, w2) /\
     (exists row, blocked_users (db w2) !! id (from_user msg) = Some row /\
                  block_reason row = Some "auto_attempts") /\
     (id (from_user msg) ∉ verified_users (db w2)) /\
     cache w2 !! verified_key (id (from_user msg)) = None /\
     forwards (trace w2) = forwards (trace w)) /\
    (is_Some (blocked_users (db w2) !! id (from_user msg)) <-> (3 <= c + 1)).
Proof.
  set (u := id (from_user msg)).
  intros Hset Hnb Hcap Hans Hc.
  pose proof (recorded_count u w c Hc) as Hrc.
  destruct (Z_le_gt_dec 3 (attempt_count (recorded u w))) as [Hthree|Hthree].
  - exists (Return false), (after_auto_block msg w).
    split; [by apply (check_captcha_wrong_answer_block _ msg w ans)|].
    assert (Hcount : get_attempt_count u (after_auto_block msg w)
                     = (Return (c + 1), after_auto_block msg w)).
    { rewrite get_attempt_count_run. cbn.
      rewrite lookup_alter_eq, lookup_insert_eq. cbn.
      fold u. by rewrite Hrc. }
    split; [exact Hcount|]. split.
    + intros ->. split; [reflexivity|]. split; [exact Hcount|].
      cbn. split.
      { eexists. rewrite lookup_insert_eq. split; reflexivity. }
      split.
      { rewrite elem_of_difference, elem_of_singleton. by intros [_ []]. }
      split.
      { rewrite lookup_delete_ne by apply captcha_key_ne_verified_key.
        apply lookup_delete_eq. }
      rewrite !forwards_app. cbn. by rewrite !app_nil_r.
    + cbn. rewrite lookup_insert_eq. split; [lia|eauto].
  - assert (Hlt : attempt_count (recorded u w) < 3) by lia.
    destruct (check_captcha_wrong_answer_retry group_id msg w _
                Hset Hnb Hcap Hans Hlt)
      as (r & w2 & Hrun & _ & _ & Hdb & Hfw).
    exists r, w2. split; [exact Hrun|].
    split.
    { rewrite get_attempt_count_run, Hdb. cbn. rewrite lookup_insert_eq.
      fold u. by rewrite Hrc. }
    split; [lia|].
    rewrite Hdb. cbn. fold u. rewrite Hnb. split; [by intros []|lia].
Qed.

End ChallengeClaims.

(** An instance of C4: operands 8 and 8, answered with 16; the next
    message of the user is admitted. *)
Lemma math_challenge_round_trip_witness :
  exists w1 w2,
    generate_captcha 5 (Some (PStr "math"))
      (world_of empty_store (setting "setting_captcha" "math") 7)
    = (Return (Some "8 + 8 = ?"), w1) /\
    cvalue <$> cache w1 !! captcha_key 5 = Some (PInt 16) /\
    _check_captcha 0 (text_message 5 "16") w1 = (Return false, w2) /\
    _check_captcha 0 (text_message 5 "hello") w2 = (Return true, w2).
Proof.
  destruct (math_challenge_round_trip 0 no_send (fun _ => None)
              (fun _ => None) (fun _ => None) None None
              (text_message 5 "16")
              (world_of empty_store (setting "setting_captcha" "math") 7)
              (snd (randint 1 50
                      (world_of empty_store
                         (setting "setting_captcha" "math") 7)))
              (snd (randint 1 50
                      (snd (randint 1 50
                              (world_of empty_store
                                 (setting "setting_captcha" "math") 7)))))
              8 8)
    as (_ & w1 & Hq & Hc & Hright & _).
  - reflexivity.
  - reflexivity.
  - reflexivity.
  - reflexivity.
  - destruct Hright as (w2 & w3 & Hrun & Hrest); [vm_compute; reflexivity|].
    do 10 (destruct Hrest as (_ & Hrest)).
    exists w1, w2. split; [exact Hq|]. split; [exact Hc|].
    split; [exact Hrun|].
    apply (Hrest (text_message 5 "hello")). reflexivity.
Defined.

(** An instance of C5: the third wrong answer of user 5. *)
Lemma auto_block_on_third_wrong_answer_witness :
  exists w2,
    _check_captcha 0 (text_message 5 "17")
      (world_of
         (with_verification_attempts empty_store
            {[ 5 := mkAttempt 2 None false ]})
         (<[captcha_key 5 := mkEntry (PInt 16) (Some 300)]>
            (setting "setting_captcha" "math")) 7)
    = (Return false, w2) /\
    get_attempt_count 5 w2 = (Return 3, w2) /\
    block_reason <$> blocked_users (db w2) !! 5 = Some (Some "auto_attempts").
Proof.
  destruct (auto_block_on_third_wrong_answer 0 (text_message 5 "17")
              (world_of
                 (with_verification_attempts empty_store
                    {[ 5 := mkAttempt 2 None false ]})
                 (<[captcha_key 5 := mkEntry (PInt 16) (Some 300)]>
                    (setting "setting_captcha" "math")) 7)
              (PInt 16) 2)
    as (r & w2 & Hrun & _ & Hblock & _).
  - reflexivity.
  - reflexivity.
  - reflexivity.
  - intros E. vm_compute in E. discriminate E.
  - reflexivity.
  - destruct (Hblock eq_refl) as (-> & Hcount & (row & Hrow & Hreason) & _).
    exists w2. split; [exact Hrun|]. split; [exact Hcount|].
    cbn in Hrow. rewrite Hrow. cbn. by rewrite Hreason.
Defined.

Section BlockedSender.

Variable group_id : Z.
Variable transport_send : message -> Z -> option Z -> Z + string.
Variable create_forum_topic : string -> option Z.
Variable transport_pin : Z -> option (Z * bool).
Variable match_auto_response : option string -> option (string * string).
Variable spam_detector_manager : option (message -> bool).
Variable bot_instance : option (M unit).

Local Abbreviation handle :=
  (_handle_user_message group_id transport_send create_forum_topic
     transport_pin match_auto_response spam_detector_manager bot_instance).

(** C10.  Frame of the blocked-sender path.  When the sender of [msg]
    has a [blocked_users] row and is not in appeal verification,
    [_handle_user_message] returns normally and changes nothing but,
    at most, the [username], [first_name] and [last_name] of that row:
    its [block_reason] and [blocked_at], the rows of all other users,
    [topics], [messages], [verified_users], [verification_attempts],
    [appeal_requests] and the cache are as before, and nothing is
    forwarded. *)
Theorem blocked_sender_frame (msg : message) (w : world) (row : blocked_row) :
  blocked_users (db w) !! id (from_user msg) = Some row ->
  opt_truthy (cvalue <$>
                cache w !! appeal_verification_key (id (from_user msg)))
  = false ->
  exists w2 row2,
    handle msg w = (Return tt, w2) /\
    blocked_users (db w2) !! id (from_user msg) = Some row2 /\
    (row2 = row \/ row2 = rename_blocked (from_user msg) row) /\
    block_reason row2 = block_reason row /\
    blocked_at row2 = blocked_at row /\
    (forall v, v <> id (from_user msg) ->
               blocked_users (db w2) !! v = blocked_users (db w) !! v) /\
    topics (db w2) = topics (db w) /\
    messages (db w2) = messages (db w) /\
    verified_users (db w2) = verified_users (db w) /\
    verification_attempts (db w2) = verification_attempts (db w) /\
    appeal_requests (db w2) = appeal_requests (db w) /\
    cache w2 = cache w /\
    forwards (trace w2) = forwards (trace w).
Proof.
  intros Hrow Hflag.
  destruct (is_str (cvalue <$> cache w !! "setting_captcha") "disable")
    eqn:Hset.
  - assert (Hcheck : _check_captcha group_id msg (received w)
                     = (Return true, received w)).
    { unfold _check_captcha, received. munfold. cbn. by rewrite Hset. }
    unfold _handle_user_message.
    unfold mbind at 1. unfold M_bind at 1.
    change (emit (LogInfo "Received message from user") w)
      with (Return tt, received w).
    cbv iota beta. unfold mbind at 1. unfold M_bind at 1.
    rewrite Hcheck. munfold. cbn. rewrite Hrow. cbn.
    assert (Hfinish : forall t,
      forwards t = forwards (trace w) ->
      exists w2 row2,
        (Return tt,
         mkWorld (with_blocked_users (db w)
                    (alter (rename_blocked (from_user msg))
                           (id (from_user msg)) (blocked_users (db w))))
                 (cache w) t (rng w) (rng_pos w) (clock w))
        = (Return tt, w2) /\
        blocked_users (db w2) !! id (from_user msg) = Some row2 /\
        (row2 = row \/ row2 = rename_blocked (from_user msg) row) /\
        block_reason row2 = block_reason row /\
        blocked_at row2 = blocked_at row /\
        (forall v, v <> id (from_user msg) ->
                   blocked_users (db w2) !! v = blocked_users (db w) !! v) /\
        topics (db w2) = topics (db w) /\
        messages (db w2) = messages (db w) /\
        verified_users (db w2) = verified_users (db w) /\
        verification_attempts (db w2) = verification_attempts (db w) /\
        appeal_requests (db w2) = appeal_requests (db w) /\
        cache w2 = cache w /\
        forwards (trace w2) = forwards (trace w)).
    { intros t Ht. eexists _, _. split; [reflexivity|]. cbn.
      rewrite lookup_alter_eq, Hrow. cbn.
      split; [reflexivity|]. split; [by right|].
      split; [reflexivity|]. split; [reflexivity|].
      split; [intros v Hv; by rewrite lookup_alter_ne|].
      do 6 (split; [reflexivity|]). exact Ht. }
    destruct (is_str (cvalue <$>
                        cache w !! "setting_blocked_user_reply_enabled")
                     "enable"); cbn.
    + destruct (cvalue <$>
                  cache w !! "setting_blocked_user_reply_message")
        as [v|]; cbn.
      * destruct (truthy v); cbn; apply Hfinish;
          rewrite !forwards_app; cbn; by rewrite ?app_nil_r.
      * apply Hfinish. rewrite !forwards_app. cbn. by rewrite ?app_nil_r.
    + apply Hfinish. rewrite !forwards_app. cbn. by rewrite ?app_nil_r.
  - eexists _, row. split.
    { apply handle_user_message_denied.
      unfold _check_captcha, received. munfold. cbn.
      rewrite Hset. cbn. rewrite Hrow. cbn. rewrite Hflag. reflexivity. }
    cbn. split; [exact Hrow|]. split; [by left|].
    do 9 (split; [reflexivity|]).
    unfold forwards. rewrite !List.filter_app. cbn. by rewrite ?app_nil_r.
Qed.

End BlockedSender.

(** An instance of C10: user 5, blocked by an administrator, writes while
    the captcha is disabled. *)
Lemma blocked_sender_frame_witness :
  exists w2,
    _handle_user_message 0 no_send (fun _ => None) (fun _ => None)
      (fun _ => None) None None (text_message 5 "hello")
      (world_of
         (with_blocked_users empty_store
            {[ 5 := mkBlocked None (Some "Eve") None (Some "manual") 42 ]})
         (setting "setting_captcha" "disable") 7)
    = (Return tt, w2) /\
    blocked_users (db w2) !! 5
    = Some (mkBlocked None (Some "Ada") None (Some "manual") 42) /\
    forwards (trace w2) = [].
Proof.
  destruct (blocked_sender_frame 0 no_send (fun _ => None) (fun _ => None)
              (fun _ => None) None None (text_message 5 "hello")
              (world_of
                 (with_blocked_users empty_store
                    {[ 5 := mkBlocked None (Some "Eve") None (Some "manual")
                              42 ]})
                 (setting "setting_captcha" "disable") 7)
              (mkBlocked None (Some "Eve") None (Some "manual") 42))
    as (w2 & row2 & Hrun & Hrow & _ & _ & _ & _ & _ & _ & _ & _ & _ & _ & Hfw).
  - reflexivity.
  - reflexivity.
  - exists w2. split; [exact Hrun|].
    vm_compute in Hrun. injection Hrun as <-.
    split; [reflexivity | exact Hfw].
Defined.

(** ** Appeals *)

(** C6.  One-shot appeal.  [appeal_requests] is keyed by the user id, so
    a user never has two rows.  When [u] has a row whose status is
    [pending], [approved] or [rejected], a further request is turned down
    with the notice of that status and nothing else happens: pressing the
    appeal button only answers the callback with the notice, and
    [_submit_appeal] only sends the notice to [u]; store and cache are
    unchanged, so no row is created.  Whatever the status of the row,
    [_submit_appeal] leaves [appeal_requests] as it is. *)
Theorem appeal_is_one_shot (group_id : Z) (u : Z) (usr : user)
    (call : callback_query) (body : json) (w : world) (row : appeal_row) :
  appeal_requests (db w) !! u = Some row ->
  json_get body "user_id" = Some (JInt u) ->
  u <> 0 ->
  (forall st notice,
     In (st, notice)
        [("pending", "Your appeal is already pending review");
         ("approved", "Your appeal was already approved");
         ("rejected",
          "Your appeal was already rejected. No further appeals allowed.")] ->
     status row = st ->
     _handle_appeal_request call body w
     = (Return tt,
        mkWorld (db w) (cache w)
          (trace w ++ [AnswerCallbackQuery (call_id call) (Some notice)])
          (rng w) (rng_pos w) (clock w)) /\
     _submit_appeal group_id u usr w
     = (Return tt,
        mkWorld (db w) (cache w)
          (trace w ++ [SendMessage u notice None None None])
          (rng w) (rng_pos w) (clock w))) /\
  (exists r w2, _submit_appeal group_id u usr w = (r, w2) /\
                appeal_requests (db w2) = appeal_requests (db w)).
Proof.
  intros Hrow Hbody Hu. split.
  - intros st notice Hin Hst.
    assert (Hnotice : existing_appeal_notice (status row) = Some notice).
    { rewrite Hst. cbn in Hin.
      destruct Hin as [[= <- <-]|[[= <- <-]|[[= <- <-]|[]]]]; reflexivity. }
    split.
    + unfold _handle_appeal_request. rewrite Hbody.
      unfold json_truthy. apply Z.eqb_neq in Hu. rewrite Hu.
      munfold. cbn. rewrite Hrow. cbn. rewrite Hnotice. reflexivity.
    + unfold _submit_appeal. munfold. cbn. rewrite Hrow. cbn.
      rewrite Hnotice. reflexivity.
  - unfold _submit_appeal. munfold. cbn. rewrite Hrow. cbn.
    destruct (existing_appeal_notice (status row)); cbn;
      eexists _, _; split; reflexivity.
Qed.

(** An instance of C6: user 5, whose appeal was rejected, presses the
    appeal button again. *)
Lemma appeal_is_one_shot_witness :
  _handle_appeal_request
    (mkCall "q1" (payload "appeal_request" 5) (mkUser 5 None None None) 5 9)
    (JObj [("action", JStr "appeal_request"); ("user_id", JInt 5)])
    (world_of
       (with_appeal_requests empty_store
          {[ 5 := mkAppeal 10 "rejected" (Some 1) (Some 20) ]}) ∅ 7)
  = (Return tt,
     mkWorld
       (with_appeal_requests empty_store
          {[ 5 := mkAppeal 10 "rejected" (Some 1) (Some 20) ]}) ∅
       [AnswerCallbackQuery "q1"
          (Some "Your appeal was already rejected. No further appeals allowed.")]
       (fun _ => 7) 0 1000).
Proof.
  refine (proj1 (proj1 (appeal_is_one_shot 0 5 (mkUser 5 None None None)
            (mkCall "q1" (payload "appeal_request" 5)
               (mkUser 5 None None None) 5 9)
            (JObj [("action", JStr "appeal_request"); ("user_id", JInt 5)])
            (world_of
               (with_appeal_requests empty_store
                  {[ 5 := mkAppeal 10 "rejected" (Some 1) (Some 20) ]}) ∅ 7)
            (mkAppeal 10 "rejected" (Some 1) (Some 20)) _ _ _)
          "rejected"
          "Your appeal was already rejected. No further appeals allowed."
          _ _)).
  - reflexivity.
  - reflexivity.
  - discriminate.
  - right. right. left. reflexivity.
  - reflexivity.
Defined.

(** C2.  Automatic appeal mode.  When [u] has no appeal yet and
    [appeal_mode] is [auto], [_submit_appeal] records the appeal, marks it
    [approved] and deletes the [blocked_users] row of [u]; it does not
    touch [verification_attempts], so the attempt count of [u] is not
    reset, whereas [_handle_approve_appeal], the manual approval, deletes
    that row as well. *)
Theorem auto_appeal_keeps_attempt_row (group_id : Z) (u : Z) (usr : user)
    (call : callback_query) (w : world) :
  appeal_requests (db w) !! u = None ->
  is_str (cvalue <$> cache w !! "setting_appeal_mode") "auto" = true ->
  (exists w2,
     _submit_appeal group_id u usr w = (Return tt, w2) /\
     status <$> appeal_requests (db w2) !! u = Some "approved" /\
     blocked_users (db w2) !! u = None /\
     verification_attempts (db w2) = verification_attempts (db w)) /\
  (exists w3,
     _handle_approve_appeal call u w = (Return tt, w3) /\
     blocked_users (db w3) !! u = None /\
     verification_attempts (db w3) !! u = None).
Proof.
  intros Hnone Hauto. split.
  - unfold _submit_appeal. munfold. cbn. rewrite Hnone. cbn.
    rewrite Hauto. cbn. eexists. split; [reflexivity|]. cbn.
    rewrite lookup_alter_eq, lookup_insert_eq. cbn.
    split; [reflexivity|]. split; [apply lookup_delete_eq|reflexivity].
  - unfold _handle_approve_appeal. munfold. cbn.
    eexists. split; [reflexivity|]. cbn.
    split; apply lookup_delete_eq.
Qed.

(** The failing input of C2: user 5 was blocked after three wrong
    answers and appeals under the automatic mode; the appeal is approved
    and the block lifted, but the count of three attempts stays. *)
Lemma auto_appeal_keeps_attempt_row_witness :
  exists w2,
    _submit_appeal 0 5 (mkUser 5 None (Some "Ada") None)
      (world_of
         (mkStore [] []
            {[ 5 := mkBlocked None (Some "Ada") None (Some "auto_attempts")
                      42 ]}
            {[ 5 := mkAttempt 3 (Some 41) true ]} ∅ ∅)
         (setting "setting_appeal_mode" "auto") 7)
    = (Return tt, w2) /\
    status <$> appeal_requests (db w2) !! 5 = Some "approved" /\
    blocked_users (db w2) !! 5 = None /\
    verification_attempts (db w2) !! 5 = Some (mkAttempt 3 (Some 41) true).
Proof.
  destruct (auto_appeal_keeps_attempt_row 0 5 (mkUser 5 None (Some "Ada") None)
              (mkCall "q1" (payload "approve_appeal" 5)
                 (mkUser 1 None None None) 0 9)
              (world_of
                 (mkStore [] []
                    {[ 5 := mkBlocked None (Some "Ada") None
                              (Some "auto_attempts") 42 ]}
                    {[ 5 := mkAttempt 3 (Some 41) true ]} ∅ ∅)
                 (setting "setting_appeal_mode" "auto") 7))
    as ((w2 & Hrun & Hst & Hb & Hv) & _).
  - reflexivity.
  - reflexivity.
  - exists w2. split; [exact Hrun|]. split; [exact Hst|].
    split; [exact Hb|]. rewrite Hv. reflexivity.
Defined.

(** ** The relay router *)

Lemma find_characterised {A} (p : A -> bool) (l : list A) :
  match List.find p l with
  | Some x => In x l /\ p x = true
  | None => forall x, In x l -> p x = false
  end.
Proof.
  destruct (List.find p l) as [x|] eqn:E.
  - by apply List.find_some in E.
  - intros x Hx. by apply (List.find_none p l E).
Qed.

(** C8.  Reply correlation.  For a message that replies to [ref] in
    thread [t] with direction flag [dir], [_get_reply_id] changes nothing
    and returns an id [r] such that: if the replying party is the author
    of [ref], then [r] is the [forwarded_id] of a [messages] row whose
    [received_id] is the id of [ref], in thread [t], with flag [dir]; if
    not, [r] is the [received_id] of a row whose [forwarded_id] is the id
    of [ref], in thread [t], with the flag inverted; and [r] is [None]
    exactly when no such row exists. *)
Theorem reply_correlation (msg : message) (t : Z) (dir : bool) (w : world)
    (ref : reply_ref) :
  reply_to_message msg = Some ref ->
  exists r,
    _get_reply_id msg t dir w = (Return r, w) /\
    (reply_from_id ref = id (from_user msg) ->
     (forall f, r = Some f ->
        exists row, In row (messages (db w)) /\
          received_id row = reply_message_id ref /\ topic_id row = t /\
          in_group row = dir /\ forwarded_id row = f) /\
     (r = None <->
      forall row, In row (messages (db w)) ->
        ~ (received_id row = reply_message_id ref /\ topic_id row = t /\
           in_group row = dir))) /\
    (reply_from_id ref <> id (from_user msg) ->
     (forall f, r = Some f ->
        exists row, In row (messages (db w)) /\
          forwarded_id row = reply_message_id ref /\ topic_id row = t /\
          in_group row = negb dir /\ received_id row = f) /\
     (r = None <->
      forall row, In row (messages (db w)) ->
        ~ (forwarded_id row = reply_message_id ref /\ topic_id row = t /\
           in_group row = negb dir))).
Proof.
  intros Href. unfold _get_reply_id. rewrite Href. munfold. cbn.
  destruct (Z.eqb_spec (reply_from_id ref) (id (from_user msg))) as [Heq|Hne].
  - eexists. split; [reflexivity|]. split; [|by intros []].
    intros _.
    match goal with
    | |- context [List.find ?p ?l] =>
        pose proof (find_characterised p l) as Hfind;
        destruct (List.find p l) as [row|]
    end; cbn.
    + destruct Hfind as [Hin Hp].
      apply andb_prop in Hp as [Hp Hdir]. apply andb_prop in Hp as [Hrec Htop].
      apply Z.eqb_eq in Hrec, Htop. apply Bool.eqb_prop in Hdir.
      split.
      * intros f [= <-]. by exists row.
      * split; [discriminate|]. intros Hnone. by destruct (Hnone row Hin).
    + split; [discriminate|]. split; [|done].
      intros _ row Hin (Hrec & Htop & Hdir).
      specialize (Hfind row Hin). cbn in Hfind.
      rewrite Hrec, Htop, Hdir, !Z.eqb_refl, Bool.eqb_reflx in Hfind.
      discriminate.
  - eexists. split; [reflexivity|]. split; [by intros []%Hne|].
    intros _.
    match goal with
    | |- context [List.find ?p ?l] =>
        pose proof (find_characterised p l) as Hfind;
        destruct (List.find p l) as [row|]
    end; cbn.
    + destruct Hfind as [Hin Hp].
      apply andb_prop in Hp as [Hp Hdir]. apply andb_prop in Hp as [Hfwd Htop].
      apply Z.eqb_eq in Hfwd, Htop. apply Bool.eqb_prop in Hdir.
      split.
      * intros f [= <-]. by exists row.
      * split; [discriminate|]. intros Hnone. by destruct (Hnone row Hin).
    + split; [discriminate|]. split; [|done].
      intros _ row Hin (Hfwd & Htop & Hdir).
      specialize (Hfind row Hin). cbn in Hfind.
      rewrite Hfwd, Htop, Hdir, !Z.eqb_refl, Bool.eqb_reflx in Hfind.
      discriminate.
Qed.

(** An instance of C8: a staff member replies, in thread 77, to the
    message a user's message 3 was forwarded as. *)
Lemma reply_correlation_witness :
  _get_reply_id
    (mkMessage 60 (mkUser 900 None (Some "Staff") None) (-100) (Some 77)
       (Some "hi") "text" (Some (mkReply 50 1)))
    77 true
    (world_of (with_messages empty_store [mkMessageRow 3 50 77 false]) ∅ 7)
  = (Return (Some 3),
     world_of (with_messages empty_store [mkMessageRow 3 50 77 false]) ∅ 7).
Proof.
  destruct (reply_correlation
              (mkMessage 60 (mkUser 900 None (Some "Staff") None) (-100)
                 (Some 77) (Some "hi") "text" (Some (mkReply 50 1)))
              77 true
              (world_of
                 (with_messages empty_store [mkMessageRow 3 50 77 false]) ∅ 7)
              (mkReply 50 1) eq_refl)
    as (r & Hrun & _).
  rewrite Hrun. vm_compute in Hrun. injection Hrun as <-. reflexivity.
Defined.

Section ThreadLoss.

Variable group_id : Z.
Variable transport_send : message -> Z -> option Z -> Z + string.
Variable create_forum_topic : string -> option Z.
Variable transport_pin : Z -> option (Z * bool).

(** Once no [topics] row and no cache entry name a thread for the
    user, [_get_or_create_thread] asks the transport for a new one. *)
Lemma get_or_create_thread_creates (msg : message) (w : world) (t' : Z) :
  cache w !! chat_threadid_key (id (from_user msg)) = None ->
  (forall t0, ~ In (id (from_user msg), t0) (topics (db w))) ->
  create_forum_topic (default "None" (first_name (from_user msg))
                        +:+ " | " +:+ pretty (id (from_user msg)))
  = Some t' ->
  exists w3,
    _get_or_create_thread group_id create_forum_topic transport_pin msg w
    = (Return (Some t'), w3) /\
    topics (db w3) = (topics (db w) ++ [(id (from_user msg), t')])%list /\
    In (CreateForumTopic (default "None" (first_name (from_user msg))
                            +:+ " | " +:+ pretty (id (from_user msg))))
       (trace w3).
Proof.
  intros Hcache Hrows Hcreate.
  unfold _get_or_create_thread. munfold. cbn. rewrite Hcache. cbn.
  assert (Hnone : topic_of_user (id (from_user msg)) (topics (db w)) = None).
  { unfold topic_of_user.
    match goal with
    | |- context [List.find ?p ?l] =>
        pose proof (find_characterised p l) as Hfind;
        destruct (List.find p l) as [[v t0]|]
    end; [|reflexivity].
    destruct Hfind as [Hin Hp]. cbn in Hp. apply Z.eqb_eq in Hp. subst v.
    by destruct (Hrows t0). }
  rewrite Hnone, Hcreate. cbn.
  destruct (transport_pin t') as [[pin_message [|]]|]; cbn;
    (eexists; split; [reflexivity|]; cbn; split; [reflexivity|];
     rewrite !in_app_iff; cbn; tauto).
Qed.

(** C7.  Thread-loss recovery.  Let the transport answer the forward of
    [msg] to thread [t] with an error that says [message thread not
    found].  Then [_forward_to_group] makes that one attempt and no
    other, deletes every [topics] row of thread [t], removes the cache
    entries keyed on the thread id and on the user id, leaves the other
    tables alone and returns [None].  If [t] was the only thread on
    record for the user, the next [_get_or_create_thread] for a message
    of that user asks the transport for a new thread and records it. *)
Theorem thread_loss_recovery (msg : message) (t : Z) (w : world)
    (description : string) :
  In (content_type msg) supported_content_types ->
  transport_send msg group_id (Some t) = inr description ->
  contains "message thread not found" description = true ->
  exists reply_id w2,
    _forward_to_group group_id transport_send msg t w = (Return None, w2) /\
    (forall v, ~ In (v, t) (topics (db w2))) /\
    (forall v t0, t0 <> t ->
       (In (v, t0) (topics (db w2)) <-> In (v, t0) (topics (db w)))) /\
    cache w2 !! threadid_userid_key t = None /\
    cache w2 !! chat_threadid_key (id (from_user msg)) = None /\
    trace w2
    = (trace w ++ [SendByType msg group_id (Some t) reply_id false])%list /\
    messages (db w2) = messages (db w) /\
    blocked_users (db w2) = blocked_users (db w) /\
    verification_attempts (db w2) = verification_attempts (db w) /\
    appeal_requests (db w2) = appeal_requests (db w) /\
    verified_users (db w2) = verified_users (db w) /\
    ((forall t0, In (id (from_user msg), t0) (topics (db w)) -> t0 = t) ->
     forall next t',
       id (from_user next) = id (from_user msg) ->
       create_forum_topic (default "None" (first_name (from_user next))
                             +:+ " | " +:+ pretty (id (from_user next)))
       = Some t' ->
       exists w3,
         _get_or_create_thread group_id create_forum_topic transport_pin
           next w2
         = (Return (Some t'), w3) /\
         In (id (from_user msg), t') (topics (db w3)) /\
         In (CreateForumTopic
               (default "None" (first_name (from_user next))
                  +:+ " | " +:+ pretty (id (from_user next))))
            (trace w3)).
Proof.
  intros Htype Hsend Hlost.
  assert (Hrun : exists reply_id,
    _forward_to_group group_id transport_send msg t w
    = (Return None,
       mkWorld
         (with_topics (db w)
            (List.filter (fun r => negb (snd r =? t)%Z) (topics (db w))))
         (delete (chat_threadid_key (id (from_user msg)))
            (delete (threadid_userid_key t) (cache w)))
         (trace w ++ [SendByType msg group_id (Some t) reply_id false])
         (rng w) (rng_pos w) (clock w))).
  { unfold _forward_to_group, _send_message_by_type.
    unfold try_except, mbind at 1, M_bind at 1.
    destruct (_get_reply_id msg t false w) as [r w'] eqn:Hreply.
    assert (exists reply_id, r = Return reply_id /\ w' = w) as (reply_id & -> & ->).
    { unfold _get_reply_id in Hreply. munfold.
      destruct (reply_to_message msg); cbn in Hreply;
        [destruct (_ =? _)%Z|]; injection Hreply as <- <-; eauto. }
    exists reply_id.
    rewrite bool_decide_eq_true_2 by (by apply list_elem_of_In).
    munfold. cbn. rewrite Hsend. cbn. rewrite Hlost. reflexivity. }
  destruct Hrun as (reply_id & Hrun).
  eexists reply_id, _. split; [exact Hrun|]. cbn.
  split.
  { intros v Hin. apply List.filter_In in Hin as [_ Hp]. cbn in Hp.
    by rewrite Z.eqb_refl in Hp. }
  split.
  { intros v t0 Ht0. rewrite List.filter_In. cbn.
    apply Z.eqb_neq in Ht0. rewrite Ht0. cbn. tauto. }
  split.
  { rewrite lookup_delete_ne; [apply lookup_delete_eq|].
    unfold chat_threadid_key, threadid_userid_key. cbn. discriminate. }
  split; [apply lookup_delete_eq|].
  do 6 (split; [reflexivity|]).
  intros Honly next t' Hsame Hcreate.
  match goal with
  | |- context [_get_or_create_thread _ _ _ _ ?w2] =>
      destruct (get_or_create_thread_creates next w2 t')
        as (w3 & Hnext & Htopics & Htrace)
  end.
  - cbn. rewrite Hsame. apply lookup_delete_eq.
  - cbn. rewrite Hsame. intros t0 Hin.
    apply List.filter_In in Hin as [Hin Hp]. cbn in Hp.
    apply Honly in Hin. subst t0. by rewrite Z.eqb_refl in Hp.
  - exact Hcreate.
  - exists w3. split; [exact Hnext|]. split; [|exact Htrace].
    rewrite Htopics, in_app_iff, Hsame. right. by left.
Qed.

End ThreadLoss.

(** An instance of C7: thread 77 of user 5 has been deleted in the
    workspace. *)
Lemma thread_loss_recovery_witness :
  exists w2,
    _forward_to_group 0 lost_thread (text_message 5 "hello") 77
      (world_of (with_topics empty_store [(5, 77)])
         {[ chat_threadid_key 5 := mkEntry (PInt 77) None ]} 7)
    = (Return None, w2) /\
    topics (db w2) = [] /\
    cache w2 = ∅.
Proof.
  destruct (thread_loss_recovery 0 lost_thread (fun _ => Some 78)
              (fun _ => None) (text_message 5 "hello") 77
              (world_of (with_topics empty_store [(5, 77)])
                 {[ chat_threadid_key 5 := mkEntry (PInt 77) None ]} 7)
              "Bad Request: message thread not found")
    as (reply_id & w2 & Hrun & _).
  - cbn. tauto.
  - reflexivity.
  - reflexivity.
  - exists w2. split; [exact Hrun|].
    vm_compute in Hrun. injection Hrun as <-. split; reflexivity.
Defined.

(** ** Callback dispatch *)

Section Callbacks.

Variable group_id : Z.
Variable collaborator : string -> string -> json -> M unit.
Variable json_loads : string -> option json.

(** What the dispatcher does with input it cannot decode: it logs and
    drops it. *)
Lemma callback_undecodable_dropped (call : callback_query) (w : world) :
  json_loads (data call) = None ->
  exists note,
    handle_callback_query group_id collaborator json_loads call w
    = (Return tt,
       mkWorld (db w) (cache w) (trace w ++ [LogError note])
               (rng w) (rng_pos w) (clock w)).
Proof.
  intros Hnone. unfold handle_callback_query.
  destruct (String.eqb (data call) "null").
  - eexists. reflexivity.
  - munfold. cbn. rewrite Hnone. cbn. eexists. reflexivity.
Qed.

(** C3.  Malformed callback payloads.  A payload that decodes to JSON
    but not to an object with an [action] member is not logged and
    dropped: [handle_callback_query] raises, with the world as it was,
    [KeyError] for an object without [action] and [TypeError] for any
    value that is not an object.  Only [JSONDecodeError] is caught. *)
Theorem callback_without_action_raises (call : callback_query) (w : world)
    (v : json) :
  data call <> "null" ->
  json_loads (data call) = Some v ->
  (forall fields, v = JObj fields -> obj_get "action" fields = None) ->
  exists e,
    handle_callback_query group_id collaborator json_loads call w
    = (Raise e, w) /\
    ((exists fields, v = JObj fields) -> e = KeyError "action") /\
    ((forall fields, v <> JObj fields) -> exists m, e = TypeError m).
Proof.
  intros Hnull Hloads Hno.
  apply String.eqb_neq in Hnull.
  unfold handle_callback_query. rewrite Hnull.
  munfold. cbn. rewrite Hloads. cbn.
  destruct v as [|b|z|f|s|items|fields]; cbn;
    try (eexists; split; [reflexivity|]; split;
         [by intros [? [=]] | intros _; eauto]).
  rewrite (Hno fields eq_refl). cbn.
  eexists. split; [reflexivity|]. split; [done|].
  intros Hne. by destruct (Hne fields).
Qed.

(** C1, as the code has it.  Resolution checks neither that an appeal
    exists nor its status.  For every user id, approval marks the appeal
    row of the user, if there is one and whatever its status, as
    [approved] by the resolver, and in every case deletes the user's
    [blocked_users] and [verification_attempts] rows; rejection marks the
    row, if any, as [rejected] and leaves [blocked_users] and
    [verification_attempts] as they are.  Neither creates an appeal row,
    touches another user or any other table, or replies [Invalid action].
    That reply, with no change to store or cache, is given when the
    payload has no [user_id] member. *)
Theorem resolve_appeal_is_unconditional (call : callback_query) (u : Z)
    (w : world) :
  (exists w2,
     _handle_approve_appeal call u w = (Return tt, w2) /\
     appeal_requests (db w2) !! u
     = decided "approved" call w <$> appeal_requests (db w) !! u /\
     blocked_users (db w2) !! u = None /\
     verification_attempts (db w2) !! u = None /\
     (forall v, v <> u ->
        appeal_requests (db w2) !! v = appeal_requests (db w) !! v /\
        blocked_users (db w2) !! v = blocked_users (db w) !! v /\
        verification_attempts (db w2) !! v
        = verification_attempts (db w) !! v) /\
     topics (db w2) = topics (db w) /\
     messages (db w2) = messages (db w) /\
     verified_users (db w2) = verified_users (db w) /\
     (In (invalid_action_reply group_id) (trace w2) ->
      In (invalid_action_reply group_id) (trace w))) /\
  (exists w3,
     _handle_reject_appeal call u w = (Return tt, w3) /\
     appeal_requests (db w3) !! u
     = decided "rejected" call w <$> appeal_requests (db w) !! u /\
     (forall v, v <> u ->
        appeal_requests (db w3) !! v = appeal_requests (db w) !! v) /\
     blocked_users (db w3) = blocked_users (db w) /\
     verification_attempts (db w3) = verification_attempts (db w) /\
     topics (db w3) = topics (db w) /\
     messages (db w3) = messages (db w) /\
     verified_users (db w3) = verified_users (db w) /\
     (In (invalid_action_reply group_id) (trace w3) ->
      In (invalid_action_reply group_id) (trace w))) /\
  (forall action body,
     action = "approve_appeal" \/ action = "reject_appeal" ->
     json_get body "user_id" = None ->
     _handle_admin_callback group_id collaborator call (JStr action) body w
     = (Return tt,
        mkWorld (db w) (cache w)
          (trace w ++ [DeleteMessage group_id (call_message_id call);
                       invalid_action_reply group_id])
          (rng w) (rng_pos w) (clock w))).
Proof.
  split; [|split].
  - unfold _handle_approve_appeal. munfold. cbn.
    eexists. split; [reflexivity|]. cbn.
    split; [by rewrite lookup_alter_eq|].
    split; [apply lookup_delete_eq|].
    split; [apply lookup_delete_eq|].
    split.
    { intros v Hv.
      by rewrite lookup_alter_ne, !lookup_delete_ne. }
    do 3 (split; [reflexivity|]).
    rewrite !in_app_iff. cbn. unfold invalid_action_reply.
    intros [[[H|[[=]|[]]]|[[=]|[]]]|[[=]|[]]]; exact H.
  - unfold _handle_reject_appeal. munfold. cbn.
    eexists. split; [reflexivity|]. cbn.
    split; [by rewrite lookup_alter_eq|].
    split; [intros v Hv; by rewrite lookup_alter_ne|].
    do 5 (split; [reflexivity|]).
    rewrite !in_app_iff. cbn. unfold invalid_action_reply.
    intros [[[H|[[=]|[]]]|[[=]|[]]]|[[=]|[]]]; exact H.
  - intros action body [-> | ->] Hbody;
      unfold _handle_admin_callback, has_key, invalid_action; cbn;
      rewrite Hbody; munfold; cbn; by rewrite <- app_assoc.
Qed.

End Callbacks.

(** An instance of C3: the payload is the empty object. *)
Lemma callback_without_action_raises_witness :
  handle_callback_query 0 idle_collaborator Decoder.loads
    (mkCall "q1" "{}" (mkUser 1 None (Some "Admin") None) 0 9)
    (world_of empty_store ∅ 7)
  = (Raise (KeyError "action"), world_of empty_store ∅ 7).
Proof.
  destruct (callback_without_action_raises 0 idle_collaborator Decoder.loads
              (mkCall "q1" "{}" (mkUser 1 None (Some "Admin") None) 0 9)
              (world_of empty_store ∅ 7) (JObj []))
    as (e & Hrun & Hkey & _).
  - discriminate.
  - reflexivity.
  - intros fields [= <-]. reflexivity.
  - rewrite Hrun, (Hkey (ex_intro _ [] eq_refl)). reflexivity.
Defined.

(** C1 as stated fails: user 7 is blocked and has never appealed; the
    approval callback is not answered with [Invalid action] and deletes
    the [blocked_users] row. *)
Lemma approve_without_appeal_unblocks :
  appeal_requests (db blocked_without_appeal) !! 7 = None /\
  is_Some (blocked_users (db blocked_without_appeal) !! 7) /\
  exists w2,
    handle_callback_query 0 idle_collaborator Decoder.loads approve_call
      blocked_without_appeal
    = (Return tt, w2) /\
    blocked_users (db w2) !! 7 = None /\
    ~ In (invalid_action_reply 0) (trace w2).
Proof.
  split; [reflexivity|]. split; [by eexists|].
  eexists. split; [vm_compute; reflexivity|].
  split; [reflexivity|].
  cbn. unfold invalid_action_reply.
  intros [[=]|[[=]|[[=]|[[=]|[]]]]].
Qed.

(** An instance of C1: an approval callback without [user_id]. *)
Lemma resolve_appeal_is_unconditional_witness :
  _handle_admin_callback 0 idle_collaborator approve_call
    (JStr "approve_appeal") (JObj [("action", JStr "approve_appeal")])
    blocked_without_appeal
  = (Return tt,
     mkWorld (db blocked_without_appeal) (cache blocked_without_appeal)
       [DeleteMessage 0 9; invalid_action_reply 0] (fun _ => 7) 0 1000).
Proof.
  exact (proj2 (proj2 (resolve_appeal_is_unconditional 0 idle_collaborator
                         approve_call 7 blocked_without_appeal))
           "approve_appeal" (JObj [("action", JStr "approve_appeal")])
           (or_introl eq_refl) eq_refl).
Defined.

(** ** The migration *)

Module MigrationFacts.

Import Migration.

Lemma new_row_assigned (now : Z) (t : table) (values : list (string * sqlval))
    (name : string) (v : sqlval) :
  name ∈ col_name <$> columns t ->
  assigned name values = Some v ->
  new_row now t values !! name = Some v.
Proof.
  intros Hin Hv. unfold new_row.
  generalize (rows t). intros rs. revert Hin.
  induction (columns t) as [|c cols IH]; cbn.
  - by intros ?%elem_of_nil.
  - intros Hin. destruct (decide (col_name c = name)) as [->|Hne].
    + rewrite lookup_insert_eq. by rewrite Hv.
    + rewrite lookup_insert_ne by done. apply IH.
      apply elem_of_cons in Hin as [Heq|Hin]; [by destruct Hne|done].
Qed.

(** With [key] unique, a setting that is present makes the insert a
    conflict, which [OR IGNORE] turns into no change. *)
Lemma insert_present_setting_ignored (now : Z) (d : gmap string table)
    (key value : string) :
  has_setting key d ->
  settings_key_unique d ->
  insert_or_ignore now "settings"
    [("key", SText key); ("value", SText value)] d = inr d.
Proof.
  intros (t & Ht & Hkey & Hvalue & r & Hr & Hrk) Huniq.
  unfold insert_or_ignore. rewrite Ht.
  assert (Hfind :
    List.find (fun kv : string * sqlval =>
                 negb (bool_decide (fst kv ∈ col_name <$> columns t)))
              [("key", SText key); ("value", SText value)] = None).
  { cbn. by rewrite !bool_decide_eq_true_2. }
  rewrite Hfind.
  assert (Hconf : conflicts t
                    (new_row now t [("key", SText key); ("value", SText value)])
                  = true).
  { unfold conflicts. apply existsb_exists.
    apply list_elem_of_fmap in Hkey as (c & Hname & Hc).
    exists c. split; [by apply list_elem_of_In|].
    rewrite (Huniq t c Ht Hc (eq_sym Hname)). cbn.
    rewrite <- Hname.
    rewrite (new_row_assigned now t _ "key" (SText key)).
    - rewrite bool_decide_eq_false_2 by discriminate. cbn.
      apply existsb_exists. exists r. split; [by apply list_elem_of_In|].
      by apply bool_decide_eq_true_2.
    - apply list_elem_of_fmap. exists c. by rewrite Hname.
    - reflexivity. }
  rewrite Hconf, orb_true_r. reflexivity.
Qed.

(** With the columns [key] and [value] declared, the insert of a
    setting raises nothing: it leaves the declaration of [settings] as
    it is, keeps the rows present and appends at most one. *)
Lemma insert_setting_extends (now : Z) (d : gmap string table) (t : table)
    (key value : string) :
  d !! "settings" = Some t ->
  "key" ∈ col_name <$> columns t ->
  "value" ∈ col_name <$> columns t ->
  exists extra,
    insert_or_ignore now "settings"
      [("key", SText key); ("value", SText value)] d
    = inr (<["settings" := mkTable (columns t) (rows t ++ extra)]> d).
Proof.
  intros Ht Hkey Hvalue. unfold insert_or_ignore. rewrite Ht.
  assert (Hfind :
    List.find (fun kv : string * sqlval =>
                 negb (bool_decide (fst kv ∈ col_name <$> columns t)))
              [("key", SText key); ("value", SText value)] = None).
  { cbn. by rewrite !bool_decide_eq_true_2. }
  rewrite Hfind.
  match goal with |- context [if ?c then _ else _] => destruct c end.
  - exists []. rewrite app_nil_r. f_equal.
    rewrite insert_id; [reflexivity|]. rewrite Ht. by destruct t.
  - eexists. reflexivity.
Qed.

(** C9, as the code has it.  On a store that reflects the migration,
    running [upgrade] again changes no table declaration, leaves every
    table other than [settings] as it is, keeps the rows of [settings]
    and logs no error.  If moreover the [settings] table declares [key]
    unique, it changes no row either: it returns the store as it was,
    with the five success lines. *)
Theorem upgrade_again_is_noop (now : Z) (d : gmap string table) :
  migrated d ->
  (columns <$> fst (upgrade now d) = columns <$> d /\
   (forall name, name <> "settings" ->
      fst (upgrade now d) !! name = d !! name) /\
   (forall t, d !! "settings" = Some t ->
      exists extra,
        fst (upgrade now d) !! "settings"
        = Some (mkTable (columns t) (rows t ++ extra))) /\
   errors (snd (upgrade now d)) = []) /\
  (settings_key_unique d ->
   upgrade now d
   = (d, [Info "Created verification_attempts table";
          Info "Created appeal_requests table";
          Info "block_reason column already exists in blocked_users table";
          Info "Added appeal_mode setting";
          Info "Added captcha_image_enabled setting"]) /\
   errors (snd (upgrade now d)) = []).
Proof.
  intros (Hva & Har & Hbr & Hmode & Himage).
  destruct Hva as [tva Hva]. destruct Har as [tar Har].
  split.
  - destruct Hmode as (t & Ht & Hkey & Hvalue & _).
    destruct (insert_setting_extends now d t "appeal_mode" "manual"
                Ht Hkey Hvalue) as (e1 & Hone).
    set (d1 := <["settings" := mkTable (columns t) (rows t ++ e1)]> d)
      in Hone.
    destruct (insert_setting_extends now d1
                (mkTable (columns t) (rows t ++ e1))
                "captcha_image_enabled" "disable"
                (lookup_insert_eq _ _ _) Hkey Hvalue) as (e2 & Htwo).
    cbn [columns rows] in Htwo. unfold d1 in Htwo.
    rewrite insert_insert_eq in Htwo. fold d1 in Hone.
    assert (Hrun : upgrade now d
      = (<["settings" := mkTable (columns t) ((rows t ++ e1) ++ e2)]> d,
         [Info "Created verification_attempts table";
          Info "Created appeal_requests table";
          Info "block_reason column already exists in blocked_users table";
          Info "Added appeal_mode setting";
          Info "Added captcha_image_enabled setting"])).
    { unfold upgrade, attempt, add_block_reason, create_table_if_not_exists.
      cbn [fst snd]. rewrite Hva. cbn [fst snd]. rewrite Har. cbn [fst snd].
      rewrite (bool_decide_eq_true_2 _ Hbr). cbn [negb fst snd].
      rewrite Hone. cbn [fst snd]. unfold d1. rewrite Htwo. reflexivity. }
    rewrite Hrun. cbn [fst snd].
    split.
    { rewrite fmap_insert. cbn [columns]. apply insert_id.
      by rewrite lookup_fmap, Ht. }
    split; [intros name Hname; by rewrite lookup_insert_ne|].
    split; [|reflexivity].
    intros t' Ht'. rewrite Ht in Ht'. injection Ht' as <-.
    exists (e1 ++ e2)%list. by rewrite lookup_insert_eq, app_assoc.
  - intros Huniq.
    assert (Hrun : upgrade now d
      = (d, [Info "Created verification_attempts table";
             Info "Created appeal_requests table";
             Info "block_reason column already exists in blocked_users table";
             Info "Added appeal_mode setting";
             Info "Added captcha_image_enabled setting"])).
    { unfold upgrade, attempt, add_block_reason, create_table_if_not_exists.
      cbn [fst snd]. rewrite Hva. cbn [fst snd]. rewrite Har. cbn [fst snd].
      rewrite (bool_decide_eq_true_2 _ Hbr). cbn [negb fst snd].
      rewrite (insert_present_setting_ignored now d _ _ Hmode Huniq).
      cbn [fst snd].
      rewrite (insert_present_setting_ignored now d _ _ Himage Huniq).
      reflexivity. }
    split; [exact Hrun|]. rewrite Hrun. reflexivity.
Qed.

(** An instance of C9: the store [upgrade] leaves when [settings] is
    keyed by [key]. *)
Lemma upgrade_again_is_noop_witness :
  fst (upgrade 11 (fst (upgrade 10 keyed_store)))
  = fst (upgrade 10 keyed_store).
Proof.
  refine (f_equal fst (proj1 (proj2 (upgrade_again_is_noop 11
                                       (fst (upgrade 10 keyed_store)) _)
                                _))).
  - split; [by eexists|]. split; [by eexists|].
    split; [vm_compute; set_solver|].
    split.
    + eexists. split; [vm_compute; reflexivity|].
      split; [set_solver|]. split; [set_solver|].
      eexists. split; [apply list_elem_of_here|]. vm_compute. reflexivity.
    + eexists. split; [vm_compute; reflexivity|].
      split; [set_solver|]. split; [set_solver|].
      eexists. split; [apply list_elem_of_further, list_elem_of_here|].
      vm_compute. reflexivity.
  - intros t c Ht Hc Hname.
    vm_compute in Ht. injection Ht as <-.
    cbn in Hc.
    apply elem_of_cons in Hc as [->|Hc]; [reflexivity|].
    apply elem_of_cons in Hc as [->|Hc]; [discriminate Hname|].
    by apply elem_of_nil in Hc.
Defined.

(** C9 as stated fails on the store of the repository's migration test,
    whose [settings] table has a row id and no uniqueness on [key]: the
    store reflects the migration after one run, a second run logs no
    error and leaves every table declaration alone, but it appends the
    two default rows again. *)
Lemma upgrade_again_appends_settings :
  migrated (fst (upgrade 10 test_store)) /\
  errors (snd (upgrade 11 (fst (upgrade 10 test_store)))) = [] /\
  columns <$> fst (upgrade 11 (fst (upgrade 10 test_store)))
  = columns <$> fst (upgrade 10 test_store) /\
  fst (upgrade 11 (fst (upgrade 10 test_store)))
  <> fst (upgrade 10 test_store).
Proof.
  split.
  { split; [by eexists|]. split; [by eexists|].
    split; [vm_compute; set_solver|].
    split.
    + eexists. split; [vm_compute; reflexivity|].
      split; [set_solver|]. split; [set_solver|].
      eexists. split; [apply list_elem_of_here|]. vm_compute. reflexivity.
    + eexists. split; [vm_compute; reflexivity|].
      split; [set_solver|]. split; [set_solver|].
      eexists. split; [apply list_elem_of_further, list_elem_of_here|].
      vm_compute. reflexivity. }
  split; [vm_compute; reflexivity|].
  split; [vm_compute; reflexivity|].
  intros E.
  apply (f_equal (fun d : gmap string table =>
                    (fun t => length (rows t)) <$> d !! "settings")) in E.
  vm_compute in E. discriminate E.
Qed.

End MigrationFacts.

(** ** Further properties: the captcha manager *)

(** X1.  Counting failed attempts.  For a user id and a new count that
    SQLite can hold, [record_attempt] returns one more than
    [get_attempt_count] read before it, [get_attempt_count] reads that
    number afterwards, the blocked-by-attempts flag of the user is kept,
    and neither the count of any other user nor any other table
    changes. *)
Theorem record_attempt_counts (u c : Z) (w : world) :
  sqlite_integer u ->
  get_attempt_count u w = (Return c, w) ->
  sqlite_integer (c + 1) ->
  exists w2,
    record_attempt u w = (Return (c + 1), w2) /\
    get_attempt_count u w2 = (Return (c + 1), w2) /\
    fst (is_blocked_by_attempts u w2) = fst (is_blocked_by_attempts u w) /\
    (forall v, v <> u ->
       verification_attempts (db w2) !! v = verification_attempts (db w) !! v) /\
    blocked_users (db w2) = blocked_users (db w) /\
    verified_users (db w2) = verified_users (db w) /\
    appeal_requests (db w2) = appeal_requests (db w) /\
    cache w2 = cache w /\
    trace w2 = trace w.
Proof.
  intros _ Hc _.
  eexists.
  rewrite record_attempt_run, (recorded_count u w _ Hc).
  split; [reflexivity|].
  rewrite get_attempt_count_run. cbn. rewrite lookup_insert_eq.
  rewrite (recorded_count u w _ Hc).
  split; [reflexivity|].
  split.
  { unfold is_blocked_by_attempts, recorded. munfold. cbn.
    rewrite lookup_insert_eq.
    destruct (verification_attempts (db w) !! u); reflexivity. }
  split; [intros v Hv; by rewrite lookup_insert_ne|].
  repeat split.
Qed.

(** An instance of X1: the third failed attempt of user 5. *)
Lemma record_attempt_counts_witness :
  fst (record_attempt 5
         (world_of
            (with_verification_attempts empty_store
               {[ 5 := mkAttempt 2 None false ]}) ∅ 7))
  = Return 3.
Proof.
  destruct (record_attempt_counts 5 2
              (world_of
                 (with_verification_attempts empty_store
                    {[ 5 := mkAttempt 2 None false ]}) ∅ 7))
    as (w2 & Hrun & _);
    [unfold sqlite_integer; lia
    | vm_compute; reflexivity
    | unfold sqlite_integer; lia
    | ].
  by rewrite Hrun.
Defined.

(** X2.  Resetting the attempts.  After [reset_attempts] the count of the
    user reads 0, the blocked-by-attempts flag reads [False], the next
    failed attempt is number 1, and no other user's row changes. *)
Theorem reset_attempts_restarts_count (u : Z) (w : world) :
  exists w1 w2,
    reset_attempts u w = (Return tt, w1) /\
    get_attempt_count u w1 = (Return 0, w1) /\
    is_blocked_by_attempts u w1 = (Return false, w1) /\
    record_attempt u w1 = (Return 1, w2) /\
    (forall v, v <> u ->
       verification_attempts (db w1) !! v = verification_attempts (db w) !! v).
Proof.
  unfold reset_attempts. munfold. cbn.
  eexists _, _. split; [reflexivity|].
  rewrite get_attempt_count_run. cbn. rewrite lookup_delete_eq.
  split; [reflexivity|].
  unfold is_blocked_by_attempts. munfold. cbn. rewrite lookup_delete_eq.
  split; [reflexivity|].
  rewrite record_attempt_run. unfold recorded. cbn. rewrite lookup_delete_eq.
  split; [reflexivity|].
  intros v Hv. by rewrite lookup_delete_ne.
Qed.

(** X3.  Verification round trip.  After [set_user_verified] the user is
    reported verified; after [remove_user_verification] the user is
    reported unverified, and that answer is cached for 1800 seconds.
    Neither changes whether another user is in [verified_users]. *)
Theorem verification_round_trip (u : Z) (w : world) :
  (exists w1,
     set_user_verified u w = (Return tt, w1) /\
     is_user_verified u w1 = (Return (PBool true), w1) /\
     u ∈ verified_users (db w1) /\
     (forall v, v <> u ->
        (v ∈ verified_users (db w1) <-> v ∈ verified_users (db w)))) /\
  (exists w1 w2,
     remove_user_verification u w = (Return tt, w1) /\
     is_user_verified u w1 = (Return (PBool false), w2) /\
     (u ∉ verified_users (db w1)) /\
     cache w2 !! verified_key u = Some (mkEntry (PBool false) (Some 1800)) /\
     db w2 = db w1 /\
     (forall v, v <> u ->
        (v ∈ verified_users (db w1) <-> v ∈ verified_users (db w)))).
Proof.
  split.
  - unfold set_user_verified, is_user_verified. munfold. cbn.
    eexists. split; [reflexivity|]. cbn.
    rewrite lookup_insert_eq. cbn.
    split; [reflexivity|].
    split; [apply elem_of_union_l; by apply elem_of_singleton|].
    intros v Hv. rewrite elem_of_union, elem_of_singleton. tauto.
  - unfold remove_user_verification, is_user_verified. munfold. cbn.
    eexists _, _. split; [reflexivity|]. cbn.
    rewrite lookup_delete_eq. cbn.
    assert (Hnot : u ∉ verified_users (db w) ∖ {[u]}).
    { rewrite elem_of_difference, elem_of_singleton. by intros [_ []]. }
    rewrite (bool_decide_eq_false_2 _ Hnot).
    split; [reflexivity|]. cbn.
    split; [exact Hnot|].
    split; [by rewrite lookup_insert_eq|].
    split; [reflexivity|].
    intros v Hv. rewrite elem_of_difference, elem_of_singleton. tauto.
Qed.

Lemma pretty_N_go_not_capital (x : N) (s s' : string) :
  s <> "N" +:+ s' -> pretty_N_go x s <> "N" +:+ s'.
Proof.
  revert s. induction (N.lt_wf_0 x) as [x _ IH]; intros s Hs.
  assert (x = 0 \/ 0 < x)%N as [->|Hpos] by lia.
  - by rewrite pretty_N_go_0.
  - rewrite pretty_N_go_step by done. apply IH.
    { by apply N.div_lt. }
    unfold pretty_N_char. by repeat case_match.
Qed.

Lemma pretty_not_None (z : Z) : pretty z <> "None".
Proof.
  destruct z as [|p|p]; [discriminate| |discriminate].
  unfold pretty, pretty_Z, pretty, pretty_positive, pretty, pretty_N.
  rewrite decide_False by discriminate.
  apply (pretty_N_go_not_capital (N.pos p) EmptyString "one"). discriminate.
Qed.

(** X4.  A message without text against a math challenge.  When the
    outstanding answer is an integer, a message that carries no text
    (a photo, a sticker) is never a right answer, and [verify_captcha]
    leaves the challenge in place. *)
Theorem textless_message_fails_math_challenge (u z : Z) (w : world) :
  cvalue <$> cache w !! captcha_key u = Some (PInt z) ->
  verify_captcha u None w = (Return false, w).
Proof.
  intros Hcap. unfold verify_captcha. munfold. cbn. rewrite Hcap. cbn.
  assert (E : String.eqb (str_of_text None) (py_str (PInt z)) = false).
  { apply String.eqb_neq. unfold str_of_text, py_str.
    intros E. by apply (pretty_not_None z). }
  by rewrite E.
Qed.

Lemma textless_message_fails_math_challenge_witness :
  verify_captcha 5 None
    (world_of empty_store {[ captcha_key 5 := mkEntry (PInt 16) (Some 300) ]} 7)
  = (Return false,
     world_of empty_store {[ captcha_key 5 := mkEntry (PInt 16) (Some 300) ]} 7).
Proof.
  apply (textless_message_fails_math_challenge 5 16). reflexivity.
Defined.


(** X5.  A wrong answer while the challenge kind is unknown.  Let a
    challenge be outstanding for an unblocked user while the cached
    captcha setting is none of [disable], [math], [button], [image]
    (for instance because it is missing).  A wrong answer below the limit
    is counted, and then [_check_captcha] raises [ValueError] instead of
    returning: no new challenge is issued, the old one stays in the cache
    and nothing is sent to the user. *)
Theorem wrong_answer_with_unknown_kind_raises (group_id : Z) (msg : message)
    (w : world) (ans : pyval) (c : Z) :
  (forall kind, In kind ["disable"; "math"; "button"; "image"] ->
     is_str (cvalue <$> cache w !! "setting_captcha") kind = false) ->
  blocked_users (db w) !! id (from_user msg) = None ->
  cvalue <$> cache w !! captcha_key (id (from_user msg)) = Some ans ->
  str_of_text (text msg) <> py_str ans ->
  get_attempt_count (id (from_user msg)) w = (Return c, w) ->
  c + 1 < 3 ->
  exists w2,
    _check_captcha group_id msg w
    = (Raise (ValueError "Invalid captcha setting"), w2) /\
    get_attempt_count (id (from_user msg)) w2 = (Return (c + 1), w2) /\
    cache w2 = cache w /\
    trace w2 = (trace w ++ [LogInfo "User entered incorrect answer"])%list.
Proof.
  intros Hkind Hnb Hcap Hans Hc Hlt.
  pose proof (recorded_count _ w c Hc) as Hrc.
  assert (Hthree : (3 <=? attempt_count (recorded (id (from_user msg)) w))%Z
                   = false) by (apply Z.leb_gt; lia).
  apply String.eqb_neq in Hans.
  pose proof (Hkind "disable" ltac:(cbn; tauto)) as Hdis.
  pose proof (Hkind "math" ltac:(cbn; tauto)) as Hmath.
  pose proof (Hkind "button" ltac:(cbn; tauto)) as Hbutton.
  pose proof (Hkind "image" ltac:(cbn; tauto)) as Himage.
  unfold _check_captcha, verify_captcha. munfold. cbn.
  rewrite Hdis, Hnb. cbn. rewrite Hcap. cbn. rewrite Hcap. cbn.
  rewrite Hans. cbn. rewrite record_attempt_run. cbn. rewrite Hthree.
  unfold generate_captcha. munfold. cbn.
  destruct (cvalue <$> cache w !! "setting_captcha") as [[b|z|kind]|]; cbn;
    cbn in Hmath, Hbutton, Himage; rewrite ?Hmath, ?Hbutton, ?Himage;
    (eexists; split; [reflexivity|]; cbn;
     rewrite get_attempt_count_run; cbn; rewrite lookup_insert_eq, Hrc;
     repeat split).
Qed.

Lemma wrong_answer_with_unknown_kind_raises_witness :
  fst (_check_captcha 0 (text_message 5 "17")
         (world_of empty_store
            {[ captcha_key 5 := mkEntry (PInt 16) (Some 300) ]} 7))
  = Raise (ValueError "Invalid captcha setting").
Proof.
  destruct (wrong_answer_with_unknown_kind_raises 0 (text_message 5 "17")
              (world_of empty_store
                 {[ captcha_key 5 := mkEntry (PInt 16) (Some 300) ]} 7)
              (PInt 16) 0)
    as (w2 & Hrun & _).
  - intros kind _. reflexivity.
  - reflexivity.
  - reflexivity.
  - intros E. vm_compute in E. discriminate E.
  - reflexivity.
  - lia.
  - by rewrite Hrun.
Defined.

Lemma pretty_digit (d : Z) :
  0 <= d <= 9 ->
  exists c, pretty d = String c EmptyString /\ is_digit c = true.
Proof.
  intros Hd.
  assert (d = 0 \/ d = 1 \/ d = 2 \/ d = 3 \/ d = 4 \/ d = 5 \/ d = 6
          \/ d = 7 \/ d = 8 \/ d = 9) as Hcases by lia.
  repeat (destruct Hcases as [->|Hcases]; [eexists; split; reflexivity|]).
  subst d. eexists. split; reflexivity.
Qed.

(** X6.  The image challenge.  [_generate_image_captcha] returns [None],
    sends one photo to the user and keeps, for 300 seconds, an expected
    answer that consists of exactly four decimal digits; the store is
    unchanged. *)
Theorem image_captcha_is_four_digits (u : Z) (w : world) :
  exists c1 c2 c3 c4 w2,
    _generate_image_captcha u w = (Return None, w2) /\
    cache w2 !! captcha_key u
    = Some (mkEntry
              (PStr (String c1 (String c2 (String c3 (String c4 EmptyString)))))
              (Some 300)) /\
    is_digit c1 = true /\ is_digit c2 = true /\
    is_digit c3 = true /\ is_digit c4 = true /\
    db w2 = db w /\
    trace w2
    = (trace w ++
         [SendPhoto u "Please enter the 4 digits shown in the image:"])%list.
Proof.
  unfold _generate_image_captcha, randint. munfold. cbn.
  destruct (pretty_digit (rng w (rng_pos w) `mod` 10)) as (c1 & E1 & H1).
  { pose proof (Z.mod_pos_bound (rng w (rng_pos w)) 10). lia. }
  destruct (pretty_digit (rng w (S (rng_pos w)) `mod` 10)) as (c2 & E2 & H2).
  { pose proof (Z.mod_pos_bound (rng w (S (rng_pos w))) 10). lia. }
  destruct (pretty_digit (rng w (S (S (rng_pos w))) `mod` 10))
    as (c3 & E3 & H3).
  { pose proof (Z.mod_pos_bound (rng w (S (S (rng_pos w)))) 10). lia. }
  destruct (pretty_digit (rng w (S (S (S (rng_pos w)))) `mod` 10))
    as (c4 & E4 & H4).
  { pose proof (Z.mod_pos_bound (rng w (S (S (S (rng_pos w))))) 10). lia. }
  exists c1, c2, c3, c4. eexists. split; [reflexivity|]. cbn.
  rewrite lookup_insert_eq.
  change (9 - 0 + 1) with 10. rewrite !Z.add_0_l.
  rewrite E1, E2, E3, E4. cbn.
  repeat split; assumption.
Qed.

(** X7.  [block_user_by_attempts].  It always returns [True]; afterwards
    the user has a [blocked_users] row with the given names, reason
    [auto_attempts] and the current time, whatever row the user had
    before (a manual block is overwritten); the user is in neither
    [verified_users] nor the verified cache; and the blocked-by-attempts
    flag reads [True] exactly when the user had an attempts row, whose
    count is kept. *)
Theorem block_user_by_attempts_overwrites (u : Z)
    (name first last : option string) (w : world) :
  exists w2,
    block_user_by_attempts u name first last w = (Return true, w2) /\
    blocked_users (db w2) !! u
    = Some (mkBlocked name first last (Some "auto_attempts") (clock w)) /\
    (u ∉ verified_users (db w2)) /\
    cache w2 !! verified_key u = None /\
    fst (is_blocked_by_attempts u w2)
    = Return (bool_decide (is_Some (verification_attempts (db w) !! u))) /\
    fst (get_attempt_count u w2) = fst (get_attempt_count u w) /\
    (forall v, v <> u ->
       blocked_users (db w2) !! v = blocked_users (db w) !! v /\
       verification_attempts (db w2) !! v = verification_attempts (db w) !! v /\
       (v ∈ verified_users (db w2) <-> v ∈ verified_users (db w))) /\
    appeal_requests (db w2) = appeal_requests (db w) /\
    trace w2 = trace w.
Proof.
  unfold block_user_by_attempts. munfold. cbn.
  eexists. split; [reflexivity|]. cbn.
  split; [by rewrite lookup_insert_eq|].
  split; [rewrite elem_of_difference, elem_of_singleton; by intros [_ []]|].
  split; [apply lookup_delete_eq|].
  split.
  { unfold is_blocked_by_attempts. munfold. cbn. rewrite lookup_alter_eq.
    destruct (verification_attempts (db w) !! u) as [row|]; reflexivity. }
  split.
  { rewrite !get_attempt_count_run. cbn. rewrite lookup_alter_eq.
    destruct (verification_attempts (db w) !! u); reflexivity. }
  split.
  { intros v Hv. rewrite lookup_insert_ne, lookup_alter_ne by done.
    rewrite elem_of_difference, elem_of_singleton. tauto. }
  split; reflexivity.
Qed.


(** ** Further properties: admission *)

Lemma rate_limit_key_ne_verified_key u v : verified_key u <> rate_limit_key v.
Proof. unfold verified_key, rate_limit_key. cbn. discriminate. Qed.

Lemma verified_key_ne_captcha_key u v : verified_key u <> captcha_key v.
Proof. unfold verified_key, captcha_key. cbn. discriminate. Qed.

Lemma rate_limit_key_ne_setting u : rate_limit_key u <> "setting_captcha".
Proof. unfold rate_limit_key. cbn. discriminate. Qed.

(** The decimal string of an integer starts with a digit or a minus
    sign. *)
Lemma pretty_N_go_head (x : N) (s : string) :
  (0 < x)%N ->
  exists c rest, pretty_N_go x s = String c rest /\ is_digit c = true.
Proof.
  revert s. induction (N.lt_wf_0 x) as [x _ IH]; intros s Hpos.
  rewrite pretty_N_go_step by done.
  destruct (N.eq_0_gt_0_cases (x `div` 10)) as [Hz|Hdiv].
  - rewrite Hz, pretty_N_go_0. eexists _, _. split; [reflexivity|].
    unfold pretty_N_char. by repeat case_match.
  - apply IH; [by apply N.div_lt|done].
Qed.

Lemma pretty_head (z : Z) :
  exists c rest,
    pretty z = String c rest /\ (is_digit c = true \/ c = "-"%char).
Proof.
  destruct z as [|p|p].
  - eexists _, _. split; [reflexivity|]. by left.
  - destruct (pretty_N_go_head (N.pos p) EmptyString) as (c & rest & E & Hc);
      [lia|].
    exists c, rest. split; [|by left].
    unfold pretty, pretty_Z, pretty, pretty_positive, pretty, pretty_N.
    by rewrite decide_False by discriminate.
  - eexists _, _. split; [reflexivity|]. by right.
Qed.

Lemma captcha_key_ne_rate_limit_key u v : captcha_key u <> rate_limit_key v.
Proof.
  unfold captcha_key, rate_limit_key. cbn. intros [= E].
  destruct (pretty_head u) as (c & rest & Hu & Hc).
  rewrite Hu in E. injection E as -> _.
  destruct Hc as [Hc|Hc]; discriminate Hc.
Qed.

(** What [is_user_verified] does to the world: at most one cache entry,
    under the verified key of the user. *)
Lemma is_user_verified_run (u : Z) (w : world) :
  exists v,
    (is_user_verified u w = (Return v, w) \/
     is_user_verified u w
     = (Return v,
        mkWorld (db w) (<[verified_key u := mkEntry v (Some 1800)]> (cache w))
                (trace w) (rng w) (rng_pos w) (clock w))).
Proof.
  unfold is_user_verified. munfold. cbn.
  destruct (cvalue <$> cache w !! verified_key u); cbn; eauto.
Qed.

Section Admission.

Variable group_id : Z.

(** X8.  The rate limit.  An unblocked user without an outstanding
    challenge who is not verified and whose rate-limit flag is set is
    turned down in silence: [_check_captcha] returns [False], writes two
    log lines, sends nothing, issues no challenge and leaves the store
    unchanged. *)
Theorem rate_limited_sender_is_silenced (msg : message) (w : world)
    (v : pyval) :
  is_str (cvalue <$> cache w !! "setting_captcha") "disable" = false ->
  blocked_users (db w) !! id (from_user msg) = None ->
  cache w !! captcha_key (id (from_user msg)) = None ->
  fst (is_user_verified (id (from_user msg)) w) = Return v ->
  truthy v = false ->
  opt_truthy (cvalue <$> cache w !! rate_limit_key (id (from_user msg)))
  = true ->
  exists w2,
    _check_captcha group_id msg w = (Return false, w2) /\
    db w2 = db w /\
    cache w2 !! captcha_key (id (from_user msg)) = None /\
    trace w2
    = (trace w ++ [LogInfo "User is not verified";
                   LogInfo "User rate limited for captcha requests"])%list.
Proof.
  intros Hset Hnb Hcap Hv Hfalse Hrate.
  unfold _check_captcha. munfold. cbn.
  rewrite Hset, Hnb. cbn. rewrite Hcap. cbn.
  destruct (is_user_verified_run (id (from_user msg)) w) as (v' & [Hrun|Hrun]);
    rewrite Hrun in Hv |- *; injection Hv as ->; cbn; rewrite Hfalse; cbn.
  - rewrite Hrate. cbn. eexists. split; [reflexivity|]. cbn.
    split; [reflexivity|]. split; [exact Hcap|]. by rewrite <- app_assoc.
  - rewrite lookup_insert_ne by apply rate_limit_key_ne_verified_key.
    rewrite Hrate. cbn. eexists. split; [reflexivity|]. cbn.
    split; [reflexivity|].
    split; [by rewrite lookup_insert_ne by apply verified_key_ne_captcha_key|].
    by rewrite <- app_assoc.
Qed.

(** X9.  A verified sender.  An unblocked user without an outstanding
    challenge whom [is_user_verified] reports verified is admitted:
    [_check_captcha] returns [True], and it changes nothing beyond what
    [is_user_verified] itself caches. *)
Theorem verified_sender_is_admitted (msg : message) (w w1 : world)
    (v : pyval) :
  is_str (cvalue <$> cache w !! "setting_captcha") "disable" = false ->
  blocked_users (db w) !! id (from_user msg) = None ->
  cache w !! captcha_key (id (from_user msg)) = None ->
  is_user_verified (id (from_user msg)) w = (Return v, w1) ->
  truthy v = true ->
  _check_captcha group_id msg w = (Return true, w1) /\
  db w1 = db w /\ trace w1 = trace w.
Proof.
  intros Hset Hnb Hcap Hv Htrue.
  unfold _check_captcha. munfold. cbn.
  rewrite Hset, Hnb. cbn. rewrite Hcap. cbn. rewrite Hv. cbn.
  rewrite Htrue. cbn. split; [reflexivity|].
  destruct (is_user_verified_run (id (from_user msg)) w) as (v' & [Hrun|Hrun]);
    rewrite Hrun in Hv; injection Hv as _ <-; split; reflexivity.
Qed.

(** X10.  First contact under the math kind.  For an unblocked,
    unverified user without an outstanding challenge and without a
    rate-limit flag, [_check_captcha] returns [False], sets the rate-limit
    flag for 10 seconds, stores the sum of two operands from 1..50 as the
    expected answer for 300 seconds, tells the user that the message was
    not sent and sends the question; the store is unchanged. *)
Theorem first_contact_issues_math_challenge (msg : message) (w : world)
    (v : pyval) :
  cvalue <$> cache w !! "setting_captcha" = Some (PStr "math") ->
  blocked_users (db w) !! id (from_user msg) = None ->
  cache w !! captcha_key (id (from_user msg)) = None ->
  fst (is_user_verified (id (from_user msg)) w) = Return v ->
  truthy v = false ->
  opt_truthy (cvalue <$> cache w !! rate_limit_key (id (from_user msg)))
  = false ->
  exists a b w2,
    _check_captcha group_id msg w = (Return false, w2) /\
    1 <= a <= 50 /\ 1 <= b <= 50 /\
    cache w2 !! captcha_key (id (from_user msg))
    = Some (mkEntry (PInt (a + b)) (Some 300)) /\
    cache w2 !! rate_limit_key (id (from_user msg))
    = Some (mkEntry (PBool true) (Some 10)) /\
    db w2 = db w /\
    trace w2
    = (trace w ++
         [LogInfo "User is not verified";
          SendMessage (chat_id msg)
            "Your message was not sent. Please complete verification first."
            None (Some (message_id msg)) None;
          SendMessage (chat_id msg)
            ("Please solve the following math problem and send the answer: "
               +:+ pretty a +:+ " + " +:+ pretty b +:+ " = ?")
            None None None])%list.
Proof.
  intros Hset Hnb Hcap Hv Hfalse Hrate.
  assert (Hdis : is_str (cvalue <$> cache w !! "setting_captcha") "disable"
                 = false) by (by rewrite Hset).
  exists (1 + rng w (rng_pos w) `mod` 50),
         (1 + rng w (S (rng_pos w)) `mod` 50).
  pose proof (Z.mod_pos_bound (rng w (rng_pos w)) 50 eq_refl).
  pose proof (Z.mod_pos_bound (rng w (S (rng_pos w))) 50 eq_refl).
  unfold _check_captcha. munfold. cbn.
  rewrite Hdis, Hnb. cbn. rewrite Hcap. cbn.
  destruct (is_user_verified_run (id (from_user msg)) w) as (v' & [Hrun|Hrun]);
    rewrite Hrun in Hv |- *; injection Hv as ->; cbn; rewrite Hfalse; cbn;
    rewrite ?(lookup_insert_ne _ (verified_key _) (rate_limit_key _))
      by apply rate_limit_key_ne_verified_key;
    rewrite Hrate; cbn;
    rewrite ?(lookup_insert_ne _ (rate_limit_key _) "setting_captcha")
      by apply rate_limit_key_ne_setting;
    rewrite ?(lookup_insert_ne _ (verified_key _) "setting_captcha")
      by apply verified_key_ne_setting;
    rewrite Hset; cbn; unfold randint; munfold; cbn;
    (eexists; split; [reflexivity|]; cbn;
     split; [lia|]; split; [lia|];
     split; [by rewrite lookup_insert_eq|];
     split;
     [rewrite lookup_insert_ne by apply captcha_key_ne_rate_limit_key;
      by rewrite lookup_insert_eq|];
     split; [reflexivity|];
     by rewrite <- !app_assoc).
Qed.

End Admission.


(** ** Further properties: the appeal sub-flow *)

Lemma captcha_key_ne_appeal_mode u : captcha_key u <> "setting_appeal_mode".
Proof. unfold captcha_key. cbn. discriminate. Qed.

Lemma appeal_key_ne_appeal_mode u :
  appeal_verification_key u <> "setting_appeal_mode".
Proof. unfold appeal_verification_key. cbn. discriminate. Qed.

Lemma appeal_key_ne_setting u :
  appeal_verification_key u <> "setting_captcha".
Proof. unfold appeal_verification_key. cbn. discriminate. Qed.

Lemma captcha_key_ne_appeal_key u v :
  captcha_key u <> appeal_verification_key v.
Proof. unfold captcha_key, appeal_verification_key. cbn. discriminate. Qed.

Section AppealVerification.

Variable group_id : Z.

(** X11.  A failed appeal verification.  When a blocked user in appeal
    verification sends anything [verify_captcha] does not accept (a wrong
    answer, or any answer after the challenge has lapsed),
    [_check_captcha] returns [False], removes the appeal flag and the
    challenge from the cache and tells the user; the store is unchanged:
    no attempt is counted and no appeal is recorded. *)
Theorem failed_appeal_verification_clears_flag (msg : message) (w : world)
    (row : blocked_row) :
  is_str (cvalue <$> cache w !! "setting_captcha") "disable" = false ->
  blocked_users (db w) !! id (from_user msg) = Some row ->
  opt_truthy (cvalue <$>
                cache w !! appeal_verification_key (id (from_user msg)))
  = true ->
  verify_captcha (id (from_user msg)) (text msg) w = (Return false, w) ->
  _check_captcha group_id msg w
  = (Return false,
     mkWorld (db w)
       (delete (captcha_key (id (from_user msg)))
          (delete (appeal_verification_key (id (from_user msg))) (cache w)))
       (trace w ++
          [SendMessage (chat_id msg)
             "Incorrect answer. Appeal verification failed."
             None (Some (message_id msg)) None])
       (rng w) (rng_pos w) (clock w)).
Proof.
  intros Hset Hrow Hflag Hverify.
  unfold _check_captcha. munfold. cbn.
  rewrite Hset. cbn. rewrite Hrow. cbn. rewrite Hflag. cbn.
  rewrite Hverify. reflexivity.
Qed.

(** X12.  A passed appeal verification under manual review.  When a
    blocked user without an appeal, in appeal verification, sends the
    expected answer and the appeal mode is not [auto], [_check_captcha]
    returns [False] and records an appeal with status [pending], the
    current time and no resolver; the block, the attempts and the
    verified users are untouched, the appeal flag and the challenge
    leave the cache, and the group receives the request with the
    approve and reject buttons. *)
Theorem passed_appeal_verification_files_appeal (msg : message) (w : world)
    (row : blocked_row) (ans : pyval) :
  is_str (cvalue <$> cache w !! "setting_captcha") "disable" = false ->
  blocked_users (db w) !! id (from_user msg) = Some row ->
  opt_truthy (cvalue <$>
                cache w !! appeal_verification_key (id (from_user msg)))
  = true ->
  cvalue <$> cache w !! captcha_key (id (from_user msg)) = Some ans ->
  str_of_text (text msg) = py_str ans ->
  appeal_requests (db w) !! id (from_user msg) = None ->
  is_str (cvalue <$> cache w !! "setting_appeal_mode") "auto" = false ->
  exists w2,
    _check_captcha group_id msg w = (Return false, w2) /\
    appeal_requests (db w2)
    = <[id (from_user msg) := mkAppeal (clock w) "pending" None None]>
        (appeal_requests (db w)) /\
    blocked_users (db w2) = blocked_users (db w) /\
    verification_attempts (db w2) = verification_attempts (db w) /\
    verified_users (db w2) = verified_users (db w) /\
    cache w2 !! appeal_verification_key (id (from_user msg)) = None /\
    cache w2 !! captcha_key (id (from_user msg)) = None /\
    In (SendMessage group_id "New Appeal Request" None None
          (Some (ApproveRejectButtons (id (from_user msg)))))
       (trace w2).
Proof.
  intros Hset Hrow Hflag Hcap Htxt Hnone Hmode.
  unfold _check_captcha, verify_captcha, _submit_appeal. munfold. cbn.
  rewrite Hset. cbn. rewrite Hrow. cbn. rewrite Hflag. cbn.
  rewrite Hcap. cbn. rewrite Htxt, String.eqb_refl. cbn.
  rewrite Hnone. cbn.
  rewrite lookup_delete_ne by apply captcha_key_ne_appeal_mode.
  rewrite lookup_delete_ne by apply appeal_key_ne_appeal_mode.
  rewrite Hmode. cbn.
  eexists. split; [reflexivity|]. cbn.
  do 4 (split; [reflexivity|]).
  split.
  { rewrite lookup_delete_ne by apply captcha_key_ne_appeal_key.
    apply lookup_delete_eq. }
  split; [apply lookup_delete_eq|].
  rewrite !in_app_iff. cbn. tauto.
Qed.

End AppealVerification.

Section AppealFlow.

Variable group_id : Z.
Variable transport_send : message -> Z -> option Z -> Z + string.
Variable create_forum_topic : string -> option Z.
Variable transport_pin : Z -> option (Z * bool).
Variable match_auto_response : option string -> option (string * string).
Variable spam_detector_manager : option (message -> bool).
Variable bot_instance : option (M unit).

Local Abbreviation handle :=
  (_handle_user_message group_id transport_send create_forum_topic
     transport_pin match_auto_response spam_detector_manager bot_instance).

(** X13.  Appeals while the captcha is disabled.  Let the captcha
    setting be [disable] and let a blocked user without an appeal press
    the appeal button.  The button still sets the appeal flag and issues
    a math challenge.  But whatever the user then sends, the right answer
    included, [_handle_user_message] never looks at it: no appeal is
    recorded, the user stays blocked, and flag and challenge stay in the
    cache. *)
Theorem appeal_unreachable_while_captcha_disabled (call : callback_query)
    (body : json) (u : Z) (w : world) (row : blocked_row) :
  cvalue <$> cache w !! "setting_captcha" = Some (PStr "disable") ->
  blocked_users (db w) !! u = Some row ->
  appeal_requests (db w) !! u = None ->
  json_get body "user_id" = Some (JInt u) ->
  u <> 0 ->
  exists a b w1,
    _handle_appeal_request call body w = (Return tt, w1) /\
    cvalue <$> cache w1 !! captcha_key u = Some (PInt (a + b)) /\
    opt_truthy (cvalue <$> cache w1 !! appeal_verification_key u) = true /\
    forall msg, id (from_user msg) = u ->
      exists w2,
        handle msg w1 = (Return tt, w2) /\
        appeal_requests (db w2) = appeal_requests (db w) /\
        is_Some (blocked_users (db w2) !! u) /\
        cache w2 = cache w1 /\
        forwards (trace w2) = forwards (trace w1).
Proof.
  intros Hset Hrow Hnone Hbody Hu.
  exists (1 + rng w (rng_pos w) `mod` 50),
         (1 + rng w (S (rng_pos w)) `mod` 50).
  unfold _handle_appeal_request. rewrite Hbody.
  unfold json_truthy. apply Z.eqb_neq in Hu. rewrite Hu.
  munfold. cbn. rewrite Hnone. cbn. rewrite Hrow. cbn.
  rewrite lookup_insert_ne by apply appeal_key_ne_setting.
  rewrite Hset. cbn. unfold randint. munfold. cbn.
  eexists. split; [reflexivity|]. cbn.
  split; [by rewrite lookup_insert_eq|].
  split.
  { rewrite lookup_insert_ne by apply captcha_key_ne_appeal_key.
    by rewrite lookup_insert_eq. }
  intros msg Hmsg.
  set (w1 := mkWorld _ _ _ _ _ _).
  assert (Hdis : is_str (cvalue <$> cache w1 !! "setting_captcha") "disable"
                 = true).
  { cbn. rewrite lookup_insert_ne by apply captcha_key_ne_setting.
    rewrite lookup_insert_ne by apply appeal_key_ne_setting.
    by rewrite Hset. }
  assert (Hcheck : _check_captcha group_id msg (received w1)
                   = (Return true, received w1)).
  { unfold _check_captcha, received. munfold. cbn. cbn in Hdis.
    by rewrite Hdis. }
  unfold _handle_user_message.
  unfold mbind at 1. unfold M_bind at 1.
  change (emit (LogInfo "Received message from user") w1)
    with (Return tt, received w1).
  cbv iota beta. unfold mbind at 1. unfold M_bind at 1.
  rewrite Hcheck. munfold. cbn. rewrite Hmsg, Hrow. cbn.
  assert (Hfinish : forall t,
    forwards t = forwards (trace w) ->
    exists w2,
      (Return tt,
       mkWorld (with_blocked_users (db w)
                  (alter (rename_blocked (from_user msg)) u
                         (blocked_users (db w))))
               (cache w1) t (rng w) (S (S (rng_pos w))) (clock w))
      = (Return tt, w2) /\
      appeal_requests (db w2) = appeal_requests (db w) /\
      is_Some (blocked_users (db w2) !! u) /\
      cache w2 = cache w1 /\
      forwards (trace w2) = forwards (trace w1)).
  { intros t Ht. eexists. split; [reflexivity|]. cbn.
    split; [reflexivity|].
    split; [rewrite lookup_alter_eq, Hrow; by eexists|].
    split; [reflexivity|].
    unfold forwards in *. cbn. rewrite Ht, !List.filter_app. cbn.
    by rewrite ?app_nil_r. }
  match goal with
  | |- context [is_str ?o "enable"] => destruct (is_str o "enable")
  end; cbn.
  - match goal with
    | |- context [match ?o with Some _ => _ | None => _ end] =>
        destruct o as [v|]
    end; cbn.
    + destruct (truthy v); cbn; apply Hfinish;
        unfold forwards; rewrite !List.filter_app; cbn;
        by rewrite ?app_nil_r.
    + apply Hfinish. unfold forwards. rewrite !List.filter_app. cbn.
      by rewrite ?app_nil_r.
  - apply Hfinish. unfold forwards. rewrite !List.filter_app. cbn.
    by rewrite ?app_nil_r.
Qed.

End AppealFlow.


(** ** Further properties: the relay *)

Lemma get_reply_id_pure (msg : message) (t : Z) (dir : bool) (w : world) :
  exists r, _get_reply_id msg t dir w = (Return r, w).
Proof.
  unfold _get_reply_id. munfold.
  destruct (reply_to_message msg); cbn; [destruct (_ =? _)%Z|]; eauto.
Qed.

Lemma find_last {A} (p : A -> bool) (l : list A) (x : A) :
  (forall y, In y l -> p y = false) -> p x = true ->
  List.find p (l ++ [x]) = Some x.
Proof.
  intros Hl Hx. induction l as [|y l IH]; cbn.
  - by rewrite Hx.
  - rewrite (Hl y) by (by left). apply IH. intros z Hz. apply Hl. by right.
Qed.

Lemma NoDup_fst_filter {A B} (p : A * B -> bool) (l : list (A * B)) :
  NoDup (fst <$> l) -> NoDup (fst <$> List.filter p l).
Proof.
  induction l as [|x l IH]; cbn; [done|].
  intros [Hx Hl]%NoDup_cons. destruct (p x); cbn; [|by apply IH].
  apply NoDup_cons. split; [|by apply IH].
  intros Hin. apply Hx.
  apply list_elem_of_fmap in Hin as (y & Hy & Hin).
  apply list_elem_of_fmap. exists y. split; [done|].
  apply list_elem_of_In. apply list_elem_of_In in Hin.
  by apply List.filter_In in Hin as [Hin _].
Qed.

Section Relaying.

Variable group_id : Z.
Variable transport_send : message -> Z -> option Z -> Z + string.
Variable create_forum_topic : string -> option Z.
Variable transport_pin : Z -> option (Z * bool).
Variable match_auto_response : option string -> option (string * string).
Variable spam_detector_manager : option (message -> bool).
Variable bot_instance : option (M unit).

Local Abbreviation handle :=
  (_handle_user_message group_id transport_send create_forum_topic
     transport_pin match_auto_response spam_detector_manager bot_instance).

Local Abbreviation thread_of :=
  (_get_or_create_thread group_id create_forum_topic transport_pin).

(** X14.  A content type without a case.  For a message whose content
    type [_send_message_by_type] has no case for, [_forward_to_group]
    logs the type and raises [ValueError]; its [except] clause does not
    catch it.  The transport is not called, and store and cache are as
    before. *)
Theorem unsupported_content_type_raises (msg : message) (t : Z) (w : world) :
  ~ In (content_type msg) supported_content_types ->
  _forward_to_group group_id transport_send msg t w
  = (Raise (ValueError ("Unsupported message type" +:+ content_type msg)),
     mkWorld (db w) (cache w)
       (trace w ++
          [LogError ("Unsupported message type" +:+ content_type msg)])
       (rng w) (rng_pos w) (clock w)).
Proof.
  intros Htype.
  unfold _forward_to_group, _send_message_by_type.
  unfold try_except, mbind at 1, M_bind at 1.
  destruct (get_reply_id_pure msg t false w) as (r & ->).
  rewrite bool_decide_eq_false_2
    by (intros Hin; by apply Htype, list_elem_of_In).
  munfold. cbn. reflexivity.
Qed.

(** X15.  Inbound round trip.  When the transport accepts the forward of
    a user's message to thread [t] and answers with the id [f], the
    correlation ([message_id], [f], [t], user side) is appended to
    [messages] and [Some f] is returned.  If [f] was not already on
    record in that thread, a later reply in the thread to message [f] by
    somebody other than its author resolves to the user's original
    message. *)
Theorem forward_then_staff_reply_resolves (msg reply : message) (t f : Z)
    (w : world) (ref : reply_ref) :
  In (content_type msg) supported_content_types ->
  transport_send msg group_id (Some t) = inl f ->
  (forall row, In row (messages (db w)) ->
     ~ (forwarded_id row = f /\ topic_id row = t /\ in_group row = false)) ->
  reply_to_message reply = Some ref ->
  reply_message_id ref = f ->
  reply_from_id ref <> id (from_user reply) ->
  exists w2,
    _forward_to_group group_id transport_send msg t w = (Return (Some f), w2) /\
    messages (db w2)
    = (messages (db w) ++ [mkMessageRow (message_id msg) f t false])%list /\
    topics (db w2) = topics (db w) /\
    cache w2 = cache w /\
    _get_reply_id reply t true w2 = (Return (Some (message_id msg)), w2).
Proof.
  intros Htype Hsend Hfresh Href Hf Hauthor.
  unfold _forward_to_group, _send_message_by_type.
  unfold try_except, mbind at 1, M_bind at 1.
  destruct (get_reply_id_pure msg t false w) as (r & ->).
  rewrite bool_decide_eq_true_2 by (by apply list_elem_of_In).
  munfold. cbn. rewrite Hsend. cbn.
  eexists. split; [reflexivity|]. cbn.
  do 3 (split; [reflexivity|]).
  unfold _get_reply_id. rewrite Href. munfold. cbn.
  apply Z.eqb_neq in Hauthor. rewrite Hauthor, Hf.
  erewrite find_last; [reflexivity| |].
  - intros row Hin. cbn.
    destruct (Z.eqb_spec (forwarded_id row) f) as [E1|]; [|done].
    destruct (Z.eqb_spec (topic_id row) t) as [E2|]; [|done].
    destruct (in_group row) eqn:E3; [done|].
    by destruct (Hfresh row Hin).
  - cbn. by rewrite !Z.eqb_refl.
Qed.

(** X16.  Outbound round trip.  When a staff message in thread [t],
    whose owner the store knows, is accepted by the transport with the
    id [f], [_handle_group_message] caches the owner, appends the
    correlation ([message_id], [f], [t], group side), and, if [f] was
    not already on record for that thread, a later reply of the user to
    message [f] resolves to the staff message. *)
Theorem staff_message_then_user_reply_resolves (staff reply : message)
    (t u f : Z) (w : world) (ref : reply_ref) :
  message_thread_id staff = Some t ->
  cache w !! threadid_userid_key t = None ->
  user_of_topic t (topics (db w)) = Some u ->
  In (content_type staff) supported_content_types ->
  transport_send staff u None = inl f ->
  (forall row, In row (messages (db w)) ->
     ~ (forwarded_id row = f /\ topic_id row = t /\ in_group row = true)) ->
  reply_to_message reply = Some ref ->
  reply_message_id ref = f ->
  reply_from_id ref <> id (from_user reply) ->
  exists w2,
    _handle_group_message group_id transport_send staff w = (Return tt, w2) /\
    messages (db w2)
    = (messages (db w) ++ [mkMessageRow (message_id staff) f t true])%list /\
    cache w2 !! threadid_userid_key t = Some (mkEntry (PInt u) None) /\
    _get_reply_id reply t false w2 = (Return (Some (message_id staff)), w2).
Proof.
  intros Hthread Hcache Htopic Htype Hsend Hfresh Href Hf Hauthor.
  unfold _handle_group_message. rewrite Hthread.
  unfold mbind at 1, M_bind at 1. unfold cache_get at 1. rewrite Hcache.
  munfold. cbn. rewrite Htopic. cbn.
  match goal with
  | |- context [_get_reply_id staff t true ?w1] =>
      destruct (get_reply_id_pure staff t true w1) as (r & ->)
  end.
  unfold _send_message_by_type.
  rewrite bool_decide_eq_true_2 by (by apply list_elem_of_In).
  munfold. cbn. rewrite Hsend. cbn.
  eexists. split; [reflexivity|]. cbn.
  split; [reflexivity|].
  split; [by rewrite lookup_insert_eq|].
  unfold _get_reply_id. rewrite Href. munfold. cbn.
  apply Z.eqb_neq in Hauthor. rewrite Hauthor, Hf.
  erewrite find_last; [reflexivity| |].
  - intros row Hin. cbn.
    destruct (Z.eqb_spec (forwarded_id row) f) as [E1|]; [|done].
    destruct (Z.eqb_spec (topic_id row) t) as [E2|]; [|done].
    destruct (in_group row) eqn:E3; [|done].
    by destruct (Hfresh row Hin).
  - cbn. by rewrite !Z.eqb_refl.
Qed.

(** X17.  One thread per user.  If no user has two [topics] rows, then no
    user has two rows after [_get_or_create_thread] and none after
    [_forward_to_group], whatever they return or raise. *)
Theorem topics_stay_unique (msg : message) (t : Z) (w : world) :
  NoDup (fst <$> topics (db w)) ->
  NoDup (fst <$> topics (db (snd (thread_of msg w)))) /\
  NoDup (fst <$> topics
           (db (snd (_forward_to_group group_id transport_send msg t w)))).
Proof.
  intros Hnodup. split.
  - unfold _get_or_create_thread. munfold. cbn.
    destruct (cvalue <$> cache w !! chat_threadid_key (id (from_user msg)))
      as [[b|z|s]|]; cbn; try exact Hnodup.
    unfold topic_of_user.
    match goal with
    | |- context [List.find ?p ?l] =>
        pose proof (find_characterised p l) as Hfind;
        destruct (List.find p l) as [[v t0]|]
    end; cbn; [exact Hnodup|].
    destruct (create_forum_topic _) as [t'|]; cbn; [|exact Hnodup].
    assert (Hnew : NoDup (fst <$> (topics (db w)
                                     ++ [(id (from_user msg), t')]))%list).
    { rewrite fmap_app. apply NoDup_app. split; [exact Hnodup|].
      split; [|apply NoDup_singleton].
      intros x Hx ->%list_elem_of_singleton.
      apply list_elem_of_fmap in Hx as ([v t0] & Hv & Hin). cbn in Hv.
      apply list_elem_of_In in Hin. specialize (Hfind _ Hin). cbn in Hfind.
      subst v. by rewrite Z.eqb_refl in Hfind. }
    destruct (transport_pin t') as [[pin_message [|]]|]; cbn; exact Hnew.
  - unfold _forward_to_group, _send_message_by_type.
    unfold try_except, mbind at 1, M_bind at 1.
    destruct (get_reply_id_pure msg t false w) as (r & ->).
    destruct (bool_decide (content_type msg ∈ supported_content_types));
      munfold; cbn; [|exact Hnodup].
    destruct (transport_send msg group_id (Some t)) as [f|description]; cbn;
      [exact Hnodup|].
    destruct (contains "message thread not found" description); cbn;
      [by apply NoDup_fst_filter|exact Hnodup].
Qed.

(** X18.  Thread lookup is cached.  When the cache has no thread for the
    user and the store has one, [_get_or_create_thread] returns it
    without calling the transport, leaves the store alone and caches it;
    the next lookup returns the same thread from the cache and changes
    nothing at all. *)
Theorem thread_lookup_is_cached (msg : message) (t : Z) (w : world) :
  cache w !! chat_threadid_key (id (from_user msg)) = None ->
  topic_of_user (id (from_user msg)) (topics (db w)) = Some t ->
  exists w2,
    thread_of msg w = (Return (Some t), w2) /\
    db w2 = db w /\ trace w2 = trace w /\
    cache w2
    = <[chat_threadid_key (id (from_user msg)) := mkEntry (PInt t) None]>
        (cache w) /\
    thread_of msg w2 = (Return (Some t), w2).
Proof.
  intros Hcache Htopic.
  unfold _get_or_create_thread. munfold. cbn.
  rewrite Hcache. cbn. rewrite Htopic. cbn.
  eexists. split; [reflexivity|]. cbn.
  do 3 (split; [reflexivity|]).
  by rewrite lookup_insert_eq.
Qed.

(** X19.  A failed thread creation.  When neither cache nor store has a
    thread for the user and [create_forum_topic] fails,
    [_get_or_create_thread] returns [None]; no [topics] row and no cache
    entry is written. *)
Theorem failed_thread_creation_leaves_no_trace (msg : message) (w : world) :
  cache w !! chat_threadid_key (id (from_user msg)) = None ->
  topic_of_user (id (from_user msg)) (topics (db w)) = None ->
  create_forum_topic (default "None" (first_name (from_user msg))
                        +:+ " | " +:+ pretty (id (from_user msg))) = None ->
  exists w2,
    thread_of msg w = (Return None, w2) /\
    db w2 = db w /\ cache w2 = cache w /\
    forwards (trace w2) = forwards (trace w).
Proof.
  intros Hcache Htopic Hcreate.
  unfold _get_or_create_thread. munfold. cbn.
  rewrite Hcache. cbn. rewrite Htopic, Hcreate. cbn.
  eexists. split; [reflexivity|]. cbn.
  do 2 (split; [reflexivity|]).
  unfold forwards. rewrite !List.filter_app. cbn. by rewrite ?app_nil_r.
Qed.

(** X20.  An orphaned thread.  For a staff message in a thread whose
    owner neither cache nor store knows, [_handle_group_message] reports
    [Chat not found] in that thread and closes the topic; nothing is
    forwarded, and store and cache are unchanged. *)
Theorem orphaned_thread_is_closed (staff : message) (t : Z) (w : world) :
  message_thread_id staff = Some t ->
  cache w !! threadid_userid_key t = None ->
  user_of_topic t (topics (db w)) = None ->
  _handle_group_message group_id transport_send staff w
  = (Return tt,
     mkWorld (db w) (cache w)
       (trace w ++
          [SendMessage group_id
             "Chat not found, please remove this topic manually"
             (Some t) None None;
           CloseForumTopic (Some t)])
       (rng w) (rng_pos w) (clock w)).
Proof.
  intros Hthread Hcache Htopic.
  unfold _handle_group_message. rewrite Hthread.
  munfold. cbn. rewrite Hcache. cbn. rewrite Htopic. cbn.
  by rewrite <- app_assoc.
Qed.

(** X21.  Another transport error.  When the forward to thread [t] fails
    with an API error that does not say [message thread not found],
    [_forward_to_group] returns [None] after one attempt, keeps the
    thread ([topics] and cache are unchanged), records no correlation,
    reports the failure in the group and falls back to a raw
    [forward_message]. *)
Theorem other_transport_error_keeps_thread (msg : message) (t : Z)
    (w : world) (description : string) :
  In (content_type msg) supported_content_types ->
  transport_send msg group_id (Some t) = inr description ->
  contains "message thread not found" description = false ->
  exists reply_id w2,
    _forward_to_group group_id transport_send msg t w = (Return None, w2) /\
    db w2 = db w /\ cache w2 = cache w /\
    trace w2
    = (trace w ++
         [SendByType msg group_id (Some t) reply_id false;
          LogError "Failed to forward message from user";
          LogError description;
          SendMessage group_id "Failed to forward message from user"
            None None None;
          ForwardMessage group_id (chat_id msg) (message_id msg)])%list.
Proof.
  intros Htype Hsend Hother.
  unfold _forward_to_group, _send_message_by_type.
  unfold try_except, mbind at 1, M_bind at 1.
  destruct (get_reply_id_pure msg t false w) as (r & ->).
  rewrite bool_decide_eq_true_2 by (by apply list_elem_of_In).
  munfold. cbn. rewrite Hsend. cbn. rewrite Hother. cbn.
  eexists r, _. split; [reflexivity|]. cbn.
  do 2 (split; [reflexivity|]).
  by rewrite <- !app_assoc.
Qed.

End Relaying.


Section RelayingEndToEnd.

Variable group_id : Z.
Variable transport_send : message -> Z -> option Z -> Z + string.
Variable create_forum_topic : string -> option Z.
Variable transport_pin : Z -> option (Z * bool).
Variable match_auto_response : option string -> option (string * string).
Variable spam_detector_manager : option (message -> bool).
Variable bot_instance : option (M unit).

Local Abbreviation handle :=
  (_handle_user_message group_id transport_send create_forum_topic
     transport_pin match_auto_response spam_detector_manager bot_instance).

(** X22.  An admitted message.  Let the captcha check admit [msg], its
    sender be unblocked, the spam detector pass it, no automatic
    response match, the store (not yet the cache) name thread [t] for
    the sender, and the transport accept the forward with id [f].  Then
    [_handle_user_message] makes exactly one forward, to thread [t] of
    the group, appends the correlation ([message_id], [f], [t], user
    side), caches the thread, creates no thread and leaves [topics]
    alone. *)
Theorem admitted_message_is_relayed (msg : message) (t f : Z)
    (w w1 : world) :
  _check_captcha group_id msg (received w) = (Return true, w1) ->
  blocked_users (db w1) !! id (from_user msg) = None ->
  spam_verdict spam_detector_manager msg = false ->
  match_auto_response (text msg) = None ->
  cache w1 !! chat_threadid_key (id (from_user msg)) = None ->
  topic_of_user (id (from_user msg)) (topics (db w1)) = Some t ->
  In (content_type msg) supported_content_types ->
  transport_send msg group_id (Some t) = inl f ->
  exists reply_id w2,
    handle msg w = (Return tt, w2) /\
    messages (db w2)
    = (messages (db w1) ++ [mkMessageRow (message_id msg) f t false])%list /\
    topics (db w2) = topics (db w1) /\
    cache w2
    = <[chat_threadid_key (id (from_user msg)) := mkEntry (PInt t) None]>
        (cache w1) /\
    forwards (trace w2)
    = (forwards (trace w1)
         ++ [SendByType msg group_id (Some t) reply_id false])%list /\
    (forall title, In (CreateForumTopic title) (trace w2) ->
                   In (CreateForumTopic title) (trace w1)).
Proof.
  intros Hcheck Hnb Hspam Hauto Hcache Htopic Htype Hsend.
  unfold spam_verdict in Hspam.
  unfold _handle_user_message.
  unfold mbind at 1. unfold M_bind at 1.
  change (emit (LogInfo "Received message from user") w)
    with (Return tt, received w).
  cbv iota beta. unfold mbind at 1. unfold M_bind at 1.
  rewrite Hcheck. cbn [negb].
  unfold _handle_auto_response, _get_or_create_thread, _forward_to_group,
    _send_message_by_type.
  rewrite Hauto.
  munfold. cbn. rewrite Hnb. cbn. rewrite Hspam. cbn.
  rewrite Hcache. cbn. rewrite Htopic. cbn.
  match goal with
  | |- context [_get_reply_id msg t false ?w0] =>
      destruct (get_reply_id_pure msg t false w0) as (r & ->)
  end.
  rewrite bool_decide_eq_true_2 by (by apply list_elem_of_In).
  cbn. rewrite Hsend. cbn.
  eexists r, _. split; [reflexivity|]. cbn.
  do 3 (split; [reflexivity|]).
  split.
  { unfold forwards. rewrite !List.filter_app. cbn. by rewrite ?app_nil_r. }
  intros title. rewrite !in_app_iff. cbn.
  intros [[H|[[=]|[]]]|[[=]|[]]]; exact H.
Qed.

(** X23.  A spam message.  Let the captcha check admit [msg], its sender
    be unblocked, the spam detector flag it, the cache name the spam
    topic and the transport accept the message there with id [f].  Then
    [_handle_user_message] sends the message silently to the spam topic
    and the alert as a reply to it, and does nothing else: store and
    cache are unchanged, so no thread is created or looked up and no
    correlation is recorded. *)
Theorem spam_goes_to_the_spam_topic (msg : message) (spam_topic f : Z)
    (w w1 : world) :
  _check_captcha group_id msg (received w) = (Return true, w1) ->
  blocked_users (db w1) !! id (from_user msg) = None ->
  spam_verdict spam_detector_manager msg = true ->
  cvalue <$> cache w1 !! "spam_topic_id" = Some (PInt spam_topic) ->
  In (content_type msg) supported_content_types ->
  transport_send msg group_id (Some spam_topic) = inl f ->
  handle msg w
  = (Return tt,
     mkWorld (db w1) (cache w1)
       (trace w1 ++
          [SendByType msg group_id (Some spam_topic) None true;
           SendMessage group_id "[Spam Detected]" (Some spam_topic) (Some f)
             None;
           LogInfo "Spam message from user processed"])
       (rng w1) (rng_pos w1) (clock w1)).
Proof.
  intros Hcheck Hnb Hspam Htopic Htype Hsend.
  unfold spam_verdict in Hspam.
  unfold _handle_user_message.
  unfold mbind at 1. unfold M_bind at 1.
  change (emit (LogInfo "Received message from user") w)
    with (Return tt, received w).
  cbv iota beta. unfold mbind at 1. unfold M_bind at 1.
  rewrite Hcheck. cbn [negb].
  unfold _route_spam, _send_message_by_type, as_int.
  munfold. cbn. rewrite Hnb. cbn. rewrite Hspam. cbn.
  rewrite Htopic. cbn.
  rewrite bool_decide_eq_true_2 by (by apply list_elem_of_In).
  cbn. rewrite Hsend. cbn. by rewrite <- !app_assoc.
Qed.

End RelayingEndToEnd.


(** ** Further properties: callbacks *)

Section CallbackFacts.

Variable group_id : Z.
Variable collaborator : string -> string -> json -> M unit.
Variable json_loads : string -> option json.

(** X24.  The verify button.  A [verify_button] callback that names a
    user verifies that user, whoever pressed the button: the user is in
    [verified_users] and reported verified, the attempt row is deleted,
    and the user is told.  It does not look at the block list, which it
    leaves as it is, and it does not clear an outstanding challenge. *)
Theorem verify_button_verifies_named_user (call : callback_query)
    (body : json) (u : Z) (w : world) :
  json_get body "user_id" = Some (JInt u) ->
  u <> 0 ->
  exists w2,
    _handle_verify_button call body w = (Return tt, w2) /\
    is_user_verified u w2 = (Return (PBool true), w2) /\
    u ∈ verified_users (db w2) /\
    verification_attempts (db w2) !! u = None /\
    blocked_users (db w2) = blocked_users (db w) /\
    appeal_requests (db w2) = appeal_requests (db w) /\
    cache w2 !! captcha_key u = cache w !! captcha_key u /\
    In (SendMessage u "Verification successful, you can now send messages"
          None None None) (trace w2).
Proof.
  intros Hbody Hu. apply Z.eqb_neq in Hu.
  unfold _handle_verify_button. rewrite Hbody.
  unfold json_truthy. rewrite Hu.
  unfold set_user_verified, reset_attempts, is_user_verified.
  munfold. cbn.
  eexists. split; [reflexivity|]. cbn.
  rewrite lookup_insert_eq. cbn.
  split; [reflexivity|].
  split; [apply elem_of_union_l; by apply elem_of_singleton|].
  split; [apply lookup_delete_eq|].
  do 2 (split; [reflexivity|]).
  split; [by rewrite lookup_insert_ne by apply verified_key_ne_captcha_key|].
  rewrite !in_app_iff. cbn. tauto.
Qed.

(** X25.  Admin actions need the group chat.  A decodable callback whose
    action is neither [verify_button] nor [appeal_request] and which
    does not come from the group chat is acknowledged and otherwise
    ignored: no collaborator is called, and store and cache are
    unchanged.  In particular nobody approves or rejects an appeal from
    a private chat. *)
Theorem admin_actions_need_the_group_chat (call : callback_query)
    (w : world) (fields : list (string * json)) (action : json) :
  data call <> "null" ->
  json_loads (data call) = Some (JObj fields) ->
  obj_get "action" fields = Some action ->
  json_is_str action "verify_button" = false ->
  json_is_str action "appeal_request" = false ->
  call_chat_id call <> group_id ->
  handle_callback_query group_id collaborator json_loads call w
  = (Return tt,
     mkWorld (db w) (cache w)
       (trace w ++ [AnswerCallbackQuery (call_id call) None])
       (rng w) (rng_pos w) (clock w)).
Proof.
  intros Hnull Hloads Haction Hverify Happeal Hchat.
  apply String.eqb_neq in Hnull. apply Z.eqb_neq in Hchat.
  unfold handle_callback_query. rewrite Hnull.
  munfold. cbn. rewrite Hloads. cbn. rewrite Haction. cbn.
  rewrite Hverify, Happeal, Hchat. reflexivity.
Qed.

(** X26.  Guarded admin actions.  For each of the ten actions that the
    dispatcher serves only if the payload has a certain member (the
    seven routed to a collaborator method that takes the member,
    [delete_banned_thread], [approve_appeal] and [reject_appeal]), a
    payload without that member is answered by deleting the menu message
    and replying [Invalid action]; no collaborator is called, no appeal
    is resolved, and store and cache are unchanged.  The seven routed
    actions are exactly those the route table marks as guarded. *)
Theorem guarded_action_without_member_is_invalid (call : callback_query)
    (action key : string) (body : json) (w : world) :
  (In (action, key) guarded_members ->
   json_get body key = None ->
   _handle_admin_callback group_id collaborator call (JStr action) body w
   = (Return tt,
      mkWorld (db w) (cache w)
        (trace w ++ [DeleteMessage group_id (call_message_id call);
                     invalid_action_reply group_id])
        (rng w) (rng_pos w) (clock w))) /\
  (forall action' key' component method,
     find_route action' = Some (Guarded key' component method) ->
     In (action', key') guarded_members).
Proof.
  split.
  - intros Hin Hbody.
    unfold guarded_members in Hin. cbn [In] in Hin.
    repeat (destruct Hin as [Hin|Hin];
            [injection Hin as <- <-;
             unfold _handle_admin_callback, has_key, invalid_action;
             cbn; rewrite Hbody; munfold; cbn; by rewrite <- app_assoc|]).
    destruct Hin.
  - intros action' key' component method Hroute.
    unfold find_route in Hroute.
    destruct (List.find _ admin_routes) as [[name r]|] eqn:Hfind;
      [|discriminate Hroute].
    cbn in Hroute. injection Hroute as ->.
    apply find_some in Hfind as [Hmem Heq].
    cbn [fst] in Heq. apply String.eqb_eq in Heq. subst name.
    unfold admin_routes in Hmem. cbn [In] in Hmem.
    repeat (destruct Hmem as [Hmem|Hmem];
            [first [discriminate Hmem
                   |injection Hmem as <- <- _ _; cbn;
                    repeat first [left; reflexivity | right]]|]).
    destruct Hmem.
Qed.

(** X27.  A rejection is final.  After [_handle_reject_appeal] for a
    user who has an appeal row, whatever its status was, the block list
    is unchanged, and both a new press of the appeal button and a new
    submission are answered with the notice that the appeal was already
    rejected, without any further change. *)
Theorem rejection_is_final (call again : callback_query) (u : Z)
    (usr : user) (body : json) (w : world) (row : appeal_row) :
  appeal_requests (db w) !! u = Some row ->
  json_get body "user_id" = Some (JInt u) ->
  u <> 0 ->
  exists w1,
    _handle_reject_appeal call u w = (Return tt, w1) /\
    blocked_users (db w1) = blocked_users (db w) /\
    _handle_appeal_request again body w1
    = emit (AnswerCallbackQuery (call_id again)
              (Some "Your appeal was already rejected. No further appeals allowed."))
           w1 /\
    _submit_appeal group_id u usr w1
    = emit (SendMessage u
              "Your appeal was already rejected. No further appeals allowed."
              None None None) w1.
Proof.
  intros Hrow Hbody Hu. apply Z.eqb_neq in Hu.
  unfold _handle_reject_appeal. munfold. cbn.
  eexists. split; [reflexivity|]. cbn.
  split; [reflexivity|].
  split.
  - unfold _handle_appeal_request. rewrite Hbody.
    unfold json_truthy. rewrite Hu. munfold. cbn.
    rewrite lookup_alter_eq, Hrow. cbn. reflexivity.
  - unfold _submit_appeal. munfold. cbn.
    rewrite lookup_alter_eq, Hrow. cbn. reflexivity.
Qed.

(** X28.  An approved appeal uses up the right to appeal.  After
    [_handle_approve_appeal] for a user with an appeal row the user is
    unblocked; if the user is then blocked again by
    [block_user_by_attempts], the appeal button only answers that the
    appeal was already approved: no appeal flag is set and no challenge
    is issued. *)
Theorem approved_appeal_is_used_up (call again : callback_query) (u : Z)
    (name first last : option string) (body : json) (w : world)
    (row : appeal_row) :
  appeal_requests (db w) !! u = Some row ->
  json_get body "user_id" = Some (JInt u) ->
  u <> 0 ->
  exists w1 w2,
    _handle_approve_appeal call u w = (Return tt, w1) /\
    blocked_users (db w1) !! u = None /\
    block_user_by_attempts u name first last w1 = (Return true, w2) /\
    is_Some (blocked_users (db w2) !! u) /\
    _handle_appeal_request again body w2
    = emit (AnswerCallbackQuery (call_id again)
              (Some "Your appeal was already approved")) w2.
Proof.
  intros Hrow Hbody Hu. apply Z.eqb_neq in Hu.
  unfold _handle_approve_appeal, block_user_by_attempts. munfold. cbn.
  eexists _, _. split; [reflexivity|]. cbn.
  split; [apply lookup_delete_eq|].
  split; [reflexivity|]. cbn.
  split; [rewrite lookup_insert_eq; by eexists|].
  unfold _handle_appeal_request. rewrite Hbody.
  unfold json_truthy. rewrite Hu. munfold. cbn.
  rewrite lookup_alter_eq, Hrow. cbn. reflexivity.
Qed.

End CallbackFacts.


(** ** Further properties: the migration *)

Module MigrationMore.

Import Migration MigrationSchema.

Lemma insert_or_ignore_keeps_schema (now : Z) (name : string)
    (values : list (string * sqlval)) (d d' : gmap string table) :
  insert_or_ignore now name values d = inr d' ->
  columns <$> d' = columns <$> d.
Proof.
  unfold insert_or_ignore.
  destruct (d !! name) as [t|] eqn:Ht; [|discriminate].
  destruct (List.find _ values); [discriminate|].
  destruct (_ || _); intros [= <-]; [reflexivity|].
  rewrite fmap_insert. cbn. apply insert_id. by rewrite lookup_fmap, Ht.
Qed.

Lemma attempt_insert_keeps_schema (now : Z) (done failed name : string)
    (values : list (string * sqlval))
    (st : gmap string table * list log_entry) :
  columns <$> fst (attempt done failed (insert_or_ignore now name values) st)
  = columns <$> fst st.
Proof.
  unfold attempt.
  destruct (insert_or_ignore now name values (fst st)) as [e|d'] eqn:E;
    cbn; [reflexivity|].
  by apply insert_or_ignore_keeps_schema in E.
Qed.

Lemma create_table_schema (name : string) (cols : list column)
    (d : gmap string table) :
  columns <$> create_table_if_not_exists name cols d
  = create_schema name cols (columns <$> d).
Proof.
  unfold create_table_if_not_exists, create_schema. rewrite lookup_fmap.
  destruct (d !! name); cbn; [reflexivity|]. by rewrite fmap_insert.
Qed.

Lemma add_block_reason_schema_spec (now : Z)
    (st : gmap string table * list log_entry) :
  columns <$> fst (add_block_reason now st)
  = add_block_reason_schema (columns <$> fst st).
Proof.
  unfold add_block_reason, add_block_reason_schema, table_info.
  rewrite lookup_fmap.
  destruct (fst st !! "blocked_users") as [t|] eqn:Ht; cbn [fmap option_fmap option_map].
  - destruct (bool_decide ("block_reason" ∈ col_name <$> columns t)) eqn:Hc;
      cbn [negb fst snd]; [reflexivity|].
    unfold attempt, alter_table_add_column. rewrite Ht.
    change (col_name block_reason_column) with "block_reason".
    rewrite Hc. cbn [fst snd]. by rewrite fmap_insert.
  - rewrite bool_decide_eq_false_2 by (by intros ?%elem_of_nil).
    cbn [negb]. unfold attempt, alter_table_add_column. by rewrite Ht.
Qed.

Lemma upgrade_schema (now : Z) (d : gmap string table) :
  columns <$> fst (upgrade now d) = declare (columns <$> d).
Proof.
  unfold upgrade, declare.
  rewrite !attempt_insert_keeps_schema, add_block_reason_schema_spec.
  unfold attempt. cbn [fst snd]. by rewrite !create_table_schema.
Qed.

Lemma declare_idempotent (s : gmap string (list column)) :
  declare (declare s) = declare s.
Proof.
  unfold declare.
  set (s1 := create_schema "verification_attempts" _ s).
  set (s2 := create_schema "appeal_requests" _ s1).
  set (s3 := add_block_reason_schema s2).
  assert (H1 : is_Some (s1 !! "verification_attempts")).
  { unfold s1, create_schema.
    destruct (s !! "verification_attempts") eqn:E; [by rewrite E|].
    by rewrite lookup_insert_eq. }
  assert (H2 : is_Some (s2 !! "verification_attempts")
               /\ is_Some (s2 !! "appeal_requests")).
  { unfold s2, create_schema.
    destruct (s1 !! "appeal_requests") eqn:E; [by rewrite E|].
    by rewrite lookup_insert_ne, lookup_insert_eq. }
  destruct H2 as [H2 H2'].
  assert (H3 : is_Some (s3 !! "verification_attempts")
               /\ is_Some (s3 !! "appeal_requests")
               /\ add_block_reason_schema s3 = s3).
  { unfold s3, add_block_reason_schema.
    destruct (s2 !! "blocked_users") as [cols|] eqn:E.
    - destruct (bool_decide ("block_reason" ∈ col_name <$> cols)) eqn:Hc.
      + by rewrite E, Hc.
      + rewrite !lookup_insert_ne by done. rewrite lookup_insert_eq.
        rewrite bool_decide_eq_true_2; [done|].
        rewrite fmap_app. apply elem_of_app. right. cbn.
        apply list_elem_of_here.
    - by rewrite E. }
  destruct H3 as (Ha & Hb & Hc).
  assert (E1 : create_schema "verification_attempts"
                 verification_attempts_columns s3 = s3).
  { unfold create_schema. by destruct Ha as [? ->]. }
  rewrite E1.
  assert (E2 : create_schema "appeal_requests" appeal_requests_columns s3
               = s3).
  { unfold create_schema. by destruct Hb as [? ->]. }
  by rewrite E2.
Qed.

(** X29.  Re-running the migration never changes a declaration.  For
    every store, whatever its tables and whether or not a step fails,
    the table declarations after a second run of [upgrade] are those
    after the first run: the tables and the column are created at most
    once. *)
Theorem upgrade_declares_once (n1 n2 : Z) (d : gmap string table) :
  columns <$> fst (upgrade n2 (fst (upgrade n1 d)))
  = columns <$> fst (upgrade n1 d).
Proof. by rewrite !upgrade_schema, declare_idempotent. Qed.

(** X30.  A store without the prerequisite tables.  When the store has
    none of [settings], [blocked_users], [verification_attempts] and
    [appeal_requests], [upgrade] still creates [verification_attempts]
    and [appeal_requests], with no rows, creates neither [settings] nor
    [blocked_users], and reports exactly the three steps that failed; no
    error leaves [upgrade]. *)
Theorem upgrade_without_prerequisites (now : Z) (d : gmap string table) :
  d !! "settings" = None ->
  d !! "blocked_users" = None ->
  d !! "verification_attempts" = None ->
  d !! "appeal_requests" = None ->
  fst (upgrade now d)
  = <["appeal_requests" := mkTable appeal_requests_columns []]>
      (<["verification_attempts" :=
           mkTable verification_attempts_columns []]> d) /\
  errors (snd (upgrade now d))
  = ["Failed to add block_reason column to blocked_users table: no such table: blocked_users";
     "Failed to add appeal_mode setting: no such table: settings";
     "Failed to add captcha_image_enabled setting: no such table: settings"].
Proof.
  intros Hs Hb Hva Har.
  set (d1 := <["verification_attempts" :=
                 mkTable verification_attempts_columns []]> d).
  set (d2 := <["appeal_requests" := mkTable appeal_requests_columns []]> d1).
  assert (E1 : create_table_if_not_exists "verification_attempts"
                 verification_attempts_columns d = d1).
  { unfold create_table_if_not_exists. by rewrite Hva. }
  assert (E2 : create_table_if_not_exists "appeal_requests"
                 appeal_requests_columns d1 = d2).
  { unfold create_table_if_not_exists, d1.
    by rewrite lookup_insert_ne, Har by done. }
  assert (Hb2 : d2 !! "blocked_users" = None).
  { unfold d2, d1. by rewrite !lookup_insert_ne by done. }
  assert (Hs2 : d2 !! "settings" = None).
  { unfold d2, d1. by rewrite !lookup_insert_ne by done. }
  assert (E3 : table_info "blocked_users" d2 = []).
  { unfold table_info. by rewrite Hb2. }
  assert (E4 : alter_table_add_column now "blocked_users"
                 block_reason_column d2
               = inl "no such table: blocked_users").
  { unfold alter_table_add_column. by rewrite Hb2. }
  assert (E5 : forall values,
             insert_or_ignore now "settings" values d2
             = inl "no such table: settings").
  { intros values. unfold insert_or_ignore. by rewrite Hs2. }
  unfold upgrade, add_block_reason. unfold attempt. cbn [fst snd].
  rewrite E1, E2, E3.
  rewrite bool_decide_eq_false_2 by (by intros ?%elem_of_nil).
  cbn [negb fst snd]. rewrite E4. cbn [fst snd]. rewrite !E5.
  split; reflexivity.
Qed.

End MigrationMore.


(** ** Instances of the further properties *)

Lemma rate_limited_sender_is_silenced_witness :
  fst (_check_captcha 0 (text_message 5 "hi")
         (world_of empty_store
            (<[rate_limit_key 5 := mkEntry (PBool true) (Some 10)]>
               (setting "setting_captcha" "button")) 7))
  = Return false.
Proof.
  destruct (rate_limited_sender_is_silenced 0 (text_message 5 "hi")
              (world_of empty_store
                 (<[rate_limit_key 5 := mkEntry (PBool true) (Some 10)]>
                    (setting "setting_captcha" "button")) 7)
              (PBool false))
    as (w2 & Hrun & _);
    [vm_compute; reflexivity
    | vm_compute; reflexivity
    | vm_compute; reflexivity
    | vm_compute; reflexivity
    | vm_compute; reflexivity
    | vm_compute; reflexivity
    | ].
  by rewrite Hrun.
Defined.

Lemma verified_sender_is_admitted_witness :
  fst (_check_captcha 0 (text_message 5 "hi")
         (world_of (with_verified_users empty_store {[ 5 ]})
            (setting "setting_captcha" "math") 7))
  = Return true.
Proof.
  destruct (verified_sender_is_admitted 0 (text_message 5 "hi")
              (world_of (with_verified_users empty_store {[ 5 ]})
                 (setting "setting_captcha" "math") 7)
              (snd (is_user_verified 5
                      (world_of (with_verified_users empty_store {[ 5 ]})
                         (setting "setting_captcha" "math") 7)))
              (PBool true))
    as (Hrun & _);
    [vm_compute; reflexivity
    | vm_compute; reflexivity
    | vm_compute; reflexivity
    | vm_compute; reflexivity
    | vm_compute; reflexivity
    | ].
  by rewrite Hrun.
Defined.

Lemma first_contact_issues_math_challenge_witness :
  exists w2,
    _check_captcha 0 (text_message 5 "hi")
      (world_of empty_store (setting "setting_captcha" "math") 7)
    = (Return false, w2) /\
    cache w2 !! captcha_key 5 = Some (mkEntry (PInt 16) (Some 300)).
Proof.
  destruct (first_contact_issues_math_challenge 0 (text_message 5 "hi")
              (world_of empty_store (setting "setting_captcha" "math") 7)
              (PBool false))
    as (a & b & w2 & Hrun & _);
    [vm_compute; reflexivity
    | vm_compute; reflexivity
    | vm_compute; reflexivity
    | vm_compute; reflexivity
    | vm_compute; reflexivity
    | vm_compute; reflexivity
    | ].
  exists w2. split; [exact Hrun|].
  vm_compute in Hrun. injection Hrun as <-. reflexivity.
Defined.

Lemma failed_appeal_verification_clears_flag_witness :
  fst (_check_captcha 0 (text_message 5 "17")
         (world_of
            (with_blocked_users empty_store
               {[ 5 := mkBlocked None (Some "Ada") None
                         (Some "auto_attempts") 42 ]})
            (<[appeal_verification_key 5 := mkEntry (PBool true) (Some 300)]>
               (<[captcha_key 5 := mkEntry (PInt 16) (Some 300)]>
                  (setting "setting_captcha" "math"))) 7))
  = Return false.
Proof.
  rewrite (failed_appeal_verification_clears_flag 0 (text_message 5 "17")
             (world_of
                (with_blocked_users empty_store
                   {[ 5 := mkBlocked None (Some "Ada") None
                             (Some "auto_attempts") 42 ]})
                (<[appeal_verification_key 5 :=
                     mkEntry (PBool true) (Some 300)]>
                   (<[captcha_key 5 := mkEntry (PInt 16) (Some 300)]>
                      (setting "setting_captcha" "math"))) 7)
             (mkBlocked None (Some "Ada") None (Some "auto_attempts") 42));
    [reflexivity
    | vm_compute; reflexivity
    | vm_compute; reflexivity
    | vm_compute; reflexivity
    | vm_compute; reflexivity].
Defined.

Lemma passed_appeal_verification_files_appeal_witness :
  exists w2,
    _check_captcha 0 (text_message 5 "16")
      (world_of
         (with_blocked_users empty_store
            {[ 5 := mkBlocked None (Some "Ada") None
                      (Some "auto_attempts") 42 ]})
         (<[appeal_verification_key 5 := mkEntry (PBool true) (Some 300)]>
            (<[captcha_key 5 := mkEntry (PInt 16) (Some 300)]>
               (setting "setting_captcha" "math"))) 7)
    = (Return false, w2) /\
    status <$> appeal_requests (db w2) !! 5 = Some "pending".
Proof.
  destruct (passed_appeal_verification_files_appeal 0 (text_message 5 "16")
              (world_of
                 (with_blocked_users empty_store
                    {[ 5 := mkBlocked None (Some "Ada") None
                              (Some "auto_attempts") 42 ]})
                 (<[appeal_verification_key 5 :=
                      mkEntry (PBool true) (Some 300)]>
                    (<[captcha_key 5 := mkEntry (PInt 16) (Some 300)]>
                       (setting "setting_captcha" "math"))) 7)
              (mkBlocked None (Some "Ada") None (Some "auto_attempts") 42)
              (PInt 16))
    as (w2 & Hrun & Happeal & _);
    [vm_compute; reflexivity
    | vm_compute; reflexivity
    | vm_compute; reflexivity
    | vm_compute; reflexivity
    | vm_compute; reflexivity
    | vm_compute; reflexivity
    | vm_compute; reflexivity
    | ].
  exists w2. split; [exact Hrun|].
  rewrite Happeal. by rewrite lookup_insert_eq.
Defined.

Lemma appeal_unreachable_while_captcha_disabled_witness :
  exists w1,
    _handle_appeal_request
      (mkCall "q1" (payload "appeal_request" 5) (mkUser 5 None None None) 5 9)
      (JObj [("action", JStr "appeal_request"); ("user_id", JInt 5)])
      (world_of
         (with_blocked_users empty_store
            {[ 5 := mkBlocked None (Some "Ada") None
                      (Some "auto_attempts") 42 ]})
         (setting "setting_captcha" "disable") 7)
    = (Return tt, w1) /\
    cvalue <$> cache w1 !! captcha_key 5 = Some (PInt 16).
Proof.
  destruct (appeal_unreachable_while_captcha_disabled 0 no_send
              (fun _ => None) (fun _ => None) (fun _ => None) None None
              (mkCall "q1" (payload "appeal_request" 5)
                 (mkUser 5 None None None) 5 9)
              (JObj [("action", JStr "appeal_request"); ("user_id", JInt 5)])
              5
              (world_of
                 (with_blocked_users empty_store
                    {[ 5 := mkBlocked None (Some "Ada") None
                              (Some "auto_attempts") 42 ]})
                 (setting "setting_captcha" "disable") 7)
              (mkBlocked None (Some "Ada") None (Some "auto_attempts") 42))
    as (a & b & w1 & Hrun & _);
    [vm_compute; reflexivity
    | vm_compute; reflexivity
    | vm_compute; reflexivity
    | vm_compute; reflexivity
    | discriminate
    | ].
  exists w1. split; [exact Hrun|].
  vm_compute in Hrun. injection Hrun as <-. reflexivity.
Defined.

Lemma unsupported_content_type_raises_witness :
  fst (_forward_to_group 0 no_send
         (mkMessage 1 (mkUser 5 None (Some "Ada") None) 5 None None
            "location" None)
         77 (world_of empty_store ∅ 7))
  = Raise (ValueError "Unsupported message typelocation").
Proof.
  rewrite (unsupported_content_type_raises 0 no_send
             (mkMessage 1 (mkUser 5 None (Some "Ada") None) 5 None None
                "location" None)
             77 (world_of empty_store ∅ 7));
    [reflexivity
    | cbn; intuition discriminate].
Defined.

Lemma forward_then_staff_reply_resolves_witness :
  exists w2,
    _forward_to_group 0 (fun _ _ _ => inl 50) (text_message 5 "hello") 77
      (world_of empty_store ∅ 7)
    = (Return (Some 50), w2) /\
    _get_reply_id
      (mkMessage 60 (mkUser 900 None (Some "Staff") None) 0 (Some 77)
         (Some "hi") "text" (Some (mkReply 50 1)))
      77 true w2
    = (Return (Some 1), w2).
Proof.
  destruct (forward_then_staff_reply_resolves 0 (fun _ _ _ => inl 50)
              (text_message 5 "hello")
              (mkMessage 60 (mkUser 900 None (Some "Staff") None) 0 (Some 77)
                 (Some "hi") "text" (Some (mkReply 50 1)))
              77 50 (world_of empty_store ∅ 7) (mkReply 50 1))
    as (w2 & Hrun & _ & _ & _ & Hreply);
    [cbn; tauto
    | vm_compute; reflexivity
    | intros row []
    | vm_compute; reflexivity
    | vm_compute; reflexivity
    | discriminate
    | ].
  exists w2. split; [exact Hrun | exact Hreply].
Defined.

Lemma staff_message_then_user_reply_resolves_witness :
  exists w2,
    _handle_group_message 0 (fun _ _ _ => inl 51)
      (mkMessage 60 (mkUser 900 None (Some "Staff") None) 0 (Some 77)
         (Some "hi") "text" None)
      (world_of (with_topics empty_store [(5, 77)]) ∅ 7)
    = (Return tt, w2) /\
    _get_reply_id
      (mkMessage 2 (mkUser 5 None (Some "Ada") None) 5 None (Some "ok")
         "text" (Some (mkReply 51 1)))
      77 false w2
    = (Return (Some 60), w2).
Proof.
  destruct (staff_message_then_user_reply_resolves 0 (fun _ _ _ => inl 51)
              (mkMessage 60 (mkUser 900 None (Some "Staff") None) 0 (Some 77)
                 (Some "hi") "text" None)
              (mkMessage 2 (mkUser 5 None (Some "Ada") None) 5 None
                 (Some "ok") "text" (Some (mkReply 51 1)))
              77 5 51 (world_of (with_topics empty_store [(5, 77)]) ∅ 7)
              (mkReply 51 1))
    as (w2 & Hrun & _ & _ & Hreply);
    [vm_compute; reflexivity
    | vm_compute; reflexivity
    | vm_compute; reflexivity
    | cbn; tauto
    | vm_compute; reflexivity
    | intros row []
    | vm_compute; reflexivity
    | vm_compute; reflexivity
    | discriminate
    | ].
  exists w2. split; [exact Hrun | exact Hreply].
Defined.

Lemma topics_stay_unique_witness :
  NoDup (fst <$> topics
           (db (snd (_get_or_create_thread 0 (fun _ => Some 78)
                       (fun _ => None) (text_message 6 "hello")
                       (world_of (with_topics empty_store [(5, 77)]) ∅ 7))))).
Proof.
  destruct (topics_stay_unique 0 no_send (fun _ => Some 78)
                  (fun _ => None) (text_message 6 "hello") 77
                  (world_of (with_topics empty_store [(5, 77)]) ∅ 7))
    as [Hthread _]; [cbn; apply NoDup_singleton | exact Hthread].
Defined.

Lemma thread_lookup_is_cached_witness :
  fst (_get_or_create_thread 0 (fun _ => None) (fun _ => None)
         (text_message 5 "hello")
         (world_of (with_topics empty_store [(5, 77)]) ∅ 7))
  = Return (Some 77).
Proof.
  destruct (thread_lookup_is_cached 0 (fun _ => None) (fun _ => None)
              (text_message 5 "hello") 77
              (world_of (with_topics empty_store [(5, 77)]) ∅ 7))
    as (w2 & Hrun & _);
    [vm_compute; reflexivity
    | vm_compute; reflexivity
    | ].
  by rewrite Hrun.
Defined.

Lemma failed_thread_creation_leaves_no_trace_witness :
  fst (_get_or_create_thread 0 (fun _ => None) (fun _ => None)
         (text_message 5 "hello") (world_of empty_store ∅ 7))
  = Return None.
Proof.
  destruct (failed_thread_creation_leaves_no_trace 0 (fun _ => None)
              (fun _ => None) (text_message 5 "hello")
              (world_of empty_store ∅ 7))
    as (w2 & Hrun & _);
    [vm_compute; reflexivity
    | vm_compute; reflexivity
    | vm_compute; reflexivity
    | ].
  by rewrite Hrun.
Defined.

Lemma orphaned_thread_is_closed_witness :
  fst (_handle_group_message 0 no_send
         (mkMessage 60 (mkUser 900 None (Some "Staff") None) 0 (Some 77)
            (Some "hi") "text" None)
         (world_of empty_store ∅ 7))
  = Return tt.
Proof.
  rewrite (orphaned_thread_is_closed 0 no_send
             (mkMessage 60 (mkUser 900 None (Some "Staff") None) 0 (Some 77)
                (Some "hi") "text" None)
             77 (world_of empty_store ∅ 7));
    [reflexivity
    | vm_compute; reflexivity
    | vm_compute; reflexivity
    | vm_compute; reflexivity].
Defined.

Lemma other_transport_error_keeps_thread_witness :
  exists w2,
    _forward_to_group 0 no_send (text_message 5 "hello") 77
      (world_of (with_topics empty_store [(5, 77)]) ∅ 7)
    = (Return None, w2) /\
    topics (db w2) = [(5, 77)].
Proof.
  destruct (other_transport_error_keeps_thread 0 no_send
              (text_message 5 "hello") 77
              (world_of (with_topics empty_store [(5, 77)]) ∅ 7)
              "Bad Request: chat not found")
    as (reply_id & w2 & Hrun & Hdb & _);
    [cbn; tauto
    | vm_compute; reflexivity
    | vm_compute; reflexivity
    | ].
  exists w2. split; [exact Hrun|]. by rewrite Hdb.
Defined.

Lemma admitted_message_is_relayed_witness :
  exists w2,
    _handle_user_message 0 (fun _ _ _ => inl 50) (fun _ => None)
      (fun _ => None) (fun _ => None) None None (text_message 5 "hello")
      (world_of (with_topics empty_store [(5, 77)])
         (setting "setting_captcha" "disable") 7)
    = (Return tt, w2) /\
    messages (db w2) = [mkMessageRow 1 50 77 false].
Proof.
  destruct (admitted_message_is_relayed 0 (fun _ _ _ => inl 50)
              (fun _ => None) (fun _ => None) (fun _ => None) None None
              (text_message 5 "hello") 77 50
              (world_of (with_topics empty_store [(5, 77)])
                 (setting "setting_captcha" "disable") 7)
              (received
                 (world_of (with_topics empty_store [(5, 77)])
                    (setting "setting_captcha" "disable") 7)))
    as (reply_id & w2 & Hrun & Hmessages & _);
    [vm_compute; reflexivity
    | vm_compute; reflexivity
    | vm_compute; reflexivity
    | vm_compute; reflexivity
    | vm_compute; reflexivity
    | vm_compute; reflexivity
    | cbn; tauto
    | vm_compute; reflexivity
    | ].
  exists w2. split; [exact Hrun|]. by rewrite Hmessages.
Defined.

Lemma spam_goes_to_the_spam_topic_witness :
  fst (_handle_user_message 0 (fun _ _ _ => inl 50) (fun _ => None)
         (fun _ => None) (fun _ => None) (Some (fun _ => true)) None
         (text_message 5 "buy now")
         (world_of empty_store
            (<["spam_topic_id" := mkEntry (PInt 9) None]>
               (setting "setting_captcha" "disable")) 7))
  = Return tt.
Proof.
  rewrite (spam_goes_to_the_spam_topic 0 (fun _ _ _ => inl 50)
             (fun _ => None) (fun _ => None) (fun _ => None)
             (Some (fun _ => true)) None (text_message 5 "buy now") 9 50
             (world_of empty_store
                (<["spam_topic_id" := mkEntry (PInt 9) None]>
                   (setting "setting_captcha" "disable")) 7)
             (received
                (world_of empty_store
                   (<["spam_topic_id" := mkEntry (PInt 9) None]>
                      (setting "setting_captcha" "disable")) 7)));
    [reflexivity
    | vm_compute; reflexivity
    | vm_compute; reflexivity
    | vm_compute; reflexivity
    | vm_compute; reflexivity
    | cbn; tauto
    | vm_compute; reflexivity].
Defined.

Lemma verify_button_verifies_named_user_witness :
  exists w2,
    _handle_verify_button
      (mkCall "q1" (payload "verify_button" 5) (mkUser 5 None None None) 5 9)
      (JObj [("action", JStr "verify_button"); ("user_id", JInt 5)])
      (world_of empty_store ∅ 7)
    = (Return tt, w2) /\
    5 ∈ verified_users (db w2).
Proof.
  destruct (verify_button_verifies_named_user
              (mkCall "q1" (payload "verify_button" 5)
                 (mkUser 5 None None None) 5 9)
              (JObj [("action", JStr "verify_button"); ("user_id", JInt 5)])
              5 (world_of empty_store ∅ 7))
    as (w2 & Hrun & _ & Hin & _);
    [vm_compute; reflexivity
    | discriminate
    | ].
  exists w2. split; [exact Hrun | exact Hin].
Defined.

Lemma admin_actions_need_the_group_chat_witness :
  handle_callback_query 0 idle_collaborator Decoder.loads
    (mkCall "q1" (payload "approve_appeal" 7) (mkUser 7 None None None) 7 9)
    blocked_without_appeal
  = (Return tt,
     mkWorld (db blocked_without_appeal) (cache blocked_without_appeal)
       [AnswerCallbackQuery "q1" None] (fun _ => 7) 0 1000).
Proof.
  apply (admin_actions_need_the_group_chat 0 idle_collaborator Decoder.loads
           (mkCall "q1" (payload "approve_appeal" 7)
              (mkUser 7 None None None) 7 9)
           blocked_without_appeal
           [("action", JStr "approve_appeal"); ("user_id", JInt 7)]
           (JStr "approve_appeal"));
    [intros E; vm_compute in E; discriminate E
    | vm_compute; reflexivity
    | vm_compute; reflexivity
    | vm_compute; reflexivity
    | vm_compute; reflexivity
    | discriminate].
Defined.

Lemma guarded_action_without_member_is_invalid_witness :
  fst (_handle_admin_callback 0 idle_collaborator approve_call
         (JStr "delete_banned_thread")
         (JObj [("action", JStr "delete_banned_thread")])
         blocked_without_appeal)
  = Return tt.
Proof.
  destruct (guarded_action_without_member_is_invalid 0 idle_collaborator
              approve_call "delete_banned_thread" "thread_id"
              (JObj [("action", JStr "delete_banned_thread")])
              blocked_without_appeal)
    as [Hrun _].
  rewrite Hrun; [reflexivity | cbn; tauto | vm_compute; reflexivity].
Defined.

Lemma rejection_is_final_witness :
  exists w1,
    _handle_reject_appeal approve_call 7
      (world_of
         (with_appeal_requests empty_store
            {[ 7 := mkAppeal 10 "pending" None None ]}) ∅ 7)
    = (Return tt, w1) /\
    status <$> appeal_requests (db w1) !! 7 = Some "rejected".
Proof.
  destruct (rejection_is_final 0 approve_call approve_call 7
              (mkUser 7 None None None)
              (JObj [("action", JStr "appeal_request"); ("user_id", JInt 7)])
              (world_of
                 (with_appeal_requests empty_store
                    {[ 7 := mkAppeal 10 "pending" None None ]}) ∅ 7)
              (mkAppeal 10 "pending" None None))
    as (w1 & Hrun & _);
    [vm_compute; reflexivity
    | vm_compute; reflexivity
    | discriminate
    | ].
  exists w1. split; [exact Hrun|].
  vm_compute in Hrun. injection Hrun as <-. reflexivity.
Defined.

Lemma approved_appeal_is_used_up_witness :
  exists w1,
    _handle_approve_appeal approve_call 7
      (world_of
         (with_appeal_requests empty_store
            {[ 7 := mkAppeal 10 "pending" None None ]}) ∅ 7)
    = (Return tt, w1) /\
    status <$> appeal_requests (db w1) !! 7 = Some "approved".
Proof.
  destruct (approved_appeal_is_used_up approve_call approve_call 7
              None (Some "Eve") None
              (JObj [("action", JStr "appeal_request"); ("user_id", JInt 7)])
              (world_of
                 (with_appeal_requests empty_store
                    {[ 7 := mkAppeal 10 "pending" None None ]}) ∅ 7)
              (mkAppeal 10 "pending" None None))
    as (w1 & w2 & Hrun & _);
    [vm_compute; reflexivity
    | vm_compute; reflexivity
    | discriminate
    | ].
  exists w1. split; [exact Hrun|].
  vm_compute in Hrun. injection Hrun as <-. reflexivity.
Defined.

Lemma upgrade_without_prerequisites_witness :
  Migration.errors (snd (Migration.upgrade 10 ∅))
  = ["Failed to add block_reason column to blocked_users table: no such table: blocked_users";
     "Failed to add appeal_mode setting: no such table: settings";
     "Failed to add captcha_image_enabled setting: no such table: settings"].
Proof.
  exact (proj2 (MigrationMore.upgrade_without_prerequisites 10 ∅
                  eq_refl eq_refl eq_refl eq_refl)).
Defined.
